(** * rollcall-server-go: the roster store and the spreadsheet importer

    A shallow embedding of package [db] (the Redis-backed roster store and
    [ImportStudentsFromExcel]) together with the properties its
    specification states about it.

    The Go code talks to two external collaborators, a Redis server (through
    go-redis) and a spreadsheet parser (excelize).  Both are modelled by the
    interface they present to package [db]:

    - Redis is one keyspace of typed values.  A command against a key that
      holds the other kind of value answers WRONGTYPE and changes nothing; a
      pipeline is one round trip whose commands are executed one after the
      other, independently (it is not a transaction), and whose [Exec]
      reports the first error.  A round trip may also fail as a whole
      (connection error): the world carries a schedule of such faults, and a
      faulted round trip reaches no key.
    - Every command sent is appended to a trace, so that "touches the
      backend" and "which keys" are observable.
    - What the server decides on its own is drawn from an entropy stream
      carried by the world: the member SRANDMEMBER picks, and the order in
      which SMEMBERS hands back the members of a set (Redis promises none).
    - A spreadsheet stream is represented by what excelize makes of it.

    The calls to [log.Printf] and the deferred [f.Close()] are left out:
    they have no effect on the store and no result. *)

From stdpp Require Import gmap strings list fin_maps.
From Stdlib Require Import Lia.

(** ** package models *)

Module models.

(** [type Clazz struct { ID, Name string }] *)
Record Clazz := mkClazz { Clazz_ID : string; Clazz_Name : string }.

(** [type Student struct { ID, Name, ClassID string }] *)
Record Student := mkStudent {
  Student_ID : string;
  Student_Name : string;
  Student_ClassID : string
}.

End models.
Export models.

(** ** Go errors *)

(** The errors a Redis command can answer with: [redis.Nil], a WRONGTYPE
    reply, or a failure of the round trip itself. *)
Inductive redis_err := redis_Nil | redis_WrongType | redis_ConnErr.

(** Go [error] values as package [db] builds them: [errors.New], an error
    handed over by go-redis or by excelize, and [fmt.Errorf] with [%w],
    which wraps a cause under a message. *)
Inductive error :=
| errors_New (msg : string)
| redis_error (e : redis_err)
| excelize_error (msg : string)
| fmt_Errorf (msg : string) (cause : error).

(** [errors.Is(err, redis.Nil)]: walks the [%w] chain. *)
Fixpoint errors_Is_redis_Nil (e : error) : bool :=
  match e with
  | redis_error redis_Nil => true
  | fmt_Errorf _ cause => errors_Is_redis_Nil cause
  | _ => false
  end.

(** ** The Redis backend *)

Module redis.

(** A key holds a set of strings or a hash of string fields. *)
Inductive value :=
| VSet (s : gset string)
| VHash (h : gmap string string).

(** The commands package [db] issues. *)
Inductive command :=
| SAdd (key member : string)
| HMSet (key : string) (fields : gmap string string)
| HGetAll (key : string)
| SMembers (key : string)
| SIsMember (key member : string)
| SRandMember (key : string).

(** The world package [db] runs in: the keyspace, the schedule of
    connection faults (one flag per round trip to come, none scheduled
    when the list is exhausted), the entropy SRANDMEMBER and SMEMBERS draw
    from, and the trace of commands sent so far. *)
Record World := mkWorld {
  db : gmap string value;
  faults : list bool;
  entropy : list nat;
  trace : list command
}.

(** SMEMBERS promises no order.  The server's order is modelled by
    insertion: the members are put one after the other at the positions
    the numbers [ns] give, so that every order of the members is the answer
    for some [ns] (and the numbers exhausted leave the members as they
    are). *)
Definition insert_at {A} (i : nat) (x : A) (l : list A) : list A :=
  take i l ++ x :: drop i l.

Fixpoint arrange {A} (ns : list nat) (l : list A) : list A :=
  match l with
  | [] => []
  | x :: rest =>
      let r := arrange (tail ns) rest in
      insert_at (hd 0 ns mod S (length r)) x r
  end.

(** Server side of the two write commands. *)
Definition exec_SAdd (key member : string) (d : gmap string value)
  : gmap string value * option redis_err :=
  match d !! key with
  | None => (<[key := VSet {[member]}]> d, None)
  | Some (VSet s) => (<[key := VSet ({[member]} ∪ s)]> d, None)
  | Some (VHash _) => (d, Some redis_WrongType)
  end.

(** HMSET sets the given fields and keeps the other fields of the hash. *)
Definition exec_HMSet (key : string) (fields : gmap string string)
    (d : gmap string value) : gmap string value * option redis_err :=
  match d !! key with
  | None => (<[key := VHash fields]> d, None)
  | Some (VHash h) => (<[key := VHash (fields ∪ h)]> d, None)
  | Some (VSet _) => (d, Some redis_WrongType)
  end.

(** Server side of one queued command; the replies of reads are dropped,
    as a pipeline's caller in package [db] drops them. *)
Definition exec_command (c : command) (d : gmap string value)
  : gmap string value * option redis_err :=
  match c with
  | SAdd k m => exec_SAdd k m d
  | HMSet k f => exec_HMSet k f d
  | HGetAll k =>
      (d, match d !! k with Some (VSet _) => Some redis_WrongType | _ => None end)
  | SMembers k | SIsMember k _ | SRandMember k =>
      (d, match d !! k with Some (VHash _) => Some redis_WrongType | _ => None end)
  end.

(** The commands of a pipeline run in order; each one runs whether or not
    an earlier one failed, and the first error is kept. *)
Fixpoint exec_pipeline (cmds : list command) (d : gmap string value)
  : gmap string value * option redis_err :=
  match cmds with
  | [] => (d, None)
  | c :: rest =>
      let '(d1, e1) := exec_command c d in
      let '(d2, e2) := exec_pipeline rest d1 in
      (d2, match e1 with Some e => Some e | None => e2 end)
  end.

End redis.
Export redis.

(** ** The state monad of the service *)

Definition M (A : Type) : Type := World → A * World.

Definition ret {A} (a : A) : M A := λ w, (a, w).
Definition bind {A B} (m : M A) (k : A → M B) : M B :=
  λ w, let '(a, w1) := m w in k a w1.

Notation "'let*' x ':=' m 'in' k" := (bind m (λ x, k))
  (at level 10, x name, m at level 100, k at level 200, only parsing).
Notation "'let*' ' pat ':=' m 'in' k" :=
  (bind m (λ x, match x with pat => k end))
  (at level 10, pat pattern, m at level 100, k at level 200, only parsing).

(** One round trip to the server: the commands are logged, one fault flag is
    consumed, and the answer says whether the round trip failed. *)
Definition roundtrip (cmds : list command) : M bool :=
  λ w,
    let w1 := mkWorld (db w) (tail (faults w)) (entropy w) (trace w ++ cmds) in
    (match faults w with b :: _ => b | [] => false end, w1).

Definition get_db : M (gmap string value) := λ w, (db w, w).
Definition put_db (d : gmap string value) : M unit :=
  λ w, (tt, mkWorld d (faults w) (entropy w) (trace w)).

(** Draws the next number of the entropy stream (0 once it is exhausted). *)
Definition draw : M nat :=
  λ w, (match entropy w with n :: _ => n | [] => 0 end,
        mkWorld (db w) (faults w) (tail (entropy w)) (trace w)).

(** Draws the next [n] numbers of the entropy stream. *)
Definition draws (n : nat) : M (list nat) :=
  λ w, (take n (entropy w),
        mkWorld (db w) (faults w) (drop n (entropy w)) (trace w)).

(** ** The go-redis client calls used by package [db] *)

Module Client.

(** [pipe.Exec]: the queued commands travel in one round trip. *)
Definition Pipeline_Exec (cmds : list command) : M (option error) :=
  let* faulted := roundtrip cmds in
  if (faulted : bool) then ret (Some (redis_error redis_ConnErr)) else
  let* d := get_db in
  let '(d', e) := exec_pipeline cmds d in
  let* _ := put_db d' in
  ret (redis_error <$> e).

(** [Client.SIsMember(key, member).Result()] *)
Definition SIsMember (key member : string) : M (bool * option error) :=
  let* faulted := roundtrip [redis.SIsMember key member] in
  if (faulted : bool) then ret (false, Some (redis_error redis_ConnErr)) else
  let* d := get_db in
  match d !! key with
  | None => ret (false, None)
  | Some (VSet s) => ret (bool_decide (member ∈ s), None)
  | Some (VHash _) => ret (false, Some (redis_error redis_WrongType))
  end.

(** [Client.HGetAll(key).Result()]: a missing key answers the empty map. *)
Definition HGetAll (key : string)
  : M (gmap string string * option error) :=
  let* faulted := roundtrip [redis.HGetAll key] in
  if (faulted : bool) then ret (∅, Some (redis_error redis_ConnErr)) else
  let* d := get_db in
  match d !! key with
  | None => ret (∅, None)
  | Some (VHash h) => ret (h, None)
  | Some (VSet _) => ret (∅, Some (redis_error redis_WrongType))
  end.

(** [Client.SMembers(key).Result()]: a missing key answers no member;
    otherwise all the members, in the order the server chooses (one
    entropy number per member). *)
Definition SMembers (key : string) : M (list string * option error) :=
  let* faulted := roundtrip [redis.SMembers key] in
  if (faulted : bool) then ret ([], Some (redis_error redis_ConnErr)) else
  let* d := get_db in
  match d !! key with
  | None => ret ([], None)
  | Some (VSet s) =>
      let* ns := draws (size s) in
      ret (arrange ns (elements s), None)
  | Some (VHash _) => ret ([], Some (redis_error redis_WrongType))
  end.

(** [Client.SRandMember(key).Result()]: a missing key (an empty set is a
    missing key for Redis) answers [redis.Nil]; otherwise one member,
    chosen by the next entropy number. *)
Definition SRandMember (key : string) : M (string * option error) :=
  let* faulted := roundtrip [redis.SRandMember key] in
  if (faulted : bool) then ret ("", Some (redis_error redis_ConnErr)) else
  let* d := get_db in
  match d !! key with
  | None => ret ("", Some (redis_error redis_Nil))
  | Some (VSet s) =>
      match elements s with
      | [] => ret ("", Some (redis_error redis_Nil))
      | x :: l =>
          let* n := draw in
          ret (nth (n mod length (x :: l)) (x :: l) x, None)
      end
  | Some (VHash _) => ret ("", Some (redis_error redis_WrongType))
  end.

End Client.

(** ** The excelize calls used by package [db] *)

Module excelize.

(** A sheet has a name and either its rows of cells or the error
    [GetRows] reports for it. *)
Record Sheet := mkSheet {
  sheet_name : string;
  sheet_rows : list (list string) + string
}.

(** An opened workbook: its sheets, in order. *)
Definition File := list Sheet.

(** What excelize makes of an [io.Reader]: a stream it cannot open, or a
    workbook. *)
Inductive Reader :=
| Unreadable (reason : string)
| Workbook (f : File).

(** [excelize.OpenReader(file)] answers a file or an error. *)
Definition OpenReader (file : Reader) : File + error :=
  match file with
  | Unreadable reason => inr (excelize_error reason)
  | Workbook f => inl f
  end.

(** [f.GetSheetName(index)]: the empty string when there is no such
    sheet. *)
Definition GetSheetName (f : File) (index : nat) : string :=
  match f !! index with
  | Some sh => sheet_name sh
  | None => ""
  end.

(** [f.GetRows(sheet)] *)
Definition GetRows (f : File) (sheet : string)
  : list (list string) * option error :=
  match List.find (λ sh, String.eqb (sheet_name sh) sheet) f with
  | Some sh =>
      match sheet_rows sh with
      | inl rows => (rows, None)
      | inr reason => ([], Some (excelize_error reason))
      end
  | None => ([], Some (excelize_error "sheet does not exist"))
  end.

End excelize.

(** ** package db *)

Definition classesKey : string := "classes".
Definition classInfoPrefix : string := "class:".
Definition classStudentsPrefix : string := "class:".
Definition studentInfoPrefix : string := "student:".

Definition getClassInfoKey (classID : string) : string :=
  classInfoPrefix +:+ classID.

Definition getClassStudentsKey (classID : string) : string :=
  classStudentsPrefix +:+ classID +:+ ":students".

Definition getStudentInfoKey (studentID : string) : string :=
  studentInfoPrefix +:+ studentID.

(** Go's [s == ""]. *)
Definition is_empty (s : string) : bool :=
  match s with
  | EmptyString => true
  | String _ _ => false
  end.

(** Go's [data[field]] on a [map[string]string]: the zero value when the
    field is missing. *)
Definition field (data : gmap string string) (name : string) : string :=
  default "" (data !! name).

(** *** Class operations *)

Definition AddClass (clazz : Clazz) : M (option error) :=
  if is_empty (Clazz_ID clazz) || is_empty (Clazz_Name clazz) then
    ret (Some (errors_New "class ID and Name cannot be empty"))
  else
    let classKey := getClassInfoKey (Clazz_ID clazz) in
    let* err :=
      Client.Pipeline_Exec
        [ SAdd classesKey (Clazz_ID clazz);
          HMSet classKey
            {[ "id" := Clazz_ID clazz; "name" := Clazz_Name clazz ]} ] in
    match err with
    | Some e => ret (Some (fmt_Errorf "failed to add class to Redis: " e))
    | None => ret None
    end.

Definition GetClassByID (classID : string) : M (option Clazz * option error) :=
  let classKey := getClassInfoKey classID in
  let* '(data, err) := Client.HGetAll classKey in
  match err with
  | Some e =>
      if errors_Is_redis_Nil e then ret (None, None)
      else ret (None, Some (fmt_Errorf "failed to get class from Redis: " e))
  | None =>
      if size data =? 0 then ret (None, None)
      else ret (Some (mkClazz (field data "id") (field data "name")), None)
  end.

(** The loop of [GetAllClasses] over the class IDs. *)
Fixpoint GetAllClasses_range (classIDs : list string) (classes : list Clazz)
  : M (list Clazz) :=
  match classIDs with
  | [] => ret classes
  | id :: rest =>
      let* '(clazz, err) := GetClassByID id in
      match err with
      | Some _ => GetAllClasses_range rest classes
      | None =>
          match clazz with
          | Some c => GetAllClasses_range rest (classes ++ [c])
          | None => GetAllClasses_range rest classes
          end
      end
  end.

(** A Go slice result is [None] for [nil] and [Some l] otherwise. *)
Definition GetAllClasses : M (option (list Clazz) * option error) :=
  let* '(classIDs, err) := Client.SMembers classesKey in
  match err with
  | Some e =>
      if errors_Is_redis_Nil e then ret (Some [], None)
      else ret (None, Some (fmt_Errorf "failed to get class IDs from Redis: " e))
  | None =>
      let* classes := GetAllClasses_range classIDs [] in
      ret (Some classes, None)
  end.

Definition ClassExists (classID : string) : M (bool * option error) :=
  let* '(exists_, err) := Client.SIsMember classesKey classID in
  match err with
  | Some e =>
      ret (false, Some (fmt_Errorf "failed to check class existence: " e))
  | None => ret (exists_, None)
  end.

(** *** Student operations *)

Definition AddStudent (student : Student) : M (option error) :=
  if is_empty (Student_ID student) || is_empty (Student_Name student)
     || is_empty (Student_ClassID student) then
    ret (Some (errors_New "student ID, Name, and ClassID cannot be empty"))
  else
    let* '(exists_, err) := ClassExists (Student_ClassID student) in
    match err with
    | Some e => ret (Some e)
    | None =>
        let* created :=
          (if negb exists_ then
             AddClass (mkClazz (Student_ClassID student)
                               ("Class " +:+ Student_ClassID student))
           else ret None) in
        match created with
        | Some e =>
            ret (Some (fmt_Errorf
                         ("student's class " +:+ Student_ClassID student
                          +:+ " does not exist and auto-creation failed: ") e))
        | None =>
            let studentKey := getStudentInfoKey (Student_ID student) in
            let classStudentsKey :=
              getClassStudentsKey (Student_ClassID student) in
            let* execErr :=
              Client.Pipeline_Exec
                [ SAdd classStudentsKey (Student_ID student);
                  HMSet studentKey
                    {[ "id" := Student_ID student;
                       "name" := Student_Name student;
                       "classId" := Student_ClassID student ]} ] in
            match execErr with
            | Some e =>
                ret (Some (fmt_Errorf "failed to add student to Redis: " e))
            | None => ret None
            end
        end
    end.

Definition GetStudentByID (studentID : string)
  : M (option Student * option error) :=
  let studentKey := getStudentInfoKey studentID in
  let* '(data, err) := Client.HGetAll studentKey in
  match err with
  | Some e =>
      if errors_Is_redis_Nil e then ret (None, None)
      else ret (None, Some (fmt_Errorf "failed to get student from Redis: " e))
  | None =>
      if size data =? 0 then ret (None, None)
      else ret (Some (mkStudent (field data "id") (field data "name")
                                (field data "classId")), None)
  end.

(** The loop of [GetStudentsByClassID] over the student IDs. *)
Fixpoint GetStudentsByClassID_range (studentIDs : list string)
    (students : list Student) : M (list Student) :=
  match studentIDs with
  | [] => ret students
  | id :: rest =>
      let* '(student, err) := GetStudentByID id in
      match err with
      | Some _ => GetStudentsByClassID_range rest students
      | None =>
          match student with
          | Some s => GetStudentsByClassID_range rest (students ++ [s])
          | None => GetStudentsByClassID_range rest students
          end
      end
  end.

Definition GetStudentsByClassID (classID : string)
  : M (option (list Student) * option error) :=
  let classStudentsKey := getClassStudentsKey classID in
  let* '(studentIDs, err) := Client.SMembers classStudentsKey in
  match err with
  | Some e =>
      if errors_Is_redis_Nil e then ret (Some [], None)
      else ret (None,
                Some (fmt_Errorf
                        ("failed to get student IDs from Redis for class "
                         +:+ classID +:+ ": ") e))
  | None =>
      let* students := GetStudentsByClassID_range studentIDs [] in
      ret (Some students, None)
  end.

Definition GetRandomStudent (classID : string)
  : M (option Student * option error) :=
  let classStudentsKey := getClassStudentsKey classID in
  let* '(randomStudentID, err) := Client.SRandMember classStudentsKey in
  match err with
  | Some e =>
      if errors_Is_redis_Nil e then ret (None, None)
      else ret (None,
                Some (fmt_Errorf
                        ("failed to get random student ID from Redis for class "
                         +:+ classID +:+ ": ") e))
  | None =>
      if is_empty randomStudentID then ret (None, None)
      else GetStudentByID randomStudentID
  end.

(** *** Excel import *)

(** The loop of [ImportStudentsFromExcel] over the rows ([i] is the index of
    the first row of [rows] in the sheet): it fills [studentsToAdd]. *)
Fixpoint Import_rows (classID : string) (i : nat) (rows : list (list string))
    (studentsToAdd : list Student) : list Student :=
  match rows with
  | [] => studentsToAdd
  | row :: rest =>
      if i =? 0 then Import_rows classID (S i) rest studentsToAdd
      else
        let studentID := if 0 <? length row then nth 0 row "" else "" in
        let studentName := if 1 <? length row then nth 1 row "" else "" in
        if is_empty studentID || is_empty studentName then
          Import_rows classID (S i) rest studentsToAdd
        else
          Import_rows classID (S i) rest
            (studentsToAdd ++ [mkStudent studentID studentName classID])
  end.

(** The loop of [ImportStudentsFromExcel] over [studentsToAdd]. *)
Fixpoint Import_add (studentsToAdd : list Student) (importedCount : nat)
  : M nat :=
  match studentsToAdd with
  | [] => ret importedCount
  | student :: rest =>
      let* err := AddStudent student in
      match err with
      | Some _ => Import_add rest importedCount
      | None => Import_add rest (S importedCount)
      end
  end.

Definition ImportStudentsFromExcel (file : excelize.Reader) (classID : string)
  : M (nat * option error) :=
  let* '(exists_, err) := ClassExists classID in
  match err with
  | Some e =>
      ret (0, Some (fmt_Errorf
                      "failed to check class existence before import: " e))
  | None =>
      let* created :=
        (if negb exists_ then
           AddClass (mkClazz classID ("Imported Class " +:+ classID))
         else ret None) in
      match created with
      | Some e =>
          ret (0, Some (fmt_Errorf
                          ("target class " +:+ classID
                           +:+ " does not exist and failed to create it: ") e))
      | None =>
          match excelize.OpenReader file with
          | inr e =>
              ret (0, Some (fmt_Errorf "failed to open excel file: " e))
          | inl f =>
              let sheetName := excelize.GetSheetName f 0 in
              if is_empty sheetName then
                ret (0, Some (errors_New
                                "excel file does not contain any sheets"))
              else
                match excelize.GetRows f sheetName with
                | (_, Some e) =>
                    ret (0, Some (fmt_Errorf
                                    ("failed to get rows from sheet "
                                     +:+ sheetName +:+ ": ") e))
                | (rows, None) =>
                    let studentsToAdd := Import_rows classID 0 rows [] in
                    let* importedCount := Import_add studentsToAdd 0 in
                    ret (importedCount, None)
                end
          end
      end
  end.

(** *** Seed data *)

(** [SeedData]: two classes and five students; the errors of the calls are
    dropped ([_ = s.AddClass(...)]). *)
Definition SeedData : M unit :=
  let class1 := mkClazz "C2024_GO01" "2024 Go Backend Class 1" in
  let class2 := mkClazz "C2024_PY02" "2024 Python Data Science 2" in
  let* _ := AddClass class1 in
  let* _ := AddClass class2 in
  let* _ := AddStudent (mkStudent "S_GO01_001" "Alice" (Clazz_ID class1)) in
  let* _ := AddStudent (mkStudent "S_GO01_002" "Bob" (Clazz_ID class1)) in
  let* _ := AddStudent (mkStudent "S_GO01_003" "Charlie" (Clazz_ID class1)) in
  let* _ := AddStudent (mkStudent "S_PY02_001" "David" (Clazz_ID class2)) in
  let* _ := AddStudent (mkStudent "S_PY02_002" "Eve" (Clazz_ID class2)) in
  ret tt.

(** ** package handlers

    A handler reads its inputs from the gin context (a path parameter, the
    bound JSON body, the fields of a multipart form) and answers through
    [c.JSON(status, body)].  Here a handler is a function of these inputs
    that yields the status and the body it writes. *)

Module handlers.

(** The bodies the handlers write: a [gin.H] with one text entry, a [gin.H]
    whose text is a prefix followed by [err.Error()], a class, a list of
    classes, a student, a list of students, and the [gin.H] of a successful
    import. *)
Inductive Body :=
| H (key text : string)
| H_Error (key prefix : string) (err : error)
| JSON_Clazz (clazz : Clazz)
| JSON_Clazzes (classes : list Clazz)
| JSON_Student (student : Student)
| JSON_Students (students : list Student)
| H_Import (message : string) (importedCount : nat) (classId : string).

Definition Response : Type := nat * Body.

(** The status codes of [net/http] the handlers use. *)
Definition StatusOK : nat := 200.
Definition StatusCreated : nat := 201.
Definition StatusBadRequest : nat := 400.
Definition StatusNotFound : nat := 404.
Definition StatusInternalServerError : nat := 500.

(** GET /api/classes *)
Definition GetAllClasses : M Response :=
  let* '(classes, err) := GetAllClasses in
  match err with
  | Some _ =>
      ret (StatusInternalServerError, H "error" "Failed to retrieve classes")
  | None =>
      match classes with
      | None => ret (StatusOK, JSON_Clazzes [])
      | Some l => ret (StatusOK, JSON_Clazzes l)
      end
  end.

(** GET /api/classes/:classId; [classID] is [c.Param("classId")]. *)
Definition GetClassByID (classID : string) : M Response :=
  if is_empty classID then
    ret (StatusBadRequest, H "error" "Class ID is required")
  else
    let* '(clazz, err) := GetClassByID classID in
    match err with
    | Some _ =>
        ret (StatusInternalServerError,
             H "error" "Failed to retrieve class details")
    | None =>
        match clazz with
        | None => ret (StatusNotFound, H "error" "Class not found")
        | Some c => ret (StatusOK, JSON_Clazz c)
        end
    end.

(** POST /api/classes; [body] is what [c.ShouldBindJSON(&newClass)] makes of
    the request body: the class bound (a missing field is left empty), or the
    text of the binding error. *)
Definition AddClass (body : Clazz + string) : M Response :=
  match body with
  | inr text =>
      ret (StatusBadRequest, H "error" ("Invalid request body: " +:+ text))
  | inl newClass =>
      if is_empty (Clazz_ID newClass) || is_empty (Clazz_Name newClass) then
        ret (StatusBadRequest, H "error" "Class ID and Name are required")
      else
        let* err := AddClass newClass in
        match err with
        | Some _ =>
            ret (StatusInternalServerError, H "error" "Failed to add class")
        | None => ret (StatusCreated, JSON_Clazz newClass)
        end
  end.

(** GET /api/classes/:classId/students *)
Definition GetStudentsByClass (classID : string) : M Response :=
  if is_empty classID then
    ret (StatusBadRequest, H "error" "Class ID is required")
  else
    let* '(exists_, err) := ClassExists classID in
    match err with
    | Some _ =>
        ret (StatusInternalServerError, H "error" "Failed to verify class")
    | None =>
        if negb exists_ then
          ret (StatusNotFound, H "error" "Class not found")
        else
          let* '(students, err) := GetStudentsByClassID classID in
          match err with
          | Some _ =>
              ret (StatusInternalServerError,
                   H "error" "Failed to retrieve students for the class")
          | None =>
              match students with
              | None => ret (StatusOK, JSON_Students [])
              | Some l => ret (StatusOK, JSON_Students l)
              end
          end
    end.

(** GET /api/classes/:classId/random-student; the error of the second call
    to [ClassExists] is dropped ([exists, _ := ...]). *)
Definition GetRandomStudent (classID : string) : M Response :=
  if is_empty classID then
    ret (StatusBadRequest, H "error" "Class ID is required")
  else
    let* '(student, err) := GetRandomStudent classID in
    match err with
    | Some _ =>
        ret (StatusInternalServerError,
             H "error" "Failed to get random student")
    | None =>
        match student with
        | None =>
            let* '(exists_, _) := ClassExists classID in
            if negb exists_ then
              ret (StatusNotFound, H "message" "Class not found")
            else
              ret (StatusNotFound,
                   H "message" "No students found in this class")
        | Some st => ret (StatusOK, JSON_Student st)
        end
    end.

(** POST /api/import/students; [classID] is [c.PostForm("classId")] and
    [file] what [c.Request.FormFile("file")] answers: the stream uploaded, or
    the text of its error. *)
Definition ImportStudents (classID : string) (file : excelize.Reader + string)
  : M Response :=
  if is_empty classID then
    ret (StatusBadRequest, H "message" "Missing 'classId' in form data")
  else
    match file with
    | inr text =>
        ret (StatusBadRequest,
             H "message" ("Error retrieving uploaded file: " +:+ text))
    | inl stream =>
        let* '(importedCount, err) :=
          ImportStudentsFromExcel stream classID in
        match err with
        | Some e =>
            ret (StatusInternalServerError,
                 H_Error "message" "Failed to import students: " e)
        | None =>
            ret (StatusOK, H_Import "Import successful" importedCount classID)
        end
    end.

Definition PingHandler : M Response :=
  ret (StatusOK, H "message" "Pong!").

End handlers.

(** ** package main *)

Module main.

Definition classesKeyForCheck : string := "classes".

(** [client.SCard(ctx, key).Result()], sent by [checkAndSeedData] on the
    client itself: one round trip; a missing key counts 0.  (The trace keeps
    the commands of package [db] only; this one is not recorded.) *)
Definition Client_SCard (key : string) : M (nat * option error) :=
  let* faulted := roundtrip [] in
  if (faulted : bool) then ret (0, Some (redis_error redis_ConnErr)) else
  let* d := get_db in
  match d !! key with
  | None => ret (0, None)
  | Some (VSet s) => ret (size s, None)
  | Some (VHash _) => ret (0, Some (redis_error redis_WrongType))
  end.

(** [seedInitialData]: two test classes and three test students; the errors
    are logged and otherwise dropped. *)
Definition seedInitialData : M unit :=
  let class1 := mkClazz "C_TEST_CS01" "测试计算机班" in
  let class2 := mkClazz "C_TEST_EE02" "测试电子班" in
  let* _ := AddClass class1 in
  let* _ := AddClass class2 in
  let student1 :=
    mkStudent "S_TEST_CS01_001" "张三 (测试)" (Clazz_ID class1) in
  let student2 :=
    mkStudent "S_TEST_CS01_002" "李四 (测试)" (Clazz_ID class1) in
  let student3 :=
    mkStudent "S_TEST_EE02_001" "王五 (测试)" (Clazz_ID class2) in
  let* _ := AddStudent student1 in
  let* _ := AddStudent student2 in
  let* _ := AddStudent student3 in
  ret tt.

(** [checkAndSeedData]: the test data are added when SCARD on the class list
    answers 0 (or [redis.Nil]); any other error skips the seeding. *)
Definition checkAndSeedData : M unit :=
  let* '(count, err) := Client_SCard classesKeyForCheck in
  match err with
  | Some e =>
      if negb (errors_Is_redis_Nil e) then ret tt
      else if count =? 0 then seedInitialData else ret tt
  | None => if count =? 0 then seedInitialData else ret tt
  end.

End main.

(** ** Vocabulary of the specification *)

(** *** Reading the keyspace *)

(** The members of the set at [key] (none when the key is missing or holds
    a hash). *)
Definition members (d : gmap string value) (key : string) : gset string :=
  match d !! key with
  | Some (VSet s) => s
  | _ => ∅
  end.

(** The non-empty hash at [key], as [HGetAll] followed by the test
    [len(data) == 0] sees it. *)
Definition record (d : gmap string value) (key : string)
  : option (gmap string string) :=
  match d !! key with
  | Some (VHash h) => if size h =? 0 then None else Some h
  | _ => None
  end.

(** The global class set contains [classID]. *)
Definition class_listed (d : gmap string value) (classID : string) : Prop :=
  classID ∈ members d classesKey.

(** The student set of class [classID]. *)
Definition class_students (d : gmap string value) (classID : string)
  : gset string :=
  members d (getClassStudentsKey classID).

(** The class record stored for [classID], if any. *)
Definition class_record (d : gmap string value) (classID : string)
  : option Clazz :=
  (λ data, mkClazz (field data "id") (field data "name"))
    <$> record d (getClassInfoKey classID).

(** The student record stored for [studentID], if any. *)
Definition student_record (d : gmap string value) (studentID : string)
  : option Student :=
  (λ data, mkStudent (field data "id") (field data "name")
                     (field data "classId"))
    <$> record d (getStudentInfoKey studentID).

(** *** Worlds *)

(** Whether the next round trip is scheduled to fail. *)
Definition next_fault (w : World) : bool :=
  match faults w with
  | b :: _ => b
  | [] => false
  end.

(** No fault is scheduled for the next [n] round trips. *)
Definition quiet (n : nat) (w : World) : Prop :=
  Forall (λ b, b = false) (take n (faults w)).

(** The world after a round trip carrying [cmds] that left the keyspace as
    it was. *)
Definition sent (cmds : list command) (w : World) : World :=
  mkWorld (db w) (tail (faults w)) (entropy w) (trace w ++ cmds).

Definition with_db (d : gmap string value) (w : World) : World :=
  mkWorld d (faults w) (entropy w) (trace w).

(** Running [m] from any world extends the trace by commands that all
    satisfy [P]. *)
Definition sends {A} (P : command → Prop) (m : M A) : Prop :=
  ∀ w, ∃ t, trace (m w).2 = trace w ++ t ∧ Forall P t.

(** *** The error taxonomy

    Package [db] returns plain Go errors; the specification sorts them in
    three kinds by their root cause: an error of the backend is a
    [StoreError], an error of the spreadsheet library or the missing-sheet
    error is a [FormatError], and the two errors raised on empty fields are
    [ValidationError]s. *)
Inductive ErrorKind := ValidationError | StoreError | FormatError.

Fixpoint error_kind (e : error) : ErrorKind :=
  match e with
  | errors_New msg =>
      if String.eqb msg "excel file does not contain any sheets"
      then FormatError else ValidationError
  | redis_error _ => StoreError
  | excelize_error _ => FormatError
  | fmt_Errorf _ cause => error_kind cause
  end.

(** *** The key scheme *)

(** A set command goes to the global class set or to a per-class student
    set, a hash command to a class record or to a student record. *)
Definition scheme_command (c : command) : Prop :=
  match c with
  | SAdd k _ | SIsMember k _ | SMembers k | SRandMember k =>
      k = "classes" ∨ ∃ id, k = "class:" +:+ id +:+ ":students"
  | HMSet k _ | HGetAll k =>
      (∃ id, k = "class:" +:+ id) ∨ (∃ id, k = "student:" +:+ id)
  end.

(** *** The two writes

    The pipeline [AddClass] sends for a class, and the one [AddStudent]
    sends for a student. *)
Definition class_write (clazz : Clazz) : list command :=
  [ SAdd classesKey (Clazz_ID clazz);
    HMSet (getClassInfoKey (Clazz_ID clazz))
      {[ "id" := Clazz_ID clazz; "name" := Clazz_Name clazz ]} ].

Definition student_write (student : Student) : list command :=
  [ SAdd (getClassStudentsKey (Student_ClassID student)) (Student_ID student);
    HMSet (getStudentInfoKey (Student_ID student))
      {[ "id" := Student_ID student;
         "name" := Student_Name student;
         "classId" := Student_ClassID student ]} ].

(** The keyspace after a pipeline ran on it. *)
Definition after (cmds : list command) (d : gmap string value)
  : gmap string value :=
  (exec_pipeline cmds d).1.

(** The placeholder class [AddStudent] creates for an unknown class ID, and
    the one the import creates. *)
Definition placeholder (classID : string) : Clazz :=
  mkClazz classID ("Class " +:+ classID).

Definition imported_class (classID : string) : Clazz :=
  mkClazz classID ("Imported Class " +:+ classID).

(** *** Invariants of the roster *)

(** Every student ID in a class's student set has a student record, stored
    under that ID, whose [classId] is that class. *)
Definition roster_inv (d : gmap string value) : Prop :=
  ∀ classID studentID,
    studentID ∈ class_students d classID →
    ∃ st, student_record d studentID = Some st
          ∧ Student_ID st = studentID
          ∧ Student_ClassID st = classID.

(** No student-record key holds a set. *)
Definition student_keys_typed (d : gmap string value) : Prop :=
  ∀ studentID s, d !! getStudentInfoKey studentID ≠ Some (VSet s).

(** No student set contains the empty ID. *)
Definition no_empty_id (d : gmap string value) : Prop :=
  ∀ classID, "" ∉ class_students d classID.

(** A well-formed keyspace: what every operation of the store maintains
    whatever it is called with. *)
Definition well_formed (d : gmap string value) : Prop :=
  student_keys_typed d ∧ no_empty_id d.

(** [studentID] is in no student set other than the one of [classID]. *)
Definition enrolled_only_in (d : gmap string value)
    (classID studentID : string) : Prop :=
  ∀ other, other ≠ classID → studentID ∉ class_students d other.

(** *** The steps of [AddStudent] and of the import *)

(** Last step of [AddStudent]: the pipeline of the student is sent. *)
Definition AddStudent_write (student : Student) : M (option error) :=
  let* execErr := Client.Pipeline_Exec (student_write student) in
  match execErr with
  | Some e => ret (Some (fmt_Errorf "failed to add student to Redis: " e))
  | None => ret None
  end.


(** First step of [ImportStudentsFromExcel]: the target class is checked
    and, when absent, created. *)
Definition Import_ensure (classID : string) : M (option error) :=
  let* '(exists_, err) := ClassExists classID in
  match err with
  | Some e =>
      ret (Some (fmt_Errorf
                   "failed to check class existence before import: " e))
  | None =>
      let* created :=
        (if negb exists_ then
           AddClass (mkClazz classID ("Imported Class " +:+ classID))
         else ret None) in
      match created with
      | Some e =>
          ret (Some (fmt_Errorf
                       ("target class " +:+ classID
                        +:+ " does not exist and failed to create it: ") e))
      | None => ret None
      end
  end.

(** Second step: the stream is opened and the rows of its first sheet are
    read. *)
Definition Import_read (file : excelize.Reader)
  : list (list string) + error :=
  match excelize.OpenReader file with
  | inr e => inr (fmt_Errorf "failed to open excel file: " e)
  | inl f =>
      let sheetName := excelize.GetSheetName f 0 in
      if is_empty sheetName then
        inr (errors_New "excel file does not contain any sheets")
      else
        match excelize.GetRows f sheetName with
        | (_, Some e) =>
            inr (fmt_Errorf
                   ("failed to get rows from sheet " +:+ sheetName +:+ ": ") e)
        | (rows, None) => inl rows
        end
  end.

(** A stream the import cannot use: excelize cannot open it, or the
    workbook has no first sheet, or the rows of that sheet cannot be read. *)
Definition unusable (file : excelize.Reader) : Prop :=
  match file with
  | excelize.Unreadable _ => True
  | excelize.Workbook f =>
      excelize.GetSheetName f 0 = ""
      ∨ (excelize.GetRows f (excelize.GetSheetName f 0)).2 ≠ None
  end.

(** The outcome of each submission of [students] to [AddStudent], in
    order. *)
Fixpoint submissions (students : list Student) : M (list (option error)) :=
  match students with
  | [] => ret []
  | st :: rest =>
      let* err := AddStudent st in
      let* errs := submissions rest in
      ret (err :: errs)
  end.

(** The rows of a sheet in the words of the specification: the rows after
    the header; the cell of a row at a column, empty when the row is too
    short; a row is skipped when its ID or its name is empty. *)
Definition data_rows (rows : list (list string)) : list (list string) :=
  drop 1 rows.

Definition cell (row : list string) (column : nat) : string :=
  default "" (row !! column).

Definition skipped (row : list string) : bool :=
  is_empty (cell row 0) || is_empty (cell row 1).

Definition candidates (classID : string) (rows : list (list string))
  : list Student :=
  (λ row, mkStudent (cell row 0) (cell row 1) classID)
    <$> filter (λ row, skipped row = false) (data_rows rows).

(** The empty world: no key, no fault scheduled. *)
Definition empty_world : World := mkWorld ∅ [] [] [].

(** *** Growth

    [d'] has every key of [d] with the same kind of value, every member of
    every set of [d] and every field of every hash of [d]. *)
Definition grows (d d' : gmap string value) : Prop :=
  ∀ k, match d !! k with
       | None => True
       | Some (VSet s) => ∃ s', d' !! k = Some (VSet s') ∧ s ⊆ s'
       | Some (VHash h) => ∃ h', d' !! k = Some (VHash h') ∧ dom h ⊆ dom h'
       end.

(** Running [m] leaves the keyspace as it was. *)
Definition reads_only {A} (m : M A) : Prop :=
  ∀ w, db (m w).2 = db w.

(** Every key [AddStudent] touches for [student] holds the kind of value the
    key scheme gives it, or nothing. *)
Definition keys_fit (d : gmap string value) (student : Student) : Prop :=
  (∀ h, d !! classesKey ≠ Some (VHash h))
  ∧ (∀ s, d !! getClassInfoKey (Student_ClassID student) ≠ Some (VSet s))
  ∧ (∀ h, d !! getClassStudentsKey (Student_ClassID student)
          ≠ Some (VHash h))
  ∧ (∀ s, d !! getStudentInfoKey (Student_ID student) ≠ Some (VSet s)).

(** [studentID] is in the student set of [classID] and has a record, stored
    under that ID, whose [classId] is [classID]. *)
Definition enrolled_in (d : gmap string value) (classID studentID : string)
  : Prop :=
  studentID ∈ class_students d classID
  ∧ ∃ st, student_record d studentID = Some st
          ∧ Student_ID st = studentID
          ∧ Student_ClassID st = classID.


(** * Properties *)

(** ** Keys *)

Section keys.

Local Ltac first_char :=
  let H := fresh in
  intros H;
  cbv [classesKey getClassInfoKey getClassStudentsKey getStudentInfoKey
       classInfoPrefix classStudentsPrefix studentInfoPrefix] in H;
  simpl in H; discriminate H.

Lemma length_append (s t : string) :
  String.length (s +:+ t) = String.length s + String.length t.
Proof. induction s as [|a s IH]; simpl; [done | by rewrite IH]. Qed.

Lemma append_inj_r (t s1 s2 : string) : s1 +:+ t = s2 +:+ t → s1 = s2.
Proof.
  revert s2. induction s1 as [|a s1 IH]; intros [|b s2] H; simpl in H.
  - done.
  - apply (f_equal String.length) in H.
    rewrite !length_append in H. simpl in H. lia.
  - apply (f_equal String.length) in H.
    rewrite !length_append in H. simpl in H. lia.
  - injection H as -> H. f_equal. by apply IH.
Qed.

Lemma getClassInfoKey_inj c1 c2 :
  getClassInfoKey c1 = getClassInfoKey c2 → c1 = c2.
Proof. unfold getClassInfoKey. intros H. by simplify_eq/=. Qed.

Lemma getStudentInfoKey_inj s1 s2 :
  getStudentInfoKey s1 = getStudentInfoKey s2 → s1 = s2.
Proof. unfold getStudentInfoKey. intros H. by simplify_eq/=. Qed.

Lemma getClassStudentsKey_inj c1 c2 :
  getClassStudentsKey c1 = getClassStudentsKey c2 → c1 = c2.
Proof.
  unfold getClassStudentsKey. intros H. simplify_eq/=.
  by eapply append_inj_r.
Qed.

Lemma classesKey_ne_info c : classesKey ≠ getClassInfoKey c.
Proof. first_char. Qed.

Lemma classesKey_ne_students c : classesKey ≠ getClassStudentsKey c.
Proof. first_char. Qed.

Lemma classesKey_ne_student s : classesKey ≠ getStudentInfoKey s.
Proof. first_char. Qed.

Lemma info_ne_student c s : getClassInfoKey c ≠ getStudentInfoKey s.
Proof. first_char. Qed.

Lemma students_ne_student c s : getClassStudentsKey c ≠ getStudentInfoKey s.
Proof. first_char. Qed.

(** The record key and the student-set key of one class differ. *)
Lemma info_ne_students c : getClassInfoKey c ≠ getClassStudentsKey c.
Proof.
  unfold getClassInfoKey, getClassStudentsKey. intros H. simplify_eq/=.
  apply (f_equal String.length) in H. rewrite length_append in H.
  simpl in H. lia.
Qed.

End keys.

(** ** The server *)

Section server.

Implicit Types (d : gmap string value) (k : string).

Lemma lookup_exec_SAdd_ne k m d k' :
  k ≠ k' → (exec_SAdd k m d).1 !! k' = d !! k'.
Proof.
  intros Hne. unfold exec_SAdd.
  destruct (d !! k) as [[s|h]|]; simpl; by rewrite ?lookup_insert_ne.
Qed.

Lemma lookup_exec_HMSet_ne k f d k' :
  k ≠ k' → (exec_HMSet k f d).1 !! k' = d !! k'.
Proof.
  intros Hne. unfold exec_HMSet.
  destruct (d !! k) as [[s|h]|]; simpl; by rewrite ?lookup_insert_ne.
Qed.

(** HMSET changes the members of no set. *)
Lemma members_exec_HMSet k f d k' :
  members (exec_HMSet k f d).1 k' = members d k'.
Proof.
  unfold members. destruct (decide (k = k')) as [<-|Hne].
  - unfold exec_HMSet. destruct (d !! k) as [[s|h]|] eqn:E; simpl;
      by rewrite ?lookup_insert_eq, ?E.
  - by rewrite lookup_exec_HMSet_ne.
Qed.

(** SADD changes no record. *)
Lemma record_exec_SAdd k m d k' :
  record (exec_SAdd k m d).1 k' = record d k'.
Proof.
  unfold record. destruct (decide (k = k')) as [<-|Hne].
  - unfold exec_SAdd. destruct (d !! k) as [[s|h]|] eqn:E; simpl;
      by rewrite ?lookup_insert_eq, ?E.
  - by rewrite lookup_exec_SAdd_ne.
Qed.

Lemma record_exec_HMSet_ne k f d k' :
  k ≠ k' → record (exec_HMSet k f d).1 k' = record d k'.
Proof. intros. unfold record. by rewrite lookup_exec_HMSet_ne. Qed.

Lemma members_exec_SAdd_ne k m d k' :
  k ≠ k' → members (exec_SAdd k m d).1 k' = members d k'.
Proof. intros. unfold members. by rewrite lookup_exec_SAdd_ne. Qed.

(** A successful SADD adds exactly its member. *)
Lemma members_exec_SAdd_ok k m d :
  (exec_SAdd k m d).2 = None →
  members (exec_SAdd k m d).1 k = {[m]} ∪ members d k.
Proof.
  unfold members, exec_SAdd.
  destruct (d !! k) as [[s|h]|] eqn:E; simpl; intros Hok;
    rewrite ?lookup_insert_eq;
    [done | discriminate Hok | by rewrite (right_id_L ∅ (∪))].
Qed.

(** Whatever its outcome, SADD adds at most its member. *)
Lemma members_exec_SAdd_sub k m d :
  members (exec_SAdd k m d).1 k ⊆ {[m]} ∪ members d k.
Proof.
  unfold members, exec_SAdd.
  destruct (d !! k) as [[s|h]|] eqn:E; simpl;
    rewrite ?lookup_insert_eq, ?E; set_solver.
Qed.

(** HMSET fails only against a set, and then SADD succeeds only against
    something else. *)
Lemma exec_HMSet_ok k f d :
  (∀ s, d !! k ≠ Some (VSet s)) →
  ∃ h, (exec_HMSet k f d).1 !! k = Some (VHash (f ∪ h))
       ∧ (exec_HMSet k f d).2 = None.
Proof.
  intros Hk. unfold exec_HMSet. destruct (d !! k) as [[s|h]|] eqn:E.
  - by destruct (Hk s).
  - exists h. simpl. by rewrite lookup_insert_eq.
  - exists ∅. simpl. by rewrite lookup_insert_eq, (right_id_L ∅ (∪)).
Qed.

Lemma exec_HMSet_ok_inv k f d :
  (exec_HMSet k f d).2 = None →
  ∃ h, (exec_HMSet k f d).1 !! k = Some (VHash (f ∪ h)).
Proof.
  unfold exec_HMSet. destruct (d !! k) as [[s|h]|] eqn:E; simpl; [done|..].
  - exists h. by rewrite lookup_insert_eq.
  - exists ∅. by rewrite lookup_insert_eq, (right_id_L ∅ (∪)).
Qed.

(** A set appears only where SADD puts it. *)
Lemma is_set_exec_SAdd k m d k' s :
  (exec_SAdd k m d).1 !! k' = Some (VSet s) →
  k' = k ∨ d !! k' = Some (VSet s).
Proof.
  destruct (decide (k = k')) as [->|Hne]; [by left|].
  rewrite lookup_exec_SAdd_ne by done. by right.
Qed.

Lemma is_set_exec_HMSet k f d k' s :
  (exec_HMSet k f d).1 !! k' = Some (VSet s) → d !! k' = Some (VSet s).
Proof.
  destruct (decide (k = k')) as [<-|Hne].
  - unfold exec_HMSet. destruct (d !! k) as [[s'|h]|] eqn:E; simpl;
      rewrite ?lookup_insert_eq, ?E; congruence.
  - by rewrite lookup_exec_HMSet_ne.
Qed.

(** The fields just written are read back. *)
Lemma field_union_l (f h : gmap string string) name v :
  f !! name = Some v → field (f ∪ h) name = v.
Proof.
  intros Hf. unfold field. by rewrite (lookup_union_Some_l _ _ _ _ Hf).
Qed.

Lemma size_union_ne_0 (f h : gmap string string) name v :
  f !! name = Some v → (size (f ∪ h) =? 0) = false.
Proof.
  intros Hf. apply Nat.eqb_neq. intros H0.
  apply map_size_empty_inv in H0.
  assert ((f ∪ h) !! name = Some v) as Hl by by apply lookup_union_Some_l.
  by rewrite H0 in Hl.
Qed.

End server.

(** ** The client and the operations, one round trip at a time *)

Section round_trips.

Implicit Types (w : World) (d : gmap string value).

Lemma exec_pipeline_2 a b d :
  exec_pipeline [a; b] d =
    ((exec_command b (exec_command a d).1).1,
     match (exec_command a d).2 with
     | Some e => Some e
     | None => (exec_command b (exec_command a d).1).2
     end).
Proof.
  simpl. destruct (exec_command a d) as [d1 e1]; simpl.
  destruct (exec_command b d1) as [d2 e2]; simpl.
  by destruct e1, e2.
Qed.

Lemma Pipeline_Exec_eq cmds w :
  Client.Pipeline_Exec cmds w =
    if next_fault w then (Some (redis_error redis_ConnErr), sent cmds w)
    else (redis_error <$> (exec_pipeline cmds (db w)).2,
          with_db (after cmds (db w)) (sent cmds w)).
Proof.
  unfold Client.Pipeline_Exec, bind, roundtrip, next_fault, after, sent,
    with_db, ret, put_db, get_db.
  destruct (faults w) as [|[] fs]; simpl; try done;
    by destruct (exec_pipeline cmds (db w)).
Qed.

Lemma SIsMember_eq k m w :
  Client.SIsMember k m w =
    (if next_fault w then (false, Some (redis_error redis_ConnErr))
     else match db w !! k with
          | None => (false, None)
          | Some (VSet s) => (bool_decide (m ∈ s), None)
          | Some (VHash _) => (false, Some (redis_error redis_WrongType))
          end,
     sent [SIsMember k m] w).
Proof.
  unfold Client.SIsMember, bind, roundtrip, next_fault, sent, ret, get_db.
  destruct (faults w) as [|[] fs]; simpl; try done;
    by destruct (db w !! k) as [[]|].
Qed.

Lemma HGetAll_eq k w :
  Client.HGetAll k w =
    (if next_fault w then (∅, Some (redis_error redis_ConnErr))
     else match db w !! k with
          | None => (∅, None)
          | Some (VHash h) => (h, None)
          | Some (VSet _) => (∅, Some (redis_error redis_WrongType))
          end,
     sent [HGetAll k] w).
Proof.
  unfold Client.HGetAll, bind, roundtrip, next_fault, sent, ret, get_db.
  destruct (faults w) as [|[] fs]; simpl; try done;
    by destruct (db w !! k) as [[]|].
Qed.

(** The order of SMEMBERS: always one of the orders of the members, and
    every one of them for some entropy. *)
Lemma insert_at_Permutation {A} i (x : A) l : insert_at i x l ≡ₚ x :: l.
Proof.
  unfold insert_at. rewrite <- Permutation_middle. by rewrite take_drop.
Qed.

Lemma arrange_Permutation {A} ns (l : list A) : arrange ns l ≡ₚ l.
Proof.
  revert ns. induction l as [|x l IH]; intros ns; [done|].
  cbn [arrange]. rewrite insert_at_Permutation. by rewrite IH.
Qed.

Lemma arrange_any {A} (l l' : list A) :
  l' ≡ₚ l → ∃ ns, length ns = length l ∧ arrange ns l = l'.
Proof.
  revert l'. induction l as [|x l IH]; intros l' Hp.
  { apply Permutation_nil_r in Hp. subst. by exists []. }
  assert (x ∈ l') as Hin by (rewrite Hp; left).
  apply list_elem_of_split in Hin as (l1 & l2 & ->).
  symmetry in Hp. apply Permutation_cons_app_inv in Hp. symmetry in Hp.
  destruct (IH (l1 ++ l2) Hp) as (ns & Hlen & Hns).
  exists (length l1 :: ns). split; [by simpl; rewrite Hlen|].
  cbn [arrange tail hd]. rewrite Hns. unfold insert_at.
  rewrite Nat.mod_small by (rewrite length_app; lia).
  by rewrite take_app_length, drop_app_length.
Qed.

(** What SMEMBERS answers: the world it leaves differs from the one of the
    round trip by the entropy drawn. *)
Lemma SMembers_eq k w :
  Client.SMembers k w =
    if next_fault w
    then (([], Some (redis_error redis_ConnErr)), sent [SMembers k] w)
    else match db w !! k with
         | None => (([], None), sent [SMembers k] w)
         | Some (VSet s) =>
             ((arrange (take (size s) (entropy w)) (elements s), None),
              mkWorld (db w) (tail (faults w))
                      (drop (size s) (entropy w))
                      (trace w ++ [SMembers k]))
         | Some (VHash _) =>
             (([], Some (redis_error redis_WrongType)), sent [SMembers k] w)
         end.
Proof.
  unfold Client.SMembers, bind, roundtrip, next_fault, sent, ret, get_db,
    draws.
  destruct (faults w) as [|[] fs]; simpl; try done;
    by destruct (db w !! k) as [[]|].
Qed.

(** The members, in some order, when the round trip goes through. *)
Lemma SMembers_members k w :
  next_fault w = false →
  (∀ h, db w !! k ≠ Some (VHash h)) →
  ∃ ids w1,
    Client.SMembers k w = ((ids, None), w1)
    ∧ ids ≡ₚ elements (members (db w) k)
    ∧ db w1 = db w ∧ faults w1 = tail (faults w).
Proof.
  intros Hq Hh. rewrite SMembers_eq, Hq. unfold members.
  destruct (db w !! k) as [[s|h]|] eqn:E.
  - eexists _, _. split; [reflexivity|].
    split; [apply arrange_Permutation|done].
  - by destruct (Hh h).
  - eexists _, _. split; [reflexivity|]. by rewrite elements_empty.
Qed.

(** No order of the members is excluded. *)
Lemma SMembers_any_order k d s ids :
  d !! k = Some (VSet s) → ids ≡ₚ elements s →
  ∃ ns, (Client.SMembers k (mkWorld d [] ns [])).1 = (ids, None).
Proof.
  intros Hk Hp. destruct (arrange_any (elements s) ids Hp) as (ns & Hn & Ha).
  exists ns. rewrite SMembers_eq. cbn [next_fault faults db entropy].
  unfold next_fault. cbn [faults]. rewrite Hk. cbn [fst]. f_equal.
  rewrite <- Ha. f_equal. apply take_ge. unfold size, set_size. simpl. lia.
Qed.

Lemma ClassExists_eq classID w :
  ClassExists classID w =
    (if next_fault w then
       (false, Some (fmt_Errorf "failed to check class existence: "
                                (redis_error redis_ConnErr)))
     else match db w !! classesKey with
          | None => (false, None)
          | Some (VSet s) => (bool_decide (classID ∈ s), None)
          | Some (VHash _) =>
              (false, Some (fmt_Errorf "failed to check class existence: "
                                       (redis_error redis_WrongType)))
          end,
     sent [SIsMember classesKey classID] w).
Proof.
  unfold ClassExists, bind. rewrite SIsMember_eq.
  destruct (next_fault w); [done|]. by destruct (db w !! classesKey) as [[]|].
Qed.

(** [AddClass] on a class with both fields filled in is its pipeline. *)
Lemma AddClass_eq clazz w :
  is_empty (Clazz_ID clazz) = false →
  is_empty (Clazz_Name clazz) = false →
  AddClass clazz w =
    if next_fault w then
      (Some (fmt_Errorf "failed to add class to Redis: "
                        (redis_error redis_ConnErr)),
       sent (class_write clazz) w)
    else
      (fmt_Errorf "failed to add class to Redis: "
         <$> (redis_error <$> (exec_pipeline (class_write clazz) (db w)).2),
       with_db (after (class_write clazz) (db w))
               (sent (class_write clazz) w)).
Proof.
  intros Hid Hname. unfold AddClass, bind. rewrite Hid, Hname.
  cbv beta iota delta [orb].
  change ([SAdd _ _; HMSet _ _]) with (class_write clazz).
  rewrite Pipeline_Exec_eq. destruct (next_fault w); [done|].
  by destruct (exec_pipeline (class_write clazz) (db w)) as [d' [e|]].
Qed.

Lemma AddStudent_write_eq student w :
  AddStudent_write student w =
    if next_fault w then
      (Some (fmt_Errorf "failed to add student to Redis: "
                        (redis_error redis_ConnErr)),
       sent (student_write student) w)
    else
      (fmt_Errorf "failed to add student to Redis: "
         <$> (redis_error
                <$> (exec_pipeline (student_write student) (db w)).2),
       with_db (after (student_write student) (db w))
               (sent (student_write student) w)).
Proof.
  unfold AddStudent_write, bind. rewrite Pipeline_Exec_eq.
  destruct (next_fault w); [done|].
  by destruct (exec_pipeline (student_write student) (db w)) as [d' [e|]].
Qed.

(** [AddStudent] on a student with all fields filled in: the check, the
    creation of the placeholder when the class is not listed, the write. *)
Lemma AddStudent_eq student w :
  is_empty (Student_ID student) = false →
  is_empty (Student_Name student) = false →
  is_empty (Student_ClassID student) = false →
  AddStudent student w =
    let '((exists_, err), w1) := ClassExists (Student_ClassID student) w in
    match err with
    | Some e => (Some e, w1)
    | None =>
        if exists_ then AddStudent_write student w1
        else
          let '(created, w2) :=
            AddClass (placeholder (Student_ClassID student)) w1 in
          match created with
          | Some e =>
              (Some (fmt_Errorf
                       ("student's class " +:+ Student_ClassID student
                        +:+ " does not exist and auto-creation failed: ")
                       e), w2)
          | None => AddStudent_write student w2
          end
    end.
Proof.
  intros Hid Hname Hclass. unfold AddStudent, bind.
  rewrite Hid, Hname, Hclass. cbv beta iota delta [orb].
  destruct (ClassExists (Student_ClassID student) w) as [[ex [e|]] w1];
    [done|].
  destruct ex; cbv beta iota delta [negb]; [reflexivity|].
  fold (placeholder (Student_ClassID student)).
  destruct (AddClass _ w1) as [[e|] w2]; reflexivity.
Qed.

Lemma is_empty_true s : is_empty s = true ↔ s = "".
Proof. by destruct s. Qed.

Lemma is_empty_false s : is_empty s = false ↔ s ≠ "".
Proof. by destruct s. Qed.

Lemma placeholder_named classID :
  is_empty (Clazz_Name (placeholder classID)) = false.
Proof. done. Qed.

Lemma imported_class_named classID :
  is_empty (Clazz_Name (imported_class classID)) = false.
Proof. done. Qed.

End round_trips.

(** ** The two writes on the keyspace *)

Section writes.

Implicit Types (d : gmap string value) (k : string).

Lemma after_class_write clazz d :
  after (class_write clazz) d =
    (exec_HMSet (getClassInfoKey (Clazz_ID clazz))
       {[ "id" := Clazz_ID clazz; "name" := Clazz_Name clazz ]}
       (exec_SAdd classesKey (Clazz_ID clazz) d).1).1.
Proof. unfold after, class_write. by rewrite exec_pipeline_2. Qed.

Lemma after_student_write student d :
  after (student_write student) d =
    (exec_HMSet (getStudentInfoKey (Student_ID student))
       {[ "id" := Student_ID student;
          "name" := Student_Name student;
          "classId" := Student_ClassID student ]}
       (exec_SAdd (getClassStudentsKey (Student_ClassID student))
          (Student_ID student) d).1).1.
Proof. unfold after, student_write. by rewrite exec_pipeline_2. Qed.

Lemma members_after_class_write clazz d k :
  k ≠ classesKey →
  members (after (class_write clazz) d) k = members d k.
Proof.
  intros. rewrite after_class_write, members_exec_HMSet.
  by apply members_exec_SAdd_ne.
Qed.

Lemma record_after_class_write clazz d k :
  k ≠ getClassInfoKey (Clazz_ID clazz) →
  record (after (class_write clazz) d) k = record d k.
Proof.
  intros. rewrite after_class_write, record_exec_HMSet_ne by done.
  apply record_exec_SAdd.
Qed.

Lemma members_after_student_write student d k :
  k ≠ getClassStudentsKey (Student_ClassID student) →
  members (after (student_write student) d) k = members d k.
Proof.
  intros. rewrite after_student_write, members_exec_HMSet.
  by apply members_exec_SAdd_ne.
Qed.

Lemma record_after_student_write student d k :
  k ≠ getStudentInfoKey (Student_ID student) →
  record (after (student_write student) d) k = record d k.
Proof.
  intros. rewrite after_student_write, record_exec_HMSet_ne by done.
  apply record_exec_SAdd.
Qed.

Lemma members_after_student_write_sub student d :
  members (after (student_write student) d)
          (getClassStudentsKey (Student_ClassID student))
  ⊆ {[Student_ID student]}
    ∪ members d (getClassStudentsKey (Student_ClassID student)).
Proof.
  rewrite after_student_write, members_exec_HMSet.
  apply members_exec_SAdd_sub.
Qed.

(** A class write that succeeds lists the class and stores its record. *)
Lemma class_write_ok clazz d :
  (exec_pipeline (class_write clazz) d).2 = None →
  class_listed (after (class_write clazz) d) (Clazz_ID clazz)
  ∧ class_record (after (class_write clazz) d) (Clazz_ID clazz)
    = Some clazz.
Proof.
  unfold class_listed. rewrite after_class_write. unfold class_write.
  rewrite exec_pipeline_2. cbn [snd exec_command].
  destruct (exec_SAdd classesKey (Clazz_ID clazz) d).2 eqn:Ea; [done|].
  intros Hh. split.
  - rewrite members_exec_HMSet, members_exec_SAdd_ok by done. set_solver.
  - apply exec_HMSet_ok_inv in Hh as [h Hh].
    unfold class_record, record. rewrite Hh.
    rewrite (size_union_ne_0 _ _ "id" (Clazz_ID clazz)) by done.
    simpl. destruct clazz as [id name]. simpl. f_equal; f_equal.
    + by apply field_union_l.
    + by apply field_union_l.
Qed.

(** A student write that succeeds enrols the student and stores the
    record. *)
Lemma student_write_ok student d :
  (exec_pipeline (student_write student) d).2 = None →
  Student_ID student
    ∈ class_students (after (student_write student) d)
                     (Student_ClassID student)
  ∧ student_record (after (student_write student) d) (Student_ID student)
    = Some student.
Proof.
  unfold class_students. rewrite after_student_write. unfold student_write.
  rewrite exec_pipeline_2. cbn [snd exec_command].
  destruct (exec_SAdd _ (Student_ID student) d).2 eqn:Ea; [done|].
  intros Hh. split.
  - rewrite members_exec_HMSet, members_exec_SAdd_ok by done. set_solver.
  - apply exec_HMSet_ok_inv in Hh as [h Hh].
    unfold student_record, record. rewrite Hh.
    rewrite (size_union_ne_0 _ _ "id" (Student_ID student)) by done.
    simpl. destruct student as [id name cid]. simpl. f_equal; f_equal.
    + by apply field_union_l.
    + by apply field_union_l.
    + by apply field_union_l.
Qed.

End writes.

(** ** Errors *)

Section errors.

(** Every error of the backend is a store error, also once wrapped. *)
Lemma fmap_store_kind msg (r : option redis_err) e :
  fmt_Errorf msg <$> (redis_error <$> r) = Some e →
  error_kind e = StoreError.
Proof. destruct r; intros [= <-]; done. Qed.

Lemma ClassExists_kind classID w e :
  (ClassExists classID w).1.2 = Some e → error_kind e = StoreError.
Proof.
  rewrite ClassExists_eq. simpl.
  destruct (next_fault w); [by intros [= <-]|].
  destruct (db w !! classesKey) as [[]|]; simpl; [done| |done].
  by intros [= <-].
Qed.

Lemma AddClass_kind clazz w e :
  is_empty (Clazz_ID clazz) = false →
  is_empty (Clazz_Name clazz) = false →
  (AddClass clazz w).1 = Some e → error_kind e = StoreError.
Proof.
  intros Hid Hname. rewrite AddClass_eq by done.
  destruct (next_fault w); simpl; [by intros [= <-]|].
  apply fmap_store_kind.
Qed.

Lemma AddStudent_write_kind student w e :
  (AddStudent_write student w).1 = Some e → error_kind e = StoreError.
Proof.
  rewrite AddStudent_write_eq.
  destruct (next_fault w); simpl; [by intros [= <-]|].
  apply fmap_store_kind.
Qed.

Lemma AddStudent_kind student w e :
  is_empty (Student_ID student) = false →
  is_empty (Student_Name student) = false →
  is_empty (Student_ClassID student) = false →
  (AddStudent student w).1 = Some e → error_kind e = StoreError.
Proof.
  intros Hid Hname Hclass. rewrite AddStudent_eq by done.
  destruct (ClassExists _ w) as [[ex err] w1] eqn:Ece.
  destruct err as [e1|].
  - simpl. intros [= <-]. apply (ClassExists_kind (Student_ClassID student) w).
    by rewrite Ece.
  - destruct ex; [apply AddStudent_write_kind|].
    destruct (AddClass _ w1) as [[e2|] w2] eqn:Eac.
    + simpl. intros [= <-]. simpl.
      apply (AddClass_kind (placeholder (Student_ClassID student)) w1);
        [done..|]. by rewrite Eac.
    + apply AddStudent_write_kind.
Qed.

End errors.

(** C2.  [AddClass] answers a validation error exactly when the ID or the
    name of the class is empty, and [AddStudent] exactly when the ID, the
    name or the class ID of the student is empty; in each of these cases the
    world is left as it was: no command is sent (the trace, the fault
    schedule and the entropy are untouched) and the keyspace is unchanged. *)
Theorem validation_rejects_without_backend :
  (∀ clazz w,
     ((∃ e, (AddClass clazz w).1 = Some e ∧ error_kind e = ValidationError)
      ↔ (Clazz_ID clazz = "" ∨ Clazz_Name clazz = ""))
     ∧ (Clazz_ID clazz = "" ∨ Clazz_Name clazz = "" →
        (AddClass clazz w).2 = w))
  ∧ (∀ student w,
       ((∃ e, (AddStudent student w).1 = Some e
              ∧ error_kind e = ValidationError)
        ↔ (Student_ID student = "" ∨ Student_Name student = ""
           ∨ Student_ClassID student = ""))
       ∧ (Student_ID student = "" ∨ Student_Name student = ""
          ∨ Student_ClassID student = "" →
          (AddStudent student w).2 = w)).
Proof.
  split.
  - intros [id name] w. simpl.
    destruct (is_empty id) eqn:Hid; [|destruct (is_empty name) eqn:Hname].
    + apply is_empty_true in Hid as ->. split; [|done].
      split; [by left|]. intros _. by eexists.
    + apply is_empty_true in Hname as ->. apply is_empty_false in Hid.
      unfold AddClass. simpl. destruct id; [done|]. simpl.
      split; [|done]. split; [by right|]. intros _. by eexists.
    + split.
      * split; [|by rewrite <- !is_empty_true, Hid, Hname; intros [|]].
        intros (e & He & Hk).
        by rewrite (AddClass_kind (mkClazz id name) w e Hid Hname He) in Hk.
      * by rewrite <- !is_empty_true, Hid, Hname; intros [|].
  - intros [id name cid] w. simpl.
    destruct (is_empty id) eqn:Hid;
      [|destruct (is_empty name) eqn:Hname;
        [|destruct (is_empty cid) eqn:Hcid]].
    + apply is_empty_true in Hid as ->. split; [|done].
      split; [by left|]. intros _. by eexists.
    + apply is_empty_true in Hname as ->.
      unfold AddStudent. simpl. rewrite Hid. simpl.
      split; [|done]. split; [by right; left|]. intros _. by eexists.
    + apply is_empty_true in Hcid as ->.
      unfold AddStudent. simpl. rewrite Hid, Hname. simpl.
      split; [|done]. split; [by right; right|]. intros _. by eexists.
    + split.
      * split; [|by rewrite <- !is_empty_true, Hid, Hname, Hcid;
                  intros [|[|]]].
        intros (e & He & Hk).
        by rewrite (AddStudent_kind (mkStudent id name cid) w e
                      Hid Hname Hcid He) in Hk.
      * by rewrite <- !is_empty_true, Hid, Hname, Hcid; intros [|[|]].
Qed.

(** A class without ID and a student without name, offered to the empty
    store: nothing is sent and nothing changes. *)
Lemma validation_rejects_without_backend_witness :
  (AddClass (mkClazz "" "2024 Go Backend Class 1") empty_world).2
  = empty_world
  ∧ (AddStudent (mkStudent "S_GO01_001" "" "C2024_GO01") empty_world).2
    = empty_world.
Proof.
  split.
  - apply (proj2 (proj1 validation_rejects_without_backend
                    (mkClazz "" "2024 Go Backend Class 1") empty_world)).
    left. reflexivity.
  - apply (proj2 (proj2 validation_rejects_without_backend
                    (mkStudent "S_GO01_001" "" "C2024_GO01") empty_world)).
    right. left. reflexivity.
Defined.

(** ** Lookups by ID *)

Section lookups.

Lemma GetClassByID_eq classID w :
  GetClassByID classID w =
    (if next_fault w then
       (None, Some (fmt_Errorf "failed to get class from Redis: "
                               (redis_error redis_ConnErr)))
     else match db w !! getClassInfoKey classID with
          | Some (VSet _) =>
              (None, Some (fmt_Errorf "failed to get class from Redis: "
                                      (redis_error redis_WrongType)))
          | _ => (class_record (db w) classID, None)
          end,
     sent [HGetAll (getClassInfoKey classID)] w).
Proof.
  unfold GetClassByID, bind, class_record, record. rewrite HGetAll_eq.
  destruct (next_fault w); [done|].
  destruct (db w !! getClassInfoKey classID) as [[s|h]|]; [done| |done].
  by destruct (size h =? 0).
Qed.

Lemma GetStudentByID_eq studentID w :
  GetStudentByID studentID w =
    (if next_fault w then
       (None, Some (fmt_Errorf "failed to get student from Redis: "
                               (redis_error redis_ConnErr)))
     else match db w !! getStudentInfoKey studentID with
          | Some (VSet _) =>
              (None, Some (fmt_Errorf "failed to get student from Redis: "
                                      (redis_error redis_WrongType)))
          | _ => (student_record (db w) studentID, None)
          end,
     sent [HGetAll (getStudentInfoKey studentID)] w).
Proof.
  unfold GetStudentByID, bind, student_record, record. rewrite HGetAll_eq.
  destruct (next_fault w); [done|].
  destruct (db w !! getStudentInfoKey studentID) as [[s|h]|]; [done| |done].
  by destruct (size h =? 0).
Qed.

(** Where a record is stored, the lookup by ID finds it unless the round
    trip fails. *)
Lemma GetClassByID_found classID w clazz :
  next_fault w = false →
  class_record (db w) classID = Some clazz →
  (GetClassByID classID w).1 = (Some clazz, None).
Proof.
  intros Hq Hrec. rewrite GetClassByID_eq, Hq. simpl.
  unfold class_record, record in Hrec.
  destruct (db w !! getClassInfoKey classID) as [[s|h]|] eqn:E; [done|..].
  - unfold class_record, record. rewrite E. by rewrite Hrec.
  - done.
Qed.

Lemma GetStudentByID_found studentID w student :
  next_fault w = false →
  student_record (db w) studentID = Some student →
  (GetStudentByID studentID w).1 = (Some student, None).
Proof.
  intros Hq Hrec. rewrite GetStudentByID_eq, Hq. simpl.
  unfold student_record, record in Hrec.
  destruct (db w !! getStudentInfoKey studentID) as [[s|h]|] eqn:E;
    [done|..].
  - unfold student_record, record. rewrite E. by rewrite Hrec.
  - done.
Qed.

(** A successful [AddClass] ran its pipeline to the end. *)
Lemma AddClass_ok clazz w :
  (AddClass clazz w).1 = None →
  is_empty (Clazz_ID clazz) = false
  ∧ is_empty (Clazz_Name clazz) = false
  ∧ next_fault w = false
  ∧ (exec_pipeline (class_write clazz) (db w)).2 = None
  ∧ (AddClass clazz w).2
    = with_db (after (class_write clazz) (db w))
              (sent (class_write clazz) w).
Proof.
  destruct (is_empty (Clazz_ID clazz)) eqn:Hid;
    [by unfold AddClass; rewrite Hid|].
  destruct (is_empty (Clazz_Name clazz)) eqn:Hname;
    [by unfold AddClass; rewrite Hid, Hname|].
  rewrite AddClass_eq by done.
  destruct (next_fault w); [done|]. cbn [fst snd].
  destruct (exec_pipeline (class_write clazz) (db w)).2; [done|].
  by intros _.
Qed.

Lemma AddStudent_write_ok student w :
  (AddStudent_write student w).1 = None →
  next_fault w = false
  ∧ (exec_pipeline (student_write student) (db w)).2 = None
  ∧ (AddStudent_write student w).2
    = with_db (after (student_write student) (db w))
              (sent (student_write student) w).
Proof.
  rewrite AddStudent_write_eq.
  destruct (next_fault w); [done|]. cbn [fst snd].
  destruct (exec_pipeline (student_write student) (db w)).2; [done|].
  by intros _.
Qed.

End lookups.

(** C3.  A class with a non-empty ID and a non-empty name that [AddClass]
    has added is found again by [GetClassByID] under its ID, equal to the
    class added, in any later world in which the key of the class still
    holds what the addition left there (and the lookup's round trip goes
    through). *)
Theorem add_class_then_get_by_id (clazz : Clazz) (w w' : World) :
  Clazz_ID clazz ≠ "" →
  Clazz_Name clazz ≠ "" →
  (AddClass clazz w).1 = None →
  db w' !! getClassInfoKey (Clazz_ID clazz)
    = db (AddClass clazz w).2 !! getClassInfoKey (Clazz_ID clazz) →
  next_fault w' = false →
  (GetClassByID (Clazz_ID clazz) w').1 = (Some clazz, None).
Proof.
  intros _ _ Hadd Hsame Hq.
  apply AddClass_ok in Hadd as (_ & _ & _ & Hpipe & Hw1).
  apply GetClassByID_found; [done|].
  unfold class_record, record. rewrite Hsame, Hw1. simpl.
  apply class_write_ok in Hpipe as [_ Hrec].
  exact Hrec.
Qed.

(** The class of the seed data, added to the empty store and fetched right
    away. *)
Lemma add_class_then_get_by_id_witness :
  (GetClassByID "C2024_GO01"
     (AddClass (mkClazz "C2024_GO01" "2024 Go Backend Class 1")
               empty_world).2).1
  = (Some (mkClazz "C2024_GO01" "2024 Go Backend Class 1"), None).
Proof.
  apply (add_class_then_get_by_id
           (mkClazz "C2024_GO01" "2024 Go Backend Class 1")
           empty_world
           (AddClass (mkClazz "C2024_GO01" "2024 Go Backend Class 1")
                     empty_world).2).
  - discriminate.
  - discriminate.
  - vm_compute. reflexivity.
  - reflexivity.
  - vm_compute. reflexivity.
Defined.

(** ** [AddStudent] on a class that is not listed *)

Section auto_creation.

Implicit Types (w : World) (student : Student).

Lemma AddClass_trace clazz w :
  is_empty (Clazz_ID clazz) = false →
  is_empty (Clazz_Name clazz) = false →
  trace (AddClass clazz w).2 = trace w ++ class_write clazz.
Proof.
  intros. rewrite AddClass_eq by done. by destruct (next_fault w).
Qed.

Lemma AddStudent_write_trace student w :
  trace (AddStudent_write student w).2 = trace w ++ student_write student.
Proof. rewrite AddStudent_write_eq. by destruct (next_fault w). Qed.

(** The check of a class that is not listed answers "no" or fails. *)
Lemma ClassExists_unlisted classID w :
  ¬ class_listed (db w) classID →
  ClassExists classID w = ((false, None), sent [SIsMember classesKey classID] w)
  ∨ ∃ e, ClassExists classID w
         = ((false, Some e), sent [SIsMember classesKey classID] w).
Proof.
  intros Hno. rewrite ClassExists_eq. unfold class_listed, members in Hno.
  destruct (next_fault w); [right; by eexists|].
  destruct (db w !! classesKey) as [[s|h]|]; [|right; by eexists|by left].
  left. by rewrite bool_decide_eq_false_2.
Qed.

(** The student write leaves the class list and the class records alone. *)
Lemma class_listed_after_student_write student d classID :
  class_listed (after (student_write student) d) classID
  ↔ class_listed d classID.
Proof.
  unfold class_listed.
  by rewrite members_after_student_write by apply classesKey_ne_students.
Qed.

Lemma class_record_after_student_write student d classID :
  class_record (after (student_write student) d) classID
  = class_record d classID.
Proof.
  unfold class_record.
  by rewrite record_after_student_write by apply info_ne_student.
Qed.

End auto_creation.

(** C1.  For a student with non-empty ID, name and class ID whose class is
    not in the global class set, [AddStudent] sends the student's write
    only after the write of the placeholder class: what it sends after the
    membership check is nothing (the check failed), the class write alone
    (the creation failed), or the class write followed by the student
    write.  When the call succeeds, the class is listed, its record is the
    placeholder [{classId, "Class " + classId}], the student record is the
    student, and the student set of the class contains the student's ID. *)
Theorem AddStudent_creates_missing_class (student : Student) (w : World) :
  Student_ID student ≠ "" →
  Student_Name student ≠ "" →
  Student_ClassID student ≠ "" →
  ¬ class_listed (db w) (Student_ClassID student) →
  let classID := Student_ClassID student in
  let w' := (AddStudent student w).2 in
  (∃ t, trace w' = trace w ++ SIsMember classesKey classID :: t
        ∧ (t = []
           ∨ t = class_write (placeholder classID)
           ∨ t = class_write (placeholder classID) ++ student_write student))
  ∧ ((AddStudent student w).1 = None →
     trace w' = trace w ++ SIsMember classesKey classID
                  :: class_write (placeholder classID)
                  ++ student_write student
     ∧ class_listed (db w') classID
     ∧ class_record (db w') classID = Some (placeholder classID)
     ∧ student_record (db w') (Student_ID student) = Some student
     ∧ Student_ID student ∈ class_students (db w') classID).
Proof.
  intros Hid Hname Hcid Hno classID w'. subst w'.
  apply is_empty_false in Hid, Hname, Hcid.
  rewrite AddStudent_eq by done. fold classID.
  destruct (ClassExists_unlisted classID w Hno) as [-> | [e ->]].
  2:{ split; [|done]. exists []. by split; [|left]. }
  set (w1 := sent [SIsMember classesKey classID] w).
  pose proof (AddClass_trace (placeholder classID) w1 Hcid eq_refl) as Ht2.
  destruct (AddClass (placeholder classID) w1) as [[e|] w2] eqn:Eac.
  { split; [|done]. exists (class_write (placeholder classID)).
    split; [|by right; left]. simpl in *.
    by rewrite Ht2, <- (assoc_L (++)). }
  pose proof (AddStudent_write_trace student w2) as Ht3.
  assert (trace (AddStudent_write student w2).2
          = trace w ++ SIsMember classesKey classID
              :: class_write (placeholder classID) ++ student_write student)
    as Ht.
  { simpl in Ht2. rewrite Ht3, Ht2.
    by rewrite <- !(assoc_L (++)). }
  split.
  { eexists. split; [exact Ht|]. by right; right. }
  intros Hok. split; [exact Ht|].
  assert ((AddClass (placeholder classID) w1).1 = None) as Hc
    by by rewrite Eac.
  apply AddClass_ok in Hc as (_ & _ & _ & Hcw & Hw2).
  rewrite Eac in Hw2. simpl in Hw2.
  apply AddStudent_write_ok in Hok as (_ & Hsw & ->).
  apply class_write_ok in Hcw as [Hlisted Hrec].
  apply student_write_ok in Hsw as [Hin Hst].
  subst w2. simpl in *.
  rewrite class_listed_after_student_write,
    class_record_after_student_write.
  done.
Qed.

(** A first student of a class nobody created, in the empty store. *)
Lemma AddStudent_creates_missing_class_witness :
  let w' := (AddStudent (mkStudent "S_GO01_001" "Alice" "C2024_GO01")
                        empty_world).2 in
  class_listed (db w') "C2024_GO01"
  ∧ class_record (db w') "C2024_GO01"
    = Some (mkClazz "C2024_GO01" "Class C2024_GO01")
  ∧ student_record (db w') "S_GO01_001"
    = Some (mkStudent "S_GO01_001" "Alice" "C2024_GO01")
  ∧ "S_GO01_001" ∈ class_students (db w') "C2024_GO01".
Proof.
  pose proof (AddStudent_creates_missing_class
                (mkStudent "S_GO01_001" "Alice" "C2024_GO01") empty_world)
    as H.
  destruct H as [_ H]; [discriminate | discriminate | discriminate | |].
  - unfold class_listed, members. simpl. rewrite lookup_empty.
    apply not_elem_of_empty.
  - apply H. vm_compute. reflexivity.
Defined.

(** ** The commands sent *)

Section traces.

Context (P : command → Prop).

Lemma sends_ret {A} (a : A) : sends P (ret a).
Proof. intros w. exists []. by rewrite (right_id_L [] (++)). Qed.

Lemma sends_bind {A B} (m : M A) (k : A → M B) :
  sends P m → (∀ a, sends P (k a)) → sends P (bind m k).
Proof.
  intros Hm Hk w. unfold bind.
  destruct (Hm w) as (t1 & E1 & F1). destruct (m w) as [a w1].
  destruct (Hk a w1) as (t2 & E2 & F2). simpl in E1.
  exists (t1 ++ t2). split.
  - by rewrite E2, E1, (assoc_L (++)).
  - by apply Forall_app.
Qed.

Lemma sends_roundtrip cmds : Forall P cmds → sends P (roundtrip cmds).
Proof. intros F w. by exists cmds. Qed.

Lemma sends_get_db : sends P get_db.
Proof. intros w. exists []. by rewrite (right_id_L [] (++)). Qed.

Lemma sends_put_db d : sends P (put_db d).
Proof. intros w. exists []. simpl. by rewrite (right_id_L [] (++)). Qed.

Lemma sends_draw : sends P draw.
Proof. intros w. exists []. simpl. by rewrite (right_id_L [] (++)). Qed.

Lemma sends_draws n : sends P (draws n).
Proof. intros w. exists []. simpl. by rewrite (right_id_L [] (++)). Qed.

End traces.

(** Splits a computation along its binds and its case distinctions. *)
Ltac sends_split :=
  repeat match goal with
    | |- sends _ (ret _) => apply sends_ret
    | |- sends _ get_db => apply sends_get_db
    | |- sends _ (put_db _) => apply sends_put_db
    | |- sends _ draw => apply sends_draw
    | |- sends _ (draws _) => apply sends_draws
    | |- sends _ (bind _ _) => apply sends_bind; [|intros ?]
    | |- sends _ (match ?x with _ => _ end) => destruct x
    end.

Section scheme.

Lemma sends_Pipeline_Exec P cmds :
  Forall P cmds → sends P (Client.Pipeline_Exec cmds).
Proof.
  intros. unfold Client.Pipeline_Exec. sends_split.
  by apply sends_roundtrip.
Qed.

Lemma sends_SIsMember P k m :
  P (SIsMember k m) → sends P (Client.SIsMember k m).
Proof.
  intros. unfold Client.SIsMember. sends_split.
  apply sends_roundtrip. by constructor.
Qed.

Lemma sends_HGetAll P k : P (HGetAll k) → sends P (Client.HGetAll k).
Proof.
  intros. unfold Client.HGetAll. sends_split.
  apply sends_roundtrip. by constructor.
Qed.

Lemma sends_SMembers P k : P (SMembers k) → sends P (Client.SMembers k).
Proof.
  intros. unfold Client.SMembers. sends_split.
  apply sends_roundtrip. by constructor.
Qed.

Lemma sends_SRandMember P k :
  P (SRandMember k) → sends P (Client.SRandMember k).
Proof.
  intros. unfold Client.SRandMember. sends_split.
  apply sends_roundtrip. by constructor.
Qed.

Lemma scheme_classes : "classes" = "classes" ∨
  ∃ id, "classes" = "class:" +:+ id +:+ ":students".
Proof. by left. Qed.

Lemma scheme_class_students c :
  getClassStudentsKey c = "classes"
  ∨ ∃ id, getClassStudentsKey c = "class:" +:+ id +:+ ":students".
Proof. right. by exists c. Qed.

Lemma scheme_class_info c :
  (∃ id, getClassInfoKey c = "class:" +:+ id)
  ∨ (∃ id, getClassInfoKey c = "student:" +:+ id).
Proof. left. by exists c. Qed.

Lemma scheme_student_info s :
  (∃ id, getStudentInfoKey s = "class:" +:+ id)
  ∨ (∃ id, getStudentInfoKey s = "student:" +:+ id).
Proof. right. by exists s. Qed.

Lemma scheme_class_write clazz : Forall scheme_command (class_write clazz).
Proof.
  constructor; [apply scheme_classes|].
  constructor; [apply scheme_class_info | constructor].
Qed.

Lemma scheme_student_write student :
  Forall scheme_command (student_write student).
Proof.
  constructor; [apply scheme_class_students|].
  constructor; [apply scheme_student_info | constructor].
Qed.

Lemma sends_AddClass clazz : sends scheme_command (AddClass clazz).
Proof.
  unfold AddClass. sends_split.
  apply sends_Pipeline_Exec, (scheme_class_write clazz).
Qed.

Lemma sends_GetClassByID classID :
  sends scheme_command (GetClassByID classID).
Proof.
  unfold GetClassByID. sends_split.
  apply sends_HGetAll, scheme_class_info.
Qed.

Lemma sends_GetAllClasses_range classIDs classes :
  sends scheme_command (GetAllClasses_range classIDs classes).
Proof.
  revert classes. induction classIDs as [|id rest IH]; intros classes; simpl.
  - apply sends_ret.
  - apply sends_bind; [apply sends_GetClassByID|].
    intros [[c|] [e|]]; apply IH.
Qed.

Lemma sends_GetAllClasses : sends scheme_command GetAllClasses.
Proof.
  unfold GetAllClasses.
  apply sends_bind; [apply sends_SMembers, scheme_classes|].
  intros [ids [e|]]; sends_split. apply sends_GetAllClasses_range.
Qed.

Lemma sends_ClassExists classID : sends scheme_command (ClassExists classID).
Proof.
  unfold ClassExists. sends_split. apply sends_SIsMember, scheme_classes.
Qed.

Lemma sends_AddStudent student : sends scheme_command (AddStudent student).
Proof.
  unfold AddStudent. sends_split; try apply sends_AddClass.
  - apply sends_ClassExists.
  - apply sends_Pipeline_Exec, (scheme_student_write student).
Qed.

Lemma sends_GetStudentByID studentID :
  sends scheme_command (GetStudentByID studentID).
Proof.
  unfold GetStudentByID. sends_split.
  apply sends_HGetAll, scheme_student_info.
Qed.

Lemma sends_GetStudentsByClassID_range studentIDs students :
  sends scheme_command (GetStudentsByClassID_range studentIDs students).
Proof.
  revert students.
  induction studentIDs as [|id rest IH]; intros students; simpl.
  - apply sends_ret.
  - apply sends_bind; [apply sends_GetStudentByID|].
    intros [[c|] [e|]]; apply IH.
Qed.

Lemma sends_GetStudentsByClassID classID :
  sends scheme_command (GetStudentsByClassID classID).
Proof.
  unfold GetStudentsByClassID.
  apply sends_bind; [apply sends_SMembers, scheme_class_students|].
  intros [ids [e|]]; sends_split. apply sends_GetStudentsByClassID_range.
Qed.

Lemma sends_GetRandomStudent classID :
  sends scheme_command (GetRandomStudent classID).
Proof.
  unfold GetRandomStudent.
  apply sends_bind; [apply sends_SRandMember, scheme_class_students|].
  intros [id [e|]]; sends_split. apply sends_GetStudentByID.
Qed.

Lemma sends_Import_add students n :
  sends scheme_command (Import_add students n).
Proof.
  revert n. induction students as [|st rest IH]; intros n; simpl.
  - apply sends_ret.
  - apply sends_bind; [apply sends_AddStudent|]. intros [e|]; apply IH.
Qed.

Lemma sends_ImportStudentsFromExcel file classID :
  sends scheme_command (ImportStudentsFromExcel file classID).
Proof.
  unfold ImportStudentsFromExcel.
  sends_split; try apply sends_AddClass; try apply sends_ClassExists.
  apply sends_Import_add.
Qed.

End scheme.

(** C9.  The keys are built by the fixed scheme: ["classes"],
    ["class:" + id], ["class:" + id + ":students"] and ["student:" + id];
    every command an operation of the store sends goes to a key of this
    scheme (a set command to the class list or to a student set, a hash
    command to a class record or to a student record); and no key derived
    from a class (the class list, a class record, a student set) equals a
    student-record key, whatever the IDs. *)
Theorem keys_follow_the_scheme :
  (classesKey = "classes"
   ∧ ∀ id, getClassInfoKey id = "class:" +:+ id
           ∧ getClassStudentsKey id = "class:" +:+ id +:+ ":students"
           ∧ getStudentInfoKey id = "student:" +:+ id)
  ∧ ((∀ clazz, sends scheme_command (AddClass clazz))
     ∧ (∀ classID, sends scheme_command (GetClassByID classID))
     ∧ sends scheme_command GetAllClasses
     ∧ (∀ classID, sends scheme_command (ClassExists classID))
     ∧ (∀ student, sends scheme_command (AddStudent student))
     ∧ (∀ studentID, sends scheme_command (GetStudentByID studentID))
     ∧ (∀ classID, sends scheme_command (GetStudentsByClassID classID))
     ∧ (∀ classID, sends scheme_command (GetRandomStudent classID))
     ∧ (∀ file classID,
          sends scheme_command (ImportStudentsFromExcel file classID)))
  ∧ (∀ classID studentID,
       classesKey ≠ getStudentInfoKey studentID
       ∧ getClassInfoKey classID ≠ getStudentInfoKey studentID
       ∧ getClassStudentsKey classID ≠ getStudentInfoKey studentID).
Proof.
  split; [by split|]. split.
  - repeat split; intros.
    + apply sends_AddClass.
    + apply sends_GetClassByID.
    + apply sends_GetAllClasses.
    + apply sends_ClassExists.
    + apply sends_AddStudent.
    + apply sends_GetStudentByID.
    + apply sends_GetStudentsByClassID.
    + apply sends_GetRandomStudent.
    + apply sends_ImportStudentsFromExcel.
  - intros classID studentID. split; [|split].
    + apply classesKey_ne_student.
    + apply info_ne_student.
    + apply students_ne_student.
Qed.

(** ** The roster invariant under the two writes *)

Section invariant.

Implicit Types (d : gmap string value) (w : World).

(** Two keys of different kinds are never equal. *)
Local Ltac absurd_keys H L :=
  exfalso; first [exact (L _ H) | exact (L _ (eq_sym H))
                 | exact (L _ _ H) | exact (L _ _ (eq_sym H))].

Lemma typed_after_class_write clazz d :
  student_keys_typed d → student_keys_typed (after (class_write clazz) d).
Proof.
  intros Ht sid s Hs. rewrite after_class_write in Hs.
  apply is_set_exec_HMSet, is_set_exec_SAdd in Hs as [Heq|Hs].
  - absurd_keys Heq classesKey_ne_student.
  - by apply Ht in Hs.
Qed.

Lemma typed_after_student_write student d :
  student_keys_typed d → student_keys_typed (after (student_write student) d).
Proof.
  intros Ht sid s Hs. rewrite after_student_write in Hs.
  apply is_set_exec_HMSet, is_set_exec_SAdd in Hs as [Heq|Hs].
  - absurd_keys Heq students_ne_student.
  - by apply Ht in Hs.
Qed.

Lemma class_students_after_class_write clazz d classID :
  class_students (after (class_write clazz) d) classID
  = class_students d classID.
Proof.
  unfold class_students. apply members_after_class_write.
  intros Heq. absurd_keys Heq classesKey_ne_students.
Qed.

Lemma student_record_after_class_write clazz d studentID :
  student_record (after (class_write clazz) d) studentID
  = student_record d studentID.
Proof.
  unfold student_record. rewrite record_after_class_write; [done|].
  intros Heq. absurd_keys Heq info_ne_student.
Qed.

Lemma class_students_after_student_write_ne student d classID :
  classID ≠ Student_ClassID student →
  class_students (after (student_write student) d) classID
  = class_students d classID.
Proof.
  intros Hne. unfold class_students. apply members_after_student_write.
  intros Heq. by apply getClassStudentsKey_inj in Heq.
Qed.

Lemma student_record_after_student_write_ne student d studentID :
  studentID ≠ Student_ID student →
  student_record (after (student_write student) d) studentID
  = student_record d studentID.
Proof.
  intros Hne. unfold student_record. rewrite record_after_student_write;
    [done|]. intros Heq. by apply getStudentInfoKey_inj in Heq.
Qed.

(** On a typed keyspace the record of the student is always written. *)
Lemma student_record_after_student_write student d :
  student_keys_typed d →
  student_record (after (student_write student) d) (Student_ID student)
  = Some student.
Proof.
  intros Ht. rewrite after_student_write.
  edestruct (exec_HMSet_ok (getStudentInfoKey (Student_ID student)))
    as (h & Hh & _); last first.
  - unfold student_record, record. rewrite Hh.
    rewrite (size_union_ne_0 _ _ "id" (Student_ID student)) by done.
    simpl. destruct student as [id name cid]. simpl. f_equal; f_equal.
    + by apply field_union_l.
    + by apply field_union_l.
    + by apply field_union_l.
  - intros s Hs. apply is_set_exec_SAdd in Hs as [Heq|Hs].
    + absurd_keys Heq students_ne_student.
    + by apply Ht in Hs.
Qed.

Lemma roster_after_class_write clazz d :
  roster_inv d → roster_inv (after (class_write clazz) d).
Proof.
  intros Hinv classID studentID.
  rewrite class_students_after_class_write,
    student_record_after_class_write.
  apply Hinv.
Qed.

(** The student write keeps the invariant when the student is in no other
    class's set. *)
Lemma roster_after_student_write student d :
  student_keys_typed d →
  roster_inv d →
  enrolled_only_in d (Student_ClassID student) (Student_ID student) →
  roster_inv (after (student_write student) d).
Proof.
  intros Ht Hinv Honly classID studentID Hin.
  destruct (decide (studentID = Student_ID student)) as [->|Hne].
  - exists student. rewrite student_record_after_student_write by done.
    split; [done|]. split; [done|].
    destruct (decide (classID = Student_ClassID student)) as [->|Hc]; [done|].
    rewrite class_students_after_student_write_ne in Hin by done.
    by apply Honly in Hin.
  - rewrite student_record_after_student_write_ne by done.
    apply Hinv.
    destruct (decide (classID = Student_ClassID student)) as [->|Hc].
    + apply members_after_student_write_sub, elem_of_union in Hin
        as [Hin%elem_of_singleton|Hin]; done.
    + by rewrite class_students_after_student_write_ne in Hin.
Qed.

Lemma enrolled_only_in_after_class_write clazz d classID studentID :
  enrolled_only_in d classID studentID →
  enrolled_only_in (after (class_write clazz) d) classID studentID.
Proof.
  intros H other Hne. rewrite class_students_after_class_write. by apply H.
Qed.

Lemma enrolled_only_in_after_student_write student d studentID :
  enrolled_only_in d (Student_ClassID student) studentID →
  enrolled_only_in (after (student_write student) d)
                   (Student_ClassID student) studentID.
Proof.
  intros H other Hne.
  rewrite class_students_after_student_write_ne by done. by apply H.
Qed.

(** *** What the operations do to the keyspace *)

Lemma ClassExists_db classID w : db (ClassExists classID w).2 = db w.
Proof. by rewrite ClassExists_eq. Qed.

Lemma AddClass_db clazz w :
  db (AddClass clazz w).2 = db w
  ∨ db (AddClass clazz w).2 = after (class_write clazz) (db w).
Proof.
  destruct (is_empty (Clazz_ID clazz)) eqn:Hid;
    [left; by unfold AddClass; rewrite Hid|].
  destruct (is_empty (Clazz_Name clazz)) eqn:Hname;
    [left; by unfold AddClass; rewrite Hid, Hname|].
  rewrite AddClass_eq by done. destruct (next_fault w); [by left|by right].
Qed.

Lemma AddStudent_write_db student w :
  db (AddStudent_write student w).2 = db w
  ∨ db (AddStudent_write student w).2
    = after (student_write student) (db w).
Proof.
  rewrite AddStudent_write_eq. destruct (next_fault w); [by left|by right].
Qed.

(** [AddStudent] leaves the keyspace as it was, or with the placeholder
    class written, or with the student written on top of either. *)
Lemma AddStudent_db student w :
  ∃ d1,
    (d1 = db w
     ∨ d1 = after (class_write (placeholder (Student_ClassID student))) (db w))
    ∧ (db (AddStudent student w).2 = d1
       ∨ is_empty (Student_ID student) = false
         ∧ db (AddStudent student w).2 = after (student_write student) d1).
Proof.
  destruct (is_empty (Student_ID student)) eqn:Hid;
    [exists (db w); split; [by left|left];
     by unfold AddStudent; rewrite Hid|].
  destruct (is_empty (Student_Name student)) eqn:Hname;
    [exists (db w); split; [by left|left];
     by unfold AddStudent; rewrite Hid, Hname|].
  destruct (is_empty (Student_ClassID student)) eqn:Hcid;
    [exists (db w); split; [by left|left];
     by unfold AddStudent; rewrite Hid, Hname, Hcid|].
  rewrite AddStudent_eq by done.
  pose proof (ClassExists_db (Student_ClassID student) w) as Hce.
  destruct (ClassExists _ w) as [[ex [e|]] w1]; simpl in Hce.
  { exists (db w). split; [by left|by left]. }
  destruct ex.
  { exists (db w). split; [by left|]. rewrite <- Hce.
    destruct (AddStudent_write_db student w1) as [->| ->]; [by left|by right]. }
  pose proof (AddClass_db (placeholder (Student_ClassID student)) w1) as Hac.
  destruct (AddClass _ w1) as [[e|] w2]; simpl in Hac; rewrite Hce in Hac.
  { exists (db w2). split; [done|by left]. }
  exists (db w2). split; [done|].
  destruct (AddStudent_write_db student w2) as [->| ->]; [by left|by right].
Qed.

Lemma no_empty_id_after_class_write clazz d :
  no_empty_id d → no_empty_id (after (class_write clazz) d).
Proof.
  intros H classID. rewrite class_students_after_class_write. apply H.
Qed.

Lemma no_empty_id_after_student_write student d :
  is_empty (Student_ID student) = false →
  no_empty_id d → no_empty_id (after (student_write student) d).
Proof.
  intros Hid H classID Hin.
  destruct (decide (classID = Student_ClassID student)) as [->|Hc].
  - apply members_after_student_write_sub, elem_of_union in Hin
      as [Hin%elem_of_singleton|Hin].
    + by rewrite <- Hin in Hid.
    + by apply H in Hin.
  - rewrite class_students_after_student_write_ne in Hin by done.
    by apply H in Hin.
Qed.

Lemma well_formed_after_class_write clazz d :
  well_formed d → well_formed (after (class_write clazz) d).
Proof.
  intros [Ht Hn]. split;
    [by apply typed_after_class_write|by apply no_empty_id_after_class_write].
Qed.

Lemma well_formed_after_student_write student d :
  is_empty (Student_ID student) = false →
  well_formed d → well_formed (after (student_write student) d).
Proof.
  intros Hid [Ht Hn]. split;
    [by apply typed_after_student_write
    |by apply no_empty_id_after_student_write].
Qed.

Lemma AddClass_well_formed clazz w :
  well_formed (db w) → well_formed (db (AddClass clazz w).2).
Proof.
  intros Hwf. destruct (AddClass_db clazz w) as [-> | ->]; [done|].
  by apply well_formed_after_class_write.
Qed.

Lemma AddStudent_well_formed student w :
  well_formed (db w) → well_formed (db (AddStudent student w).2).
Proof.
  intros Hwf. destruct (AddStudent_db student w) as (d1 & Hd1 & Hd2).
  assert (well_formed d1) as Hwf1.
  { destruct Hd1 as [-> | ->]; [done|].
    by apply well_formed_after_class_write. }
  destruct Hd2 as [-> | [Hid ->]]; [done|].
  by apply well_formed_after_student_write.
Qed.

Lemma AddClass_preserves clazz w :
  roster_inv (db w) → roster_inv (db (AddClass clazz w).2).
Proof.
  intros Hinv. destruct (AddClass_db clazz w) as [-> | ->]; [done|].
  by apply roster_after_class_write.
Qed.

Lemma AddStudent_preserves student w :
  well_formed (db w) → roster_inv (db w) →
  enrolled_only_in (db w) (Student_ClassID student) (Student_ID student) →
  roster_inv (db (AddStudent student w).2).
Proof.
  intros [Ht Hn] Hinv Honly.
  destruct (AddStudent_db student w) as (d1 & Hd1 & Hd2).
  assert (student_keys_typed d1 ∧ roster_inv d1
          ∧ enrolled_only_in d1 (Student_ClassID student) (Student_ID student))
    as (Ht1 & Hinv1 & Honly1).
  { destruct Hd1 as [-> | ->]; [done|].
    split; [by apply typed_after_class_write|].
    split; [by apply roster_after_class_write|].
    by apply enrolled_only_in_after_class_write. }
  destruct Hd2 as [-> | [_ ->]]; [done|].
  by apply roster_after_student_write.
Qed.

(** [AddStudent] changes the student set of no other class. *)
Lemma AddStudent_other_class student w classID :
  classID ≠ Student_ClassID student →
  class_students (db (AddStudent student w).2) classID
  = class_students (db w) classID.
Proof.
  intros Hne. destruct (AddStudent_db student w) as (d1 & Hd1 & Hd2).
  assert (class_students d1 classID = class_students (db w) classID) as <-.
  { destruct Hd1 as [-> | ->]; [done|].
    apply class_students_after_class_write. }
  destruct Hd2 as [-> | [_ ->]]; [done|].
  by apply class_students_after_student_write_ne.
Qed.

(** *** The roster invariant of one class *)









End invariant.


(** ** The import, step by step *)

Section import.

Implicit Types (w : World) (rows : list (list string)).

(** [ImportStudentsFromExcel] is its three steps in a row. *)
Lemma Import_steps file classID w :
  ImportStudentsFromExcel file classID w =
    let '(err, w1) := Import_ensure classID w in
    match err with
    | Some e => ((0, Some e), w1)
    | None =>
        match Import_read file with
        | inr e => ((0, Some e), w1)
        | inl rows =>
            let '(n, w2) := Import_add (Import_rows classID 0 rows []) 0 w1 in
            ((n, None), w2)
        end
    end.
Proof.
  unfold ImportStudentsFromExcel, Import_ensure, Import_read, bind.
  destruct (ClassExists classID w) as [[ex [e|]] w1]; [done|].
  destruct (if negb ex then _ else _) as [[e|] w2]; [done|].
  cbv beta iota. unfold ret.
  destruct (excelize.OpenReader file) as [f|e]; [|done].
  destruct (is_empty _); [done|].
  by destruct (excelize.GetRows _ _) as [rows [e|]].
Qed.

(** Reading an unusable stream fails, and the error is a format error. *)
Lemma Import_read_unusable file :
  unusable file →
  ∃ e, Import_read file = inr e ∧ error_kind e = FormatError.
Proof.
  destruct file as [reason|f]; simpl.
  - intros _. by eexists.
  - intros Hf. unfold Import_read. simpl.
    destruct (is_empty (excelize.GetSheetName f 0)) eqn:Hname;
      [by eexists|].
    destruct Hf as [Hf|Hf]; [by rewrite Hf in Hname|].
    revert Hf. unfold excelize.GetRows.
    destruct (List.find _ f) as [sh|]; [|intros _; by eexists].
    destruct (excelize.sheet_rows sh); [done|]. intros _. by eexists.
Qed.

Lemma Import_read_usable file rows :
  Import_read file = inl rows → ¬ unusable file.
Proof.
  intros Hr Hu. apply Import_read_unusable in Hu as (e & He & _).
  congruence.
Qed.

(** *** The rows *)

Lemma cell_read row j :
  (if j <? length row then nth j row "" else "") = cell row j.
Proof.
  unfold cell. destruct (j <? length row) eqn:Hj.
  - apply nth_lookup.
  - apply Nat.ltb_ge in Hj. by rewrite lookup_ge_None_2.
Qed.

(** Past the header, the loop keeps the rows that are not skipped. *)
Lemma Import_rows_data classID i rows acc :
  Import_rows classID (S i) rows acc
  = acc ++ ((λ row, mkStudent (cell row 0) (cell row 1) classID)
              <$> filter (λ row, skipped row = false) rows).
Proof.
  revert i acc. induction rows as [|row rest IH]; intros i acc.
  - simpl. by rewrite (right_id_L [] (++)).
  - cbn [Import_rows Nat.eqb]. rewrite !cell_read. fold (skipped row).
    rewrite filter_cons. destruct (decide (skipped row = false)) as [Hs|Hs].
    + rewrite Hs, IH. by rewrite <- (assoc_L (++)).
    + apply not_false_is_true in Hs. by rewrite Hs, IH.
Qed.

(** The students gathered by the loop are those the specification
    describes. *)
Lemma Import_rows_candidates classID rows :
  Import_rows classID 0 rows [] = candidates classID rows.
Proof.
  unfold candidates, data_rows. destruct rows as [|header rest]; [done|].
  cbn [Import_rows Nat.eqb drop]. by rewrite Import_rows_data.
Qed.

Lemma candidates_class classID rows st :
  st ∈ candidates classID rows → Student_ClassID st = classID.
Proof.
  unfold candidates. intros (row & -> & _)%list_elem_of_fmap. done.
Qed.

Lemma length_filter_skipped rows :
  length (filter (λ row, skipped row = false) rows)
  = length rows - length (filter (λ row, skipped row = true) rows).
Proof.
  induction rows as [|row rest IH]; [done|].
  rewrite !filter_cons.
  pose proof (length_filter (λ row, skipped row = true) rest).
  destruct (skipped row) eqn:Hs.
  - destruct (decide (true = false)); [done|].
    destruct (decide (true = true)); [|done]. simpl. lia.
  - destruct (decide (false = false)); [|done].
    destruct (decide (false = true)); [done|]. simpl. lia.
Qed.

(** *** The submissions *)

(** The count is the number of submissions that succeeded, and the world
    is the one the submissions leave. *)
Lemma Import_add_submissions students n w :
  Import_add students n w
  = (n + length (filter (λ e, e = None) (submissions students w).1),
     (submissions students w).2).
Proof.
  revert n w. induction students as [|st rest IH]; intros n w.
  - simpl. unfold ret. simpl. f_equal. lia.
  - cbn [Import_add submissions]. unfold bind.
    destruct (AddStudent st w) as [[e|] w1].
    + rewrite IH. destruct (submissions rest w1) as [errs w2].
      unfold ret. cbn [fst snd]. by rewrite filter_cons_False.
    + rewrite IH. destruct (submissions rest w1) as [errs w2].
      unfold ret. cbn [fst snd]. rewrite filter_cons_True by done.
      cbn [length]. f_equal. lia.
Qed.

Lemma submissions_length students w :
  length (submissions students w).1 = length students.
Proof.
  revert w. induction students as [|st rest IH]; intros w; [done|].
  cbn [submissions]. unfold bind. destruct (AddStudent st w) as [e w1].
  specialize (IH w1). destruct (submissions rest w1) as [errs w2].
  simpl in *. by rewrite IH.
Qed.

Lemma filter_all_None (errs : list (option error)) :
  Forall (λ e, e = None) errs → filter (λ e, e = None) errs = errs.
Proof.
  induction 1 as [|e errs He _ IH]; [done|].
  by rewrite filter_cons_True, IH.
Qed.

(** *** The first step *)

Lemma Import_ensure_eq classID w :
  Import_ensure classID w =
    let '((exists_, err), w1) := ClassExists classID w in
    match err with
    | Some e =>
        (Some (fmt_Errorf
                 "failed to check class existence before import: " e), w1)
    | None =>
        if exists_ then (None, w1)
        else
          let '(created, w2) := AddClass (imported_class classID) w1 in
          (fmt_Errorf ("target class " +:+ classID
                       +:+ " does not exist and failed to create it: ")
             <$> created, w2)
    end.
Proof.
  unfold Import_ensure, bind.
  destruct (ClassExists classID w) as [[ex [e|]] w1]; [done|].
  destruct ex; cbv beta iota delta [negb]; [done|].
  fold (imported_class classID).
  by destruct (AddClass _ w1) as [[e|] w2].
Qed.

Lemma Import_ensure_db classID w :
  db (Import_ensure classID w).2 = db w
  ∨ db (Import_ensure classID w).2
    = after (class_write (imported_class classID)) (db w).
Proof.
  rewrite Import_ensure_eq.
  pose proof (ClassExists_db classID w) as Hce.
  destruct (ClassExists classID w) as [[ex [e|]] w1]; simpl in Hce;
    [by left|].
  destruct ex; [by left|].
  pose proof (AddClass_db (imported_class classID) w1) as Hac.
  destruct (AddClass _ w1) as [c w2]. simpl in *. by rewrite <- Hce.
Qed.

(** The first step sends the check and, at most, the class write. *)
Lemma Import_ensure_trace classID w :
  ∃ t, trace (Import_ensure classID w).2 = trace w ++ t
       ∧ Forall (λ c, c = SIsMember classesKey classID
                      ∨ c ∈ class_write (imported_class classID)) t.
Proof.
  rewrite Import_ensure_eq, ClassExists_eq.
  set (w1 := sent [SIsMember classesKey classID] w).
  assert (Forall (λ c, c = SIsMember classesKey classID
                       ∨ c ∈ class_write (imported_class classID))
                 [SIsMember classesKey classID]) as F1.
  { constructor; [by left|constructor]. }
  assert (∃ t, trace (let '(created, w2) :=
                        AddClass (imported_class classID) w1 in
                      (fmt_Errorf ("target class " +:+ classID
                           +:+ " does not exist and failed to create it: ")
                         <$> created, w2)).2 = trace w ++ t
               ∧ Forall (λ c, c = SIsMember classesKey classID
                              ∨ c ∈ class_write (imported_class classID)) t)
    as Hcreate.
  { destruct (is_empty classID) eqn:Hc.
    - exists [SIsMember classesKey classID]. split; [|done].
      unfold AddClass. simpl. by rewrite Hc.
    - pose proof (AddClass_trace (imported_class classID) w1 Hc eq_refl)
        as Ht.
      destruct (AddClass _ w1) as [c w2]. simpl in *.
      exists (SIsMember classesKey classID
                :: class_write (imported_class classID)).
      split; [by rewrite Ht, <- (assoc_L (++))|].
      constructor; [by left|]. apply Forall_forall. intros c' Hc'.
      by right. }
  destruct (next_fault w); [by eexists|].
  destruct (db w !! classesKey) as [[s|h]|]; [|by eexists|done].
  destruct (bool_decide (classID ∈ s)); [by eexists|done].
Qed.

(** When the class was not listed and the first step succeeded, the class
    write has happened. *)
Lemma Import_ensure_created classID w :
  ¬ class_listed (db w) classID →
  (Import_ensure classID w).1 = None →
  (exec_pipeline (class_write (imported_class classID)) (db w)).2 = None
  ∧ db (Import_ensure classID w).2
    = after (class_write (imported_class classID)) (db w).
Proof.
  intros Hno. rewrite Import_ensure_eq.
  destruct (ClassExists_unlisted classID w Hno) as [-> | [e ->]]; [|done].
  destruct (AddClass _ _) as [[e|] w2] eqn:Eac; [done|]. intros _.
  assert ((AddClass (imported_class classID)
             (sent [SIsMember classesKey classID] w)).1 = None) as Hok
    by by rewrite Eac.
  apply AddClass_ok in Hok as (_ & _ & _ & Hp & Hw). rewrite Eac in Hw.
  simpl in *. by subst w2.
Qed.

End import.

(** ** The roster invariant under the import *)

Section import_invariant.

Implicit Types (w : World).

Lemma Import_ensure_well_formed classID w :
  well_formed (db w) → well_formed (db (Import_ensure classID w).2).
Proof.
  intros Hwf. destruct (Import_ensure_db classID w) as [-> | ->]; [done|].
  by apply well_formed_after_class_write.
Qed.

Lemma Import_ensure_preserves classID w :
  roster_inv (db w) → roster_inv (db (Import_ensure classID w).2).
Proof.
  intros Hinv. destruct (Import_ensure_db classID w) as [-> | ->]; [done|].
  by apply roster_after_class_write.
Qed.

Lemma Import_ensure_class_students classID w other :
  class_students (db (Import_ensure classID w).2) other
  = class_students (db w) other.
Proof.
  destruct (Import_ensure_db classID w) as [-> | ->]; [done|].
  apply class_students_after_class_write.
Qed.

(** Submitting students of one class keeps the invariant when none of them
    is in another class's set. *)
Lemma submissions_preserve classID students :
  (∀ st, st ∈ students → Student_ClassID st = classID) →
  ∀ w,
    well_formed (db w) → roster_inv (db w) →
    (∀ st, st ∈ students →
           enrolled_only_in (db w) classID (Student_ID st)) →
    well_formed (db (submissions students w).2)
    ∧ roster_inv (db (submissions students w).2).
Proof.
  induction students as [|st rest IH]; intros Hclass w Hwf Hinv Honly;
    [done|].
  cbn [submissions]. unfold bind.
  pose proof (AddStudent_well_formed st w Hwf) as Hwf1.
  assert (Student_ClassID st = classID) as Hst by (apply Hclass; left).
  assert (roster_inv (db (AddStudent st w).2)) as Hinv1.
  { apply AddStudent_preserves; [done..|]. rewrite Hst. apply Honly. left. }
  assert (∀ st', st' ∈ rest →
            enrolled_only_in (db (AddStudent st w).2) classID
                             (Student_ID st')) as Honly1.
  { intros st' Hin other Hne.
    rewrite AddStudent_other_class by by rewrite Hst.
    apply Honly; [by right|done]. }
  destruct (AddStudent st w) as [e w1]. simpl in *.
  specialize (IH (λ st' Hin, Hclass st' (list_elem_of_further _ _ _ Hin))
                 w1 Hwf1 Hinv1 Honly1).
  by destruct (submissions rest w1) as [errs w2].
Qed.

Lemma submissions_well_formed students w :
  well_formed (db w) → well_formed (db (submissions students w).2).
Proof.
  revert w. induction students as [|st rest IH]; intros w Hwf; [done|].
  cbn [submissions]. unfold bind.
  pose proof (AddStudent_well_formed st w Hwf) as Hwf1.
  destruct (AddStudent st w) as [e w1]. specialize (IH w1 Hwf1).
  by destruct (submissions rest w1) as [errs w2].
Qed.

(** The world the import ends in. *)
Lemma Import_world file classID w :
  (ImportStudentsFromExcel file classID w).2
  = match (Import_ensure classID w).1, Import_read file with
    | None, inl rows =>
        (submissions (candidates classID rows) (Import_ensure classID w).2).2
    | _, _ => (Import_ensure classID w).2
    end.
Proof.
  rewrite Import_steps. destruct (Import_ensure classID w) as [[e|] w1];
    [done|]. simpl.
  destruct (Import_read file) as [rows|e]; [|done].
  by rewrite Import_add_submissions, Import_rows_candidates.
Qed.

Lemma Import_well_formed file classID w :
  well_formed (db w) →
  well_formed (db (ImportStudentsFromExcel file classID w).2).
Proof.
  intros Hwf. rewrite Import_world.
  pose proof (Import_ensure_well_formed classID w Hwf) as Hwf1.
  destruct (Import_ensure classID w).1; [done|].
  destruct (Import_read file); [|done].
  by apply submissions_well_formed.
Qed.

Lemma Import_preserves file classID w :
  well_formed (db w) → roster_inv (db w) →
  (∀ rows st,
     Import_read file = inl rows → st ∈ candidates classID rows →
     enrolled_only_in (db w) classID (Student_ID st)) →
  roster_inv (db (ImportStudentsFromExcel file classID w).2).
Proof.
  intros Hwf Hinv Honly. rewrite Import_world.
  pose proof (Import_ensure_well_formed classID w Hwf) as Hwf1.
  pose proof (Import_ensure_preserves classID w Hinv) as Hinv1.
  destruct (Import_ensure classID w).1; [done|].
  destruct (Import_read file) as [rows|e] eqn:Hr; [|done].
  apply (submissions_preserve classID); [|done..|].
  - intros st. apply candidates_class.
  - intros st Hin other Hne. rewrite Import_ensure_class_students.
    by apply (Honly rows st).
Qed.




Lemma well_formed_empty : well_formed ∅.
Proof.
  split.
  - intros sid s. by rewrite lookup_empty.
  - intros classID. unfold class_students, members. rewrite lookup_empty.
    apply not_elem_of_empty.
Qed.

Lemma roster_inv_empty : roster_inv ∅.
Proof.
  intros classID sid. unfold class_students, members. rewrite lookup_empty.
  by intros ?%not_elem_of_empty.
Qed.

Lemma enrolled_only_in_empty classID studentID :
  enrolled_only_in ∅ classID studentID.
Proof.
  intros other _. unfold class_students, members. rewrite lookup_empty.
  apply not_elem_of_empty.
Qed.

End import_invariant.

(** C5, amended.  The roster invariant (every ID in a class's student set
    has a student record, stored under that ID, whose [classId] is that
    class) holds in the empty store and is kept, together with
    well-formedness, by [AddClass] always, by [AddStudent] when the student's
    ID is in no other class's student set, and by the import when none of
    the IDs it submits is in the student set of a class other than the
    target.  Nothing is promised for a student ID that is added again under
    a different class. *)
Theorem roster_invariant_kept_unless_reenrolled :
  (well_formed ∅ ∧ roster_inv ∅)
  ∧ (∀ clazz w,
       well_formed (db w) → roster_inv (db w) →
       well_formed (db (AddClass clazz w).2)
       ∧ roster_inv (db (AddClass clazz w).2))
  ∧ (∀ student w,
       well_formed (db w) → roster_inv (db w) →
       enrolled_only_in (db w) (Student_ClassID student)
                        (Student_ID student) →
       well_formed (db (AddStudent student w).2)
       ∧ roster_inv (db (AddStudent student w).2))
  ∧ (∀ file classID w,
       well_formed (db w) → roster_inv (db w) →
       (∀ rows st,
          Import_read file = inl rows → st ∈ candidates classID rows →
          enrolled_only_in (db w) classID (Student_ID st)) →
       well_formed (db (ImportStudentsFromExcel file classID w).2)
       ∧ roster_inv (db (ImportStudentsFromExcel file classID w).2)).
Proof.
  split; [split; [apply well_formed_empty | apply roster_inv_empty]|].
  split; [|split].
  - intros clazz w Hwf Hinv.
    split; [by apply AddClass_well_formed | by apply AddClass_preserves].
  - intros student w Hwf Hinv Honly.
    split; [by apply AddStudent_well_formed | by apply AddStudent_preserves].
  - intros file classID w Hwf Hinv Honly.
    split; [by apply Import_well_formed | by apply Import_preserves].
Qed.

(** The first student of the seed data, added to the empty store. *)
Lemma roster_invariant_kept_unless_reenrolled_witness :
  roster_inv
    (db (AddStudent (mkStudent "S_GO01_001" "Alice" "C2024_GO01")
                    empty_world).2).
Proof.
  apply (proj1 (proj2 (proj2 roster_invariant_kept_unless_reenrolled))
           (mkStudent "S_GO01_001" "Alice" "C2024_GO01") empty_world).
  - apply well_formed_empty.
  - apply roster_inv_empty.
  - apply enrolled_only_in_empty.
Defined.

(** C5, as stated, fails: student [s1] is added to class [A] and then added
    again with class [B].  Both calls succeed; before the second one the
    invariant holds, after it [s1] is still in the student set of [A] while
    its record says [B]. *)
Lemma reenrolment_breaks_roster_invariant :
  let w1 := (AddStudent (mkStudent "s1" "Alice" "A") empty_world).2 in
  let w2 := (AddStudent (mkStudent "s1" "Alice" "B") w1).2 in
  well_formed (db w1)
  ∧ roster_inv (db w1)
  ∧ (AddStudent (mkStudent "s1" "Alice" "B") w1).1 = None
  ∧ "s1" ∈ class_students (db w2) "A"
  ∧ student_record (db w2) "s1" = Some (mkStudent "s1" "Alice" "B")
  ∧ ¬ roster_inv (db w2).
Proof.
  intros w1 w2.
  assert ("s1" ∈ class_students (db w2) "A") as Hin.
  { apply (bool_decide_unpack _). vm_compute. exact I. }
  assert (student_record (db w2) "s1" = Some (mkStudent "s1" "Alice" "B"))
    as Hrec by (vm_compute; reflexivity).
  split; [apply AddStudent_well_formed, well_formed_empty|].
  split.
  { apply AddStudent_preserves;
      [apply well_formed_empty | apply roster_inv_empty
      | apply enrolled_only_in_empty]. }
  split; [vm_compute; reflexivity|].
  split; [exact Hin|]. split; [exact Hrec|].
  intros Hinv. destruct (Hinv "A" "s1" Hin) as (st & Hst & _ & Hclass).
  rewrite Hrec in Hst. injection Hst as <-. discriminate Hclass.
Qed.

(** C6.  For a spreadsheet whose rows can be read, once the target class
    has been checked (and created when absent): the students the import
    gathers are those of the rows after the header that are not skipped,
    with column 0 as ID and column 1 as name, a missing column reading as
    the empty string, and a row being skipped when its ID or its name is
    empty; the import never fails on a skipped row (its error is nil), and
    its count is the number of submissions to [AddStudent] that succeeded.
    When all of them succeed, the count is the number of data rows minus the
    number of skipped rows. *)
Theorem import_counts_the_rows_kept (file : excelize.Reader)
    (classID : string) (rows : list (list string)) (w : World) :
  Import_read file = inl rows →
  (Import_ensure classID w).1 = None →
  let w1 := (Import_ensure classID w).2 in
  let outcomes := (submissions (candidates classID rows) w1).1 in
  Import_rows classID 0 rows [] = candidates classID rows
  ∧ ImportStudentsFromExcel file classID w
    = ((length (filter (λ e, e = None) outcomes), None),
       (submissions (candidates classID rows) w1).2)
  ∧ (Forall (λ e, e = None) outcomes →
     (ImportStudentsFromExcel file classID w).1
     = (length (data_rows rows)
        - length (filter (λ row, skipped row = true) (data_rows rows)),
        None)).
Proof.
  intros Hread Hens w1 outcomes.
  split; [apply Import_rows_candidates|].
  assert (ImportStudentsFromExcel file classID w
          = ((length (filter (λ e, e = None) outcomes), None),
             (submissions (candidates classID rows) w1).2)) as Himp.
  { rewrite Import_steps. subst w1 outcomes.
    destruct (Import_ensure classID w) as [[e|] w1]; [done|]. simpl.
    by rewrite Hread, Import_add_submissions, Import_rows_candidates. }
  split; [exact Himp|].
  intros Hall. rewrite Himp. cbn [fst]. f_equal.
  rewrite (filter_all_None _ Hall). subst outcomes.
  rewrite submissions_length. unfold candidates.
  by rewrite length_fmap, length_filter_skipped.
Qed.

(** A sheet with a header and four data rows, two of which are skipped (one
    has no name column, one has an empty ID), imported into the empty
    store. *)
Lemma import_counts_the_rows_kept_witness :
  (ImportStudentsFromExcel
     (excelize.Workbook
        [excelize.mkSheet "Sheet1"
           (inl [["id"; "name"]; ["1"; "a"]; ["2"]; [""; "b"];
                 ["3"; "c"; "d"]])])
     "C1" empty_world).1
  = (2, None).
Proof.
  pose proof (import_counts_the_rows_kept
    (excelize.Workbook
       [excelize.mkSheet "Sheet1"
          (inl [["id"; "name"]; ["1"; "a"]; ["2"]; [""; "b"];
                ["3"; "c"; "d"]])])
    "C1"
    [["id"; "name"]; ["1"; "a"]; ["2"]; [""; "b"]; ["3"; "c"; "d"]]
    empty_world) as H.
  destruct H as (_ & _ & H).
  - reflexivity.
  - vm_compute. reflexivity.
  - apply H. vm_compute. repeat constructor.
Defined.

(** C7.  When the stream cannot be opened, or has no first sheet, or the
    rows of that sheet cannot be read, the import answers a count of 0 and
    an error, and the world it leaves is the one its first step (the check
    and creation of the target class) left: the only commands sent are the
    membership check and, at most, the write of the target class, so no
    student has been submitted.  Once the first step has succeeded, the
    error is a format error. *)
Theorem import_rejects_unusable_source (file : excelize.Reader)
    (classID : string) (w : World) :
  unusable file →
  (∃ e, (ImportStudentsFromExcel file classID w).1 = (0, Some e))
  ∧ (ImportStudentsFromExcel file classID w).2 = (Import_ensure classID w).2
  ∧ (∃ t, trace (ImportStudentsFromExcel file classID w).2 = trace w ++ t
          ∧ Forall (λ c, c = SIsMember classesKey classID
                         ∨ c ∈ class_write (imported_class classID)) t)
  ∧ ((Import_ensure classID w).1 = None →
     ∃ e, (ImportStudentsFromExcel file classID w).1 = (0, Some e)
          ∧ error_kind e = FormatError).
Proof.
  intros (e & Hread & Hkind)%Import_read_unusable.
  assert ((ImportStudentsFromExcel file classID w).2
          = (Import_ensure classID w).2) as Hw.
  { rewrite Import_world, Hread. by destruct (Import_ensure classID w).1. }
  split; [|split; [exact Hw|split]].
  - rewrite Import_steps, Hread.
    destruct (Import_ensure classID w) as [[e'|] w1]; by eexists.
  - rewrite Hw. apply Import_ensure_trace.
  - intros Hens. exists e. split; [|exact Hkind].
    rewrite Import_steps, Hread.
    by destruct (Import_ensure classID w) as [[e'|] w1].
Qed.

(** A stream that is not a workbook, imported into the empty store: the
    class is created, nothing else is sent, and the error is a format
    error. *)
Lemma import_rejects_unusable_source_witness :
  ∃ e, (ImportStudentsFromExcel (excelize.Unreadable "zip: not a valid zip file")
          "C1" empty_world).1 = (0, Some e)
       ∧ error_kind e = FormatError.
Proof.
  apply (import_rejects_unusable_source
           (excelize.Unreadable "zip: not a valid zip file") "C1" empty_world).
  - exact I.
  - vm_compute. reflexivity.
Defined.

(** C10.  When the target class is not in the global class set and the
    stream is unusable, the import, once its first step has succeeded,
    answers [(0, error)] with a format error, and yet the class it created
    stays: the class is listed, its record is
    [{classId, "Imported Class " + classId}], and the keyspace is not the one
    the import started from.  The creation does not wait for the stream: the
    world left is the one the first step left. *)
Theorem import_failure_keeps_created_class (file : excelize.Reader)
    (classID : string) (w : World) :
  ¬ class_listed (db w) classID →
  (Import_ensure classID w).1 = None →
  unusable file →
  let w' := (ImportStudentsFromExcel file classID w).2 in
  (∃ e, (ImportStudentsFromExcel file classID w).1 = (0, Some e)
        ∧ error_kind e = FormatError)
  ∧ w' = (Import_ensure classID w).2
  ∧ class_listed (db w') classID
  ∧ class_record (db w') classID = Some (imported_class classID)
  ∧ db w' ≠ db w.
Proof.
  intros Hno Hens (e & Hread & Hkind)%Import_read_unusable w'.
  assert (w' = (Import_ensure classID w).2) as Hw.
  { subst w'. rewrite Import_world, Hread.
    by destruct (Import_ensure classID w).1. }
  destruct (Import_ensure_created classID w Hno Hens) as [Hpipe Hdb].
  apply class_write_ok in Hpipe as [Hlisted Hrec]. simpl in Hlisted, Hrec.
  assert (class_listed (db w') classID) as Hl by by rewrite Hw, Hdb.
  split; [|split; [exact Hw|split; [exact Hl|split]]].
  - exists e. split; [|exact Hkind]. rewrite Import_steps, Hread.
    by destruct (Import_ensure classID w) as [[e'|] w1].
  - by rewrite Hw, Hdb.
  - intros Heq. rewrite Heq in Hl. by apply Hno.
Qed.

(** An unreadable stream imported into a class the empty store does not
    know. *)
Lemma import_failure_keeps_created_class_witness :
  let w' := (ImportStudentsFromExcel (excelize.Unreadable "unexpected EOF")
               "C1" empty_world).2 in
  class_listed (db w') "C1"
  ∧ class_record (db w') "C1" = Some (mkClazz "C1" "Imported Class C1")
  ∧ db w' ≠ db empty_world.
Proof.
  pose proof (import_failure_keeps_created_class
                (excelize.Unreadable "unexpected EOF") "C1" empty_world) as H.
  destruct H as (_ & _ & H).
  - unfold class_listed, members. simpl. rewrite lookup_empty.
    apply not_elem_of_empty.
  - vm_compute. reflexivity.
  - exact I.
  - exact H.
Defined.

(** ** Listings *)

Section listings.

Implicit Types (w : World).

Lemma next_fault_nil w : faults w = [] → next_fault w = false.
Proof. unfold next_fault. by intros ->. Qed.

Lemma omap_cons_sublist {A B} (f : A → option B) x l k :
  k `sublist_of` omap f l → k `sublist_of` omap f (x :: l).
Proof.
  intros Hk. simpl. destruct (f x); [by apply sublist_cons|done].
Qed.

Lemma GetAllClasses_range_spec classIDs :
  ∀ classes w,
    ∃ l, (GetAllClasses_range classIDs classes w).1 = classes ++ l
         ∧ l `sublist_of` omap (class_record (db w)) classIDs
         ∧ (faults w = [] → l = omap (class_record (db w)) classIDs).
Proof.
  induction classIDs as [|id rest IH]; intros classes w.
  { exists []. simpl. by rewrite (right_id_L [] (++)). }
  cbn [GetAllClasses_range]. unfold bind. rewrite GetClassByID_eq.
  set (w1 := sent [HGetAll (getClassInfoKey id)] w).
  assert (faults w = [] → faults w1 = []) as Hq by by intros Hn; simpl; rewrite Hn.
  destruct (next_fault w) eqn:Hf.
  { destruct (IH classes w1) as (l & Hl & Hsub & _). exists l.
    split; [done|]. split; [by apply omap_cons_sublist|].
    intros Hn. by rewrite (next_fault_nil w Hn) in Hf. }
  assert (class_record (db w) id = None →
          ∃ l, (GetAllClasses_range rest classes w1).1 = classes ++ l
               ∧ l `sublist_of` omap (class_record (db w)) (id :: rest)
               ∧ (faults w = [] → l = omap (class_record (db w)) (id :: rest)))
    as Hskip.
  { intros Hnone. destruct (IH classes w1) as (l & Hl & Hsub & Hall).
    exists l. simpl. rewrite Hnone. split; [done|]. split; [done|].
    intros Hn. by apply Hall, Hq. }
  destruct (db w !! getClassInfoKey id) as [[s|h]|] eqn:E.
  - apply Hskip. unfold class_record, record. by rewrite E.
  - destruct (class_record (db w) id) as [c|] eqn:Hrec; [|by apply Hskip].
    destruct (IH (classes ++ [c]) w1) as (l & Hl & Hsub & Hall).
    exists (c :: l). simpl. rewrite Hrec.
    split; [by rewrite Hl, <- (assoc_L (++))|].
    split; [by apply sublist_skip|].
    intros Hn. f_equal. by apply Hall, Hq.
  - assert (class_record (db w) id = None) as Hnone
      by (unfold class_record, record; by rewrite E).
    rewrite Hnone. by apply Hskip.
Qed.

Lemma GetStudentsByClassID_range_spec studentIDs :
  ∀ students w,
    ∃ l, (GetStudentsByClassID_range studentIDs students w).1 = students ++ l
         ∧ l `sublist_of` omap (student_record (db w)) studentIDs
         ∧ (faults w = [] → l = omap (student_record (db w)) studentIDs).
Proof.
  induction studentIDs as [|id rest IH]; intros students w.
  { exists []. simpl. by rewrite (right_id_L [] (++)). }
  cbn [GetStudentsByClassID_range]. unfold bind. rewrite GetStudentByID_eq.
  set (w1 := sent [HGetAll (getStudentInfoKey id)] w).
  assert (faults w = [] → faults w1 = []) as Hq by by intros Hn; simpl; rewrite Hn.
  destruct (next_fault w) eqn:Hf.
  { destruct (IH students w1) as (l & Hl & Hsub & _). exists l.
    split; [done|]. split; [by apply omap_cons_sublist|].
    intros Hn. by rewrite (next_fault_nil w Hn) in Hf. }
  assert (student_record (db w) id = None →
          ∃ l, (GetStudentsByClassID_range rest students w1).1 = students ++ l
               ∧ l `sublist_of` omap (student_record (db w)) (id :: rest)
               ∧ (faults w = [] →
                  l = omap (student_record (db w)) (id :: rest)))
    as Hskip.
  { intros Hnone. destruct (IH students w1) as (l & Hl & Hsub & Hall).
    exists l. simpl. rewrite Hnone. split; [done|]. split; [done|].
    intros Hn. by apply Hall, Hq. }
  destruct (db w !! getStudentInfoKey id) as [[s|h]|] eqn:E.
  - apply Hskip. unfold student_record, record. by rewrite E.
  - destruct (student_record (db w) id) as [c|] eqn:Hrec; [|by apply Hskip].
    destruct (IH (students ++ [c]) w1) as (l & Hl & Hsub & Hall).
    exists (c :: l). simpl. rewrite Hrec.
    split; [by rewrite Hl, <- (assoc_L (++))|].
    split; [by apply sublist_skip|].
    intros Hn. f_equal. by apply Hall, Hq.
  - assert (student_record (db w) id = None) as Hnone
      by (unfold student_record, record; by rewrite E).
    rewrite Hnone. by apply Hskip.
Qed.

(** A listing whose IDs resolve to nothing is empty. *)
Lemma omap_none {A B} (f : A → option B) (l : list A) :
  (∀ x, x ∈ l → f x = None) → omap f l = [].
Proof.
  induction l as [|x l IH]; intros H; [done|]. simpl.
  rewrite (H x) by left. apply IH. intros y Hy. apply H. by right.
Qed.

End listings.

Section listing_results.

Implicit Types (w : World).

Lemma GetAllClasses_result w :
  ((GetAllClasses w).1.2 = None → ∃ l, (GetAllClasses w).1.1 = Some l)
  ∧ (next_fault w = false →
     (∀ h, db w !! classesKey ≠ Some (VHash h)) →
     ∃ ids l,
       ids ≡ₚ elements (members (db w) classesKey)
       ∧ (GetAllClasses w).1 = (Some l, None)
       ∧ l `sublist_of` omap (class_record (db w)) ids
       ∧ (faults w = [] → l = omap (class_record (db w)) ids)
       ∧ ((∀ id, id ∈ members (db w) classesKey →
                 class_record (db w) id = None) → l = [])).
Proof.
  split.
  { unfold GetAllClasses, bind.
    destruct (Client.SMembers classesKey w) as [[ids [e|]] w1].
    - destruct (errors_Is_redis_Nil e); [by intros _; exists []|done].
    - intros _. destruct (GetAllClasses_range ids [] w1) as [l w2].
      by exists l. }
  intros Hq Hh.
  destruct (SMembers_members classesKey w Hq Hh)
    as (ids & w1 & Hr & Hp & Hdb & Hf).
  unfold GetAllClasses, bind. rewrite Hr.
  destruct (GetAllClasses_range_spec ids [] w1) as (l & Hl & Hsub & Hall).
  rewrite Hdb in Hsub, Hall. exists ids, l. split; [done|].
  destruct (GetAllClasses_range ids [] w1) as [l' w2]. simpl in Hl.
  subst l'. split; [done|]. split; [done|]. split.
  - intros Hn. apply Hall. by rewrite Hf, Hn.
  - intros Hnone. rewrite omap_none in Hsub; [by apply sublist_nil_r|].
    intros id Hin. apply Hnone, elem_of_elements. by rewrite <- Hp.
Qed.

Lemma GetStudentsByClassID_result classID w :
  ((GetStudentsByClassID classID w).1.2 = None →
   ∃ l, (GetStudentsByClassID classID w).1.1 = Some l)
  ∧ (next_fault w = false →
     (∀ h, db w !! getClassStudentsKey classID ≠ Some (VHash h)) →
     ∃ ids l,
       ids ≡ₚ elements (class_students (db w) classID)
       ∧ (GetStudentsByClassID classID w).1 = (Some l, None)
       ∧ l `sublist_of` omap (student_record (db w)) ids
       ∧ (faults w = [] → l = omap (student_record (db w)) ids)
       ∧ ((∀ id, id ∈ class_students (db w) classID →
                 student_record (db w) id = None) → l = [])).
Proof.
  split.
  { unfold GetStudentsByClassID, bind.
    destruct (Client.SMembers (getClassStudentsKey classID) w)
      as [[ids [e|]] w1].
    - destruct (errors_Is_redis_Nil e); [by intros _; exists []|done].
    - intros _. destruct (GetStudentsByClassID_range ids [] w1) as [l w2].
      by exists l. }
  intros Hq Hh.
  destruct (SMembers_members (getClassStudentsKey classID) w Hq Hh)
    as (ids & w1 & Hr & Hp & Hdb & Hf).
  unfold GetStudentsByClassID, bind. rewrite Hr.
  destruct (GetStudentsByClassID_range_spec ids [] w1)
    as (l & Hl & Hsub & Hall).
  rewrite Hdb in Hsub, Hall. exists ids, l. split; [done|].
  destruct (GetStudentsByClassID_range ids [] w1) as [l' w2]. simpl in Hl.
  subst l'. split; [done|]. split; [done|]. split.
  - intros Hn. apply Hall. by rewrite Hf, Hn.
  - intros Hnone. rewrite omap_none in Hsub; [by apply sublist_nil_r|].
    intros id Hin. apply Hnone, elem_of_elements.
    unfold class_students. by rewrite <- Hp.
Qed.

(** A class nobody has added a student to has no student set. *)
Lemma GetStudentsByClassID_missing classID w :
  next_fault w = false →
  db w !! getClassStudentsKey classID = None →
  (GetStudentsByClassID classID w).1 = (Some [], None).
Proof.
  intros Hq Hnone.
  destruct (GetStudentsByClassID_result classID w) as [_ H].
  destruct H as (ids & l & _ & Hl & _ & _ & Hempty);
    [done|by rewrite Hnone|].
  rewrite Hl, Hempty; [done|].
  intros id. unfold class_students, members. rewrite Hnone.
  by intros ?%not_elem_of_empty.
Qed.

End listing_results.

(** C8.  [GetAllClasses] and [GetStudentsByClassID] answer nil only together
    with an error.  When the read of the index (the class list, the student
    set of the class) goes through, they answer a list and no error whatever
    happens to the lookups of the single IDs.  The server hands back the IDs
    of the index in an order of its choice ([ids], some arrangement of the
    members); the list holds, in that order, records of these IDs, an ID
    whose lookup fails or finds no record being left out (all the records,
    when no fault is scheduled), and it is the empty list when no ID
    resolves to a record.  In particular [GetStudentsByClassID] answers the
    empty list for a class that has no student set. *)
Theorem listings_are_never_nil (w : World) :
  (((GetAllClasses w).1.2 = None → ∃ l, (GetAllClasses w).1.1 = Some l)
   ∧ (next_fault w = false →
      (∀ h, db w !! classesKey ≠ Some (VHash h)) →
      ∃ ids l,
        ids ≡ₚ elements (members (db w) classesKey)
        ∧ (GetAllClasses w).1 = (Some l, None)
        ∧ l `sublist_of` omap (class_record (db w)) ids
        ∧ (faults w = [] → l = omap (class_record (db w)) ids)
        ∧ ((∀ id, id ∈ members (db w) classesKey →
                  class_record (db w) id = None) → l = [])))
  ∧ (∀ classID,
       ((GetStudentsByClassID classID w).1.2 = None →
        ∃ l, (GetStudentsByClassID classID w).1.1 = Some l)
       ∧ (next_fault w = false →
          (∀ h, db w !! getClassStudentsKey classID ≠ Some (VHash h)) →
          ∃ ids l,
            ids ≡ₚ elements (class_students (db w) classID)
            ∧ (GetStudentsByClassID classID w).1 = (Some l, None)
            ∧ l `sublist_of` omap (student_record (db w)) ids
            ∧ (faults w = [] → l = omap (student_record (db w)) ids)
            ∧ ((∀ id, id ∈ class_students (db w) classID →
                      student_record (db w) id = None) → l = []))
       ∧ (next_fault w = false →
          db w !! getClassStudentsKey classID = None →
          (GetStudentsByClassID classID w).1 = (Some [], None))).
Proof.
  split; [apply GetAllClasses_result|].
  intros classID. split; [apply GetStudentsByClassID_result|].
  split; [apply GetStudentsByClassID_result|].
  apply GetStudentsByClassID_missing.
Qed.

(** The empty store lists no class, and a class it does not know has no
    student; both answers are empty lists. *)
Lemma listings_are_never_nil_witness :
  (∃ l, (GetAllClasses empty_world).1.1 = Some l)
  ∧ (GetStudentsByClassID "C2024_GO01" empty_world).1 = (Some [], None).
Proof.
  split.
  - apply (proj1 (proj1 (listings_are_never_nil empty_world))).
    vm_compute. reflexivity.
  - apply (proj2 (proj2 (proj2 (listings_are_never_nil empty_world)
                                "C2024_GO01"))).
    + reflexivity.
    + apply lookup_empty.
Defined.

(** ** The random pick *)

Section random.

Implicit Types (w : World).

Lemma quiet_S n w :
  quiet (S n) w →
  next_fault w = false ∧ ∀ w1, faults w1 = tail (faults w) → quiet n w1.
Proof.
  unfold quiet, next_fault. destruct (faults w) as [|b fs]; simpl.
  - intros _. split; [done|]. intros w1 ->. rewrite take_nil. constructor.
  - intros [Hb Hfs]%Forall_cons. subst b. split; [done|]. by intros w1 ->.
Qed.

(** What SRANDMEMBER answers when its round trip goes through. *)
Lemma SRandMember_absent k w :
  next_fault w = false →
  db w !! k = None ∨ db w !! k = Some (VSet ∅) →
  Client.SRandMember k w
  = (("", Some (redis_error redis_Nil)), sent [SRandMember k] w).
Proof.
  intros Hq Hk. unfold next_fault in Hq.
  unfold Client.SRandMember, bind, roundtrip, sent, ret, get_db.
  assert (match faults w with b :: _ => b | [] => false end = false) as ->
    by done.
  cbn [db]. destruct Hk as [-> | ->]; [done|].
  by rewrite elements_empty.
Qed.





End random.





(** * Further properties of the store, the handlers and the seeding *)

(** ** Reads *)

Section reads.

Lemma reads_only_ret {A} (a : A) : reads_only (ret a).
Proof. done. Qed.

Lemma reads_only_bind {A B} (m : M A) (k : A → M B) :
  reads_only m → (∀ a, reads_only (k a)) → reads_only (bind m k).
Proof.
  intros Hm Hk w. unfold bind. specialize (Hm w).
  destruct (m w) as [a w1]. simpl in Hm. by rewrite Hk.
Qed.

Lemma reads_only_roundtrip cmds : reads_only (roundtrip cmds).
Proof. done. Qed.

Lemma reads_only_get_db : reads_only get_db.
Proof. done. Qed.

Lemma reads_only_draw : reads_only draw.
Proof. done. Qed.

Lemma reads_only_draws n : reads_only (draws n).
Proof. done. Qed.

End reads.

(** Splits a read along its binds and its case distinctions. *)
Ltac reads_split :=
  repeat match goal with
    | |- reads_only (ret _) => apply reads_only_ret
    | |- reads_only get_db => apply reads_only_get_db
    | |- reads_only draw => apply reads_only_draw
    | |- reads_only (draws _) => apply reads_only_draws
    | |- reads_only (roundtrip _) => apply reads_only_roundtrip
    | |- reads_only (bind _ _) => apply reads_only_bind; [|intros ?]
    | |- reads_only (match ?x with _ => _ end) => destruct x
    end.

Section read_operations.

Lemma reads_only_SIsMember k m : reads_only (Client.SIsMember k m).
Proof. unfold Client.SIsMember. reads_split. Qed.

Lemma reads_only_HGetAll k : reads_only (Client.HGetAll k).
Proof. unfold Client.HGetAll. reads_split. Qed.

Lemma reads_only_SMembers k : reads_only (Client.SMembers k).
Proof. unfold Client.SMembers. reads_split. Qed.

Lemma reads_only_SRandMember k : reads_only (Client.SRandMember k).
Proof. unfold Client.SRandMember. reads_split. Qed.

Lemma reads_only_GetClassByID classID : reads_only (GetClassByID classID).
Proof. unfold GetClassByID. reads_split. apply reads_only_HGetAll. Qed.

Lemma reads_only_GetStudentByID studentID :
  reads_only (GetStudentByID studentID).
Proof. unfold GetStudentByID. reads_split. apply reads_only_HGetAll. Qed.

Lemma reads_only_ClassExists classID : reads_only (ClassExists classID).
Proof. unfold ClassExists. reads_split. apply reads_only_SIsMember. Qed.

Lemma reads_only_GetAllClasses_range classIDs classes :
  reads_only (GetAllClasses_range classIDs classes).
Proof.
  revert classes. induction classIDs as [|id rest IH]; intros classes; simpl.
  - apply reads_only_ret.
  - apply reads_only_bind; [apply reads_only_GetClassByID|].
    intros [[c|] [e|]]; apply IH.
Qed.

Lemma reads_only_GetAllClasses : reads_only GetAllClasses.
Proof.
  unfold GetAllClasses.
  apply reads_only_bind; [apply reads_only_SMembers|].
  intros [ids [e|]]; reads_split. apply reads_only_GetAllClasses_range.
Qed.

Lemma reads_only_GetStudentsByClassID_range studentIDs students :
  reads_only (GetStudentsByClassID_range studentIDs students).
Proof.
  revert students.
  induction studentIDs as [|id rest IH]; intros students; simpl.
  - apply reads_only_ret.
  - apply reads_only_bind; [apply reads_only_GetStudentByID|].
    intros [[c|] [e|]]; apply IH.
Qed.

Lemma reads_only_GetStudentsByClassID classID :
  reads_only (GetStudentsByClassID classID).
Proof.
  unfold GetStudentsByClassID.
  apply reads_only_bind; [apply reads_only_SMembers|].
  intros [ids [e|]]; reads_split.
  apply reads_only_GetStudentsByClassID_range.
Qed.

Lemma reads_only_GetRandomStudent classID :
  reads_only (GetRandomStudent classID).
Proof.
  unfold GetRandomStudent.
  apply reads_only_bind; [apply reads_only_SRandMember|].
  intros [id [e|]]; reads_split. apply reads_only_GetStudentByID.
Qed.

End read_operations.

(** X1.  The six queries of the store ([GetClassByID], [GetAllClasses],
    [ClassExists], [GetStudentByID], [GetStudentsByClassID],
    [GetRandomStudent]) leave the keyspace exactly as it was, whatever they
    answer and whatever faults are scheduled. *)
Theorem queries_leave_the_keyspace :
  (∀ classID, reads_only (GetClassByID classID))
  ∧ reads_only GetAllClasses
  ∧ (∀ classID, reads_only (ClassExists classID))
  ∧ (∀ studentID, reads_only (GetStudentByID studentID))
  ∧ (∀ classID, reads_only (GetStudentsByClassID classID))
  ∧ (∀ classID, reads_only (GetRandomStudent classID)).
Proof.
  repeat split; intros.
  - apply reads_only_GetClassByID.
  - apply reads_only_GetAllClasses.
  - apply reads_only_ClassExists.
  - apply reads_only_GetStudentByID.
  - apply reads_only_GetStudentsByClassID.
  - apply reads_only_GetRandomStudent.
Qed.

(** ** Growth of the keyspace *)

Section growth.

Implicit Types (d : gmap string value) (w : World).

Lemma grows_refl d : grows d d.
Proof.
  intros k. destruct (d !! k) as [[s|h]|]; [by exists s|by exists h|done].
Qed.

Lemma grows_trans d1 d2 d3 : grows d1 d2 → grows d2 d3 → grows d1 d3.
Proof.
  intros H12 H23 k. specialize (H12 k). specialize (H23 k).
  destruct (d1 !! k) as [[s|h]|]; [| |done].
  - destruct H12 as (s2 & E2 & Hs). rewrite E2 in H23.
    destruct H23 as (s3 & E3 & Hs3). exists s3. split; [done|].
    by etrans.
  - destruct H12 as (h2 & E2 & Hh). rewrite E2 in H23.
    destruct H23 as (h3 & E3 & Hh3). exists h3. split; [done|].
    by etrans.
Qed.

Lemma grows_exec_SAdd k m d : grows d (exec_SAdd k m d).1.
Proof.
  intros k'. destruct (decide (k = k')) as [<-|Hne].
  - unfold exec_SAdd. destruct (d !! k) as [[s|h]|] eqn:E; simpl.
    + exists ({[m]} ∪ s). rewrite lookup_insert_eq. split; [done|].
      apply union_subseteq_r.
    + exists h. by rewrite E.
    + done.
  - rewrite lookup_exec_SAdd_ne by done. apply grows_refl.
Qed.

Lemma grows_exec_HMSet k f d : grows d (exec_HMSet k f d).1.
Proof.
  intros k'. destruct (decide (k = k')) as [<-|Hne].
  - unfold exec_HMSet. destruct (d !! k) as [[s|h]|] eqn:E; simpl.
    + exists s. by rewrite E.
    + exists (f ∪ h). rewrite lookup_insert_eq. split; [done|].
      rewrite dom_union. apply union_subseteq_r.
    + done.
  - rewrite lookup_exec_HMSet_ne by done. apply grows_refl.
Qed.

Lemma grows_after_class_write clazz d :
  grows d (after (class_write clazz) d).
Proof.
  rewrite after_class_write.
  eapply grows_trans; [apply grows_exec_SAdd | apply grows_exec_HMSet].
Qed.

Lemma grows_after_student_write student d :
  grows d (after (student_write student) d).
Proof.
  rewrite after_student_write.
  eapply grows_trans; [apply grows_exec_SAdd | apply grows_exec_HMSet].
Qed.

Lemma AddClass_grows clazz w : grows (db w) (db (AddClass clazz w).2).
Proof.
  destruct (AddClass_db clazz w) as [-> | ->];
    [apply grows_refl | apply grows_after_class_write].
Qed.

Lemma AddStudent_grows student w :
  grows (db w) (db (AddStudent student w).2).
Proof.
  destruct (AddStudent_db student w) as (d1 & Hd1 & Hd2).
  assert (grows (db w) d1) as H1.
  { destruct Hd1 as [-> | ->];
      [apply grows_refl | apply grows_after_class_write]. }
  destruct Hd2 as [-> | [_ ->]]; [done|].
  eapply grows_trans; [exact H1 | apply grows_after_student_write].
Qed.

Lemma submissions_grows students w :
  grows (db w) (db (submissions students w).2).
Proof.
  revert w. induction students as [|st rest IH]; intros w;
    [apply grows_refl|].
  cbn [submissions]. unfold bind.
  pose proof (AddStudent_grows st w) as H1.
  destruct (AddStudent st w) as [e w1]. specialize (IH w1).
  destruct (submissions rest w1) as [errs w2]. simpl in *.
  by eapply grows_trans.
Qed.

Lemma Import_ensure_grows classID w :
  grows (db w) (db (Import_ensure classID w).2).
Proof.
  destruct (Import_ensure_db classID w) as [-> | ->];
    [apply grows_refl | apply grows_after_class_write].
Qed.

Lemma Import_grows file classID w :
  grows (db w) (db (ImportStudentsFromExcel file classID w).2).
Proof.
  rewrite Import_world.
  pose proof (Import_ensure_grows classID w) as H1.
  destruct (Import_ensure classID w).1; [done|].
  destruct (Import_read file); [|done].
  eapply grows_trans; [exact H1 | apply submissions_grows].
Qed.

Lemma grows_members d d' k : grows d d' → members d k ⊆ members d' k.
Proof.
  intros H. specialize (H k). unfold members.
  destruct (d !! k) as [[s|h]|]; [|apply empty_subseteq..].
  destruct H as (s' & -> & Hs). done.
Qed.

Lemma grows_record d d' k :
  grows d d' → is_Some (record d k) → is_Some (record d' k).
Proof.
  intros H. specialize (H k). unfold record.
  destruct (d !! k) as [[s|h]|]; [by intros [? ?]| |by intros [? ?]].
  destruct H as (h' & -> & Hh).
  destruct (size h =? 0) eqn:E; [by intros [? ?]|]. intros _.
  apply Nat.eqb_neq in E. apply map_size_non_empty_iff in E.
  destruct (size h' =? 0) eqn:E'; [|by eexists].
  apply Nat.eqb_eq, map_size_empty_iff in E'. subst h'.
  rewrite dom_empty_L in Hh. exfalso. apply E, dom_empty_iff_L.
  apply elem_of_equiv_empty_L. intros x Hx.
  by apply Hh, not_elem_of_empty in Hx.
Qed.

End growth.

(** X2.  Nothing is ever removed.  [AddClass], [AddStudent] and the import
    only grow the keyspace: every key stays and keeps its kind of value, every
    member of a set stays, every field of a hash stays.  Hence, across any
    growth of the keyspace, a listed class stays listed, a student stays in
    the student set of every class it is in, and a class or a student that
    has a record still has one. *)
Theorem writes_never_remove :
  ((∀ clazz w, grows (db w) (db (AddClass clazz w).2))
   ∧ (∀ student w, grows (db w) (db (AddStudent student w).2))
   ∧ (∀ file classID w,
        grows (db w) (db (ImportStudentsFromExcel file classID w).2)))
  ∧ (∀ d d',
       grows d d' →
       (∀ classID, class_listed d classID → class_listed d' classID)
       ∧ (∀ classID, class_students d classID ⊆ class_students d' classID)
       ∧ (∀ classID, is_Some (class_record d classID) →
                     is_Some (class_record d' classID))
       ∧ (∀ studentID, is_Some (student_record d studentID) →
                       is_Some (student_record d' studentID))).
Proof.
  split.
  - split; [apply AddClass_grows|].
    split; [apply AddStudent_grows | apply Import_grows].
  - intros d d' Hg. split; [|split; [|split]].
    + intros classID. unfold class_listed.
      by apply (grows_members d d' classesKey).
    + intros classID. by apply grows_members.
    + intros classID. unfold class_record.
      rewrite !fmap_is_Some. by apply grows_record.
    + intros studentID. unfold student_record.
      rewrite !fmap_is_Some. by apply grows_record.
Qed.

(** The student of the re-enrolment, still in the set of class [A] after it
    has been added again with class [B]. *)
Lemma writes_never_remove_witness :
  let w1 := (AddStudent (mkStudent "s1" "Alice" "A") empty_world).2 in
  let w2 := (AddStudent (mkStudent "s1" "Alice" "B") w1).2 in
  class_students (db w1) "A" ⊆ class_students (db w2) "A".
Proof.
  intros w1 w2.
  apply (proj2 writes_never_remove (db w1) (db w2)).
  apply (proj1 (proj2 (proj1 writes_never_remove))).
Defined.

(** ** A successful [AddStudent] *)

Section add_student.

Implicit Types (d : gmap string value) (w : World) (student : Student).

(** When [ClassExists] answers "yes", the class is listed. *)
Lemma ClassExists_true classID w w1 :
  ClassExists classID w = ((true, None), w1) →
  class_listed (db w) classID ∧ next_fault w = false
  ∧ w1 = sent [SIsMember classesKey classID] w.
Proof.
  rewrite ClassExists_eq. unfold class_listed, members.
  destruct (next_fault w); [done|].
  destruct (db w !! classesKey) as [[s|h]|]; [|done..].
  intros [= Hb <-]. by apply bool_decide_eq_true in Hb.
Qed.

Lemma ClassExists_world classID w :
  (ClassExists classID w).2 = sent [SIsMember classesKey classID] w.
Proof. by rewrite ClassExists_eq. Qed.

(** A successful [AddStudent] found the class listed or created its
    placeholder, and then ran the student write to the end. *)
Lemma AddStudent_ok student w :
  (AddStudent student w).1 = None →
  ∃ d1,
    (d1 = db w ∧ class_listed (db w) (Student_ClassID student)
     ∨ d1 = after (class_write (placeholder (Student_ClassID student))) (db w)
       ∧ (exec_pipeline (class_write (placeholder (Student_ClassID student)))
                        (db w)).2 = None)
    ∧ (exec_pipeline (student_write student) d1).2 = None
    ∧ db (AddStudent student w).2 = after (student_write student) d1.
Proof.
  destruct (is_empty (Student_ID student)) eqn:Hid;
    [by unfold AddStudent; rewrite Hid|].
  destruct (is_empty (Student_Name student)) eqn:Hname;
    [by unfold AddStudent; rewrite Hid, Hname|].
  destruct (is_empty (Student_ClassID student)) eqn:Hcid;
    [by unfold AddStudent; rewrite Hid, Hname, Hcid|].
  rewrite AddStudent_eq by done.
  pose proof (ClassExists_world (Student_ClassID student) w) as Hw1.
  destruct (ClassExists _ w) as [[ex [e|]] w1] eqn:Ece; [done|].
  simpl in Hw1. destruct ex.
  - apply ClassExists_true in Ece as (Hl & _ & _). intros Hok.
    apply AddStudent_write_ok in Hok as (_ & Hp & ->).
    exists (db w). subst w1. split; [by left|done].
  - destruct (AddClass _ w1) as [[e|] w2] eqn:Eac; [done|]. intros Hok.
    assert ((AddClass (placeholder (Student_ClassID student)) w1).1 = None)
      as Hc by by rewrite Eac.
    apply AddClass_ok in Hc as (_ & _ & _ & Hcw & Hw2).
    rewrite Eac in Hw2. simpl in Hw2.
    apply AddStudent_write_ok in Hok as (_ & Hp & ->).
    subst w2 w1. simpl in *.
    eexists. split; [right; split; [reflexivity|done]|done].
Qed.

Lemma AddStudent_stored student w :
  (AddStudent student w).1 = None →
  class_listed (db (AddStudent student w).2) (Student_ClassID student)
  ∧ Student_ID student
    ∈ class_students (db (AddStudent student w).2) (Student_ClassID student)
  ∧ student_record (db (AddStudent student w).2) (Student_ID student)
    = Some student.
Proof.
  intros (d1 & Hd1 & Hp & ->)%AddStudent_ok.
  apply student_write_ok in Hp as [Hin Hrec].
  split; [|done]. rewrite class_listed_after_student_write.
  destruct Hd1 as [[-> Hl] | [-> Hcw]]; [done|].
  by apply class_write_ok in Hcw as [Hl _].
Qed.

End add_student.

(** X3.  Whenever [AddStudent] returns nil, whether the class was already
    listed or not, the class is listed afterwards, the student's ID is in the
    student set of the class, and the record stored under the ID is the
    student; [GetStudentByID] then answers this student, in any later world
    in which the key of the student still holds what the call left (and the
    round trip goes through). *)
Theorem add_student_then_get_by_id (student : Student) (w w' : World) :
  (AddStudent student w).1 = None →
  let w1 := (AddStudent student w).2 in
  (class_listed (db w1) (Student_ClassID student)
   ∧ Student_ID student ∈ class_students (db w1) (Student_ClassID student)
   ∧ student_record (db w1) (Student_ID student) = Some student)
  ∧ (db w' !! getStudentInfoKey (Student_ID student)
       = db w1 !! getStudentInfoKey (Student_ID student) →
     next_fault w' = false →
     (GetStudentByID (Student_ID student) w').1 = (Some student, None)).
Proof.
  intros Hok w1. pose proof (AddStudent_stored student w Hok) as Hs.
  split; [exact Hs|]. intros Hsame Hq.
  apply GetStudentByID_found; [done|].
  destruct Hs as (_ & _ & Hrec). unfold student_record, record in *.
  by rewrite Hsame.
Qed.

(** A second student of a class that exists already. *)
Lemma add_student_then_get_by_id_witness :
  let w0 := (AddClass (mkClazz "C2024_GO01" "2024 Go Backend Class 1")
                      empty_world).2 in
  let w1 := (AddStudent (mkStudent "S_GO01_002" "Bob" "C2024_GO01") w0).2 in
  (GetStudentByID "S_GO01_002" w1).1
  = (Some (mkStudent "S_GO01_002" "Bob" "C2024_GO01"), None).
Proof.
  intros w0 w1.
  apply (add_student_then_get_by_id
           (mkStudent "S_GO01_002" "Bob" "C2024_GO01") w0 w1).
  - vm_compute. reflexivity.
  - reflexivity.
  - vm_compute. reflexivity.
Defined.

(** ** Listings are complete *)

Section complete.

Implicit Types (w : World).

Lemma class_listed_is_set d classID :
  class_listed d classID → ∀ h, d !! classesKey ≠ Some (VHash h).
Proof.
  unfold class_listed, members. intros Hin h Hh. rewrite Hh in Hin.
  by apply not_elem_of_empty in Hin.
Qed.

Lemma class_students_is_set d classID studentID :
  studentID ∈ class_students d classID →
  ∀ h, d !! getClassStudentsKey classID ≠ Some (VHash h).
Proof.
  unfold class_students, members. intros Hin h Hh. rewrite Hh in Hin.
  by apply not_elem_of_empty in Hin.
Qed.

Lemma GetAllClasses_contains w classID clazz :
  faults w = [] →
  class_listed (db w) classID →
  class_record (db w) classID = Some clazz →
  ∃ l, (GetAllClasses w).1 = (Some l, None) ∧ clazz ∈ l.
Proof.
  intros Hf Hl Hrec.
  destruct (GetAllClasses_result w) as [_ H].
  destruct H as (ids & l & Hp & Hr & _ & Hall & _);
    [by apply next_fault_nil | by eapply class_listed_is_set|].
  exists l. split; [done|]. rewrite (Hall Hf).
  apply list_elem_of_omap. exists classID. split; [|done].
  rewrite Hp. by apply elem_of_elements.
Qed.

Lemma GetStudentsByClassID_contains w classID studentID student :
  faults w = [] →
  studentID ∈ class_students (db w) classID →
  student_record (db w) studentID = Some student →
  ∃ l, (GetStudentsByClassID classID w).1 = (Some l, None) ∧ student ∈ l.
Proof.
  intros Hf Hin Hrec.
  destruct (GetStudentsByClassID_result classID w) as [_ H].
  destruct H as (ids & l & Hp & Hr & _ & Hall & _);
    [by apply next_fault_nil | by eapply class_students_is_set|].
  exists l. split; [done|]. rewrite (Hall Hf).
  apply list_elem_of_omap. exists studentID. split; [|done].
  rewrite Hp. by apply elem_of_elements.
Qed.

End complete.

(** X4.  With no fault scheduled, the listings are complete:
    [GetAllClasses] returns every listed class that has a record, and
    [GetStudentsByClassID] every student of the class's set that has a
    record; in particular a class just added by [AddClass] and a student
    just added by [AddStudent] are listed. *)
Theorem listings_are_complete (w : World) :
  faults w = [] →
  (∀ classID clazz,
     class_listed (db w) classID →
     class_record (db w) classID = Some clazz →
     ∃ l, (GetAllClasses w).1 = (Some l, None) ∧ clazz ∈ l)
  ∧ (∀ classID studentID student,
       studentID ∈ class_students (db w) classID →
       student_record (db w) studentID = Some student →
       ∃ l, (GetStudentsByClassID classID w).1 = (Some l, None)
            ∧ student ∈ l)
  ∧ (∀ clazz w0,
       (AddClass clazz w0).1 = None → db w = db (AddClass clazz w0).2 →
       ∃ l, (GetAllClasses w).1 = (Some l, None) ∧ clazz ∈ l)
  ∧ (∀ student w0,
       (AddStudent student w0).1 = None →
       db w = db (AddStudent student w0).2 →
       ∃ l, (GetStudentsByClassID (Student_ClassID student) w).1
            = (Some l, None)
            ∧ student ∈ l).
Proof.
  intros Hf. split; [|split; [|split]].
  - intros classID clazz. by apply GetAllClasses_contains.
  - intros classID studentID student.
    by apply GetStudentsByClassID_contains.
  - intros clazz w0 Hok Hdb.
    apply AddClass_ok in Hok as (_ & _ & _ & Hp & Hw).
    apply class_write_ok in Hp as [Hl Hrec].
    apply (GetAllClasses_contains w (Clazz_ID clazz)); [done|..];
      by rewrite Hdb, Hw.
  - intros student w0 Hok Hdb.
    apply AddStudent_stored in Hok as (_ & Hin & Hrec).
    apply (GetStudentsByClassID_contains w _ (Student_ID student));
      [done|..]; by rewrite Hdb.
Qed.

(** The student added to the empty store is in the listing of the class. *)
Lemma listings_are_complete_witness :
  ∃ l, (GetStudentsByClassID "C2024_GO01"
          (AddStudent (mkStudent "S_GO01_001" "Alice" "C2024_GO01")
                      empty_world).2).1 = (Some l, None)
       ∧ mkStudent "S_GO01_001" "Alice" "C2024_GO01" ∈ l.
Proof.
  apply (proj2 (proj2 (proj2
           (listings_are_complete
              (AddStudent (mkStudent "S_GO01_001" "Alice" "C2024_GO01")
                          empty_world).2 eq_refl)))
           (mkStudent "S_GO01_001" "Alice" "C2024_GO01") empty_world).
  - vm_compute. reflexivity.
  - reflexivity.
Defined.

(** ** Writing twice *)

Section twice.

Implicit Types (d : gmap string value) (w : World).

Lemma exec_SAdd_again k m d :
  (∃ s, d !! k = Some (VSet s) ∧ m ∈ s) → (exec_SAdd k m d).1 = d.
Proof.
  intros (s & Hk & Hm). unfold exec_SAdd. rewrite Hk. simpl.
  apply insert_id. rewrite Hk. do 2 f_equal. symmetry.
  apply subseteq_union_1_L. by apply singleton_subseteq_l.
Qed.

Lemma exec_HMSet_again k (f : gmap string string) d :
  (∃ h, d !! k = Some (VHash (f ∪ h))) → (exec_HMSet k f d).1 = d.
Proof.
  intros (h & Hk). unfold exec_HMSet. rewrite Hk. simpl.
  apply insert_id. rewrite Hk. do 2 f_equal.
  by rewrite (assoc_L (∪)), (idemp_L (∪) f).
Qed.

Lemma exec_SAdd_ok_member k m d :
  (exec_SAdd k m d).2 = None →
  ∃ s, (exec_SAdd k m d).1 !! k = Some (VSet s) ∧ m ∈ s.
Proof.
  unfold exec_SAdd. destruct (d !! k) as [[s|h]|]; simpl; [|done|];
    intros _; rewrite lookup_insert_eq; eexists; split; try done;
    set_solver.
Qed.

Lemma class_write_again clazz d :
  (exec_pipeline (class_write clazz) d).2 = None →
  after (class_write clazz) (after (class_write clazz) d)
  = after (class_write clazz) d.
Proof.
  unfold class_write at 1. rewrite exec_pipeline_2. cbn [snd exec_command].
  destruct (exec_SAdd classesKey (Clazz_ID clazz) d).2 eqn:Ea; [done|].
  intros Hh. rewrite (after_class_write clazz (after _ d)).
  apply exec_SAdd_ok_member in Ea as (s & Hs & Hm).
  apply exec_HMSet_ok_inv in Hh as [h Hh].
  rewrite exec_SAdd_again.
  - apply exec_HMSet_again. exists h. by rewrite after_class_write.
  - exists s. split; [|done]. rewrite after_class_write.
    rewrite lookup_exec_HMSet_ne; [done|]. intros Heq. symmetry in Heq.
    by apply classesKey_ne_info in Heq.
Qed.

Lemma student_write_again student d :
  (exec_pipeline (student_write student) d).2 = None →
  after (student_write student) (after (student_write student) d)
  = after (student_write student) d.
Proof.
  unfold student_write at 1. rewrite exec_pipeline_2.
  cbn [snd exec_command].
  destruct (exec_SAdd _ (Student_ID student) d).2 eqn:Ea; [done|].
  intros Hh. rewrite (after_student_write student (after _ d)).
  apply exec_SAdd_ok_member in Ea as (s & Hs & Hm).
  apply exec_HMSet_ok_inv in Hh as [h Hh].
  rewrite exec_SAdd_again.
  - apply exec_HMSet_again. exists h. by rewrite after_student_write.
  - exists s. split; [|done]. rewrite after_student_write.
    rewrite lookup_exec_HMSet_ne; [done|]. intros Heq. symmetry in Heq.
    by apply students_ne_student in Heq.
Qed.

(** On a listed class [AddStudent] sends no class write: the keyspace is as
    it was or has the student written. *)
Lemma AddStudent_listed_db student w :
  class_listed (db w) (Student_ClassID student) →
  db (AddStudent student w).2 = db w
  ∨ db (AddStudent student w).2 = after (student_write student) (db w).
Proof.
  intros Hl.
  destruct (is_empty (Student_ID student)) eqn:Hid;
    [left; by unfold AddStudent; rewrite Hid|].
  destruct (is_empty (Student_Name student)) eqn:Hname;
    [left; by unfold AddStudent; rewrite Hid, Hname|].
  destruct (is_empty (Student_ClassID student)) eqn:Hcid;
    [left; by unfold AddStudent; rewrite Hid, Hname, Hcid|].
  rewrite AddStudent_eq, ClassExists_eq by done.
  destruct (next_fault w); [by left|].
  unfold class_listed, members in Hl.
  destruct (db w !! classesKey) as [[s|h]|]; [|by left|].
  - rewrite bool_decide_eq_true_2 by done.
    apply (AddStudent_write_db student (sent _ w)).
  - by apply not_elem_of_empty in Hl.
Qed.

End twice.

(** X5.  Adding twice is adding once: after a successful [AddClass] a
    further [AddClass] of the same class, and after a successful
    [AddStudent] a further [AddStudent] of the same student, leave the
    keyspace as it is (whether or not the second call succeeds). *)
Theorem adding_again_changes_nothing :
  (∀ clazz w w',
     (AddClass clazz w).1 = None → db w' = db (AddClass clazz w).2 →
     db (AddClass clazz w').2 = db w')
  ∧ (∀ student w w',
       (AddStudent student w).1 = None →
       db w' = db (AddStudent student w).2 →
       db (AddStudent student w').2 = db w').
Proof.
  split.
  - intros clazz w w' Hok Hdb.
    apply AddClass_ok in Hok as (_ & _ & _ & Hp & Hw).
    destruct (AddClass_db clazz w') as [-> | ->]; [done|].
    rewrite Hdb, Hw. simpl. by apply class_write_again.
  - intros student w w' Hok Hdb.
    pose proof (AddStudent_stored student w Hok) as (Hl & _ & _).
    apply AddStudent_ok in Hok as (d1 & _ & Hp & Hw).
    rewrite <- Hdb in Hl.
    destruct (AddStudent_listed_db student w' Hl) as [-> | ->]; [done|].
    rewrite Hdb, Hw. by apply student_write_again.
Qed.

(** The first seed student, added twice. *)
Lemma adding_again_changes_nothing_witness :
  let w1 := (AddStudent (mkStudent "S_GO01_001" "Alice" "C2024_GO01")
                        empty_world).2 in
  db (AddStudent (mkStudent "S_GO01_001" "Alice" "C2024_GO01") w1).2 = db w1.
Proof.
  intros w1.
  apply (proj2 adding_again_changes_nothing
           (mkStudent "S_GO01_001" "Alice" "C2024_GO01") empty_world w1).
  - vm_compute. reflexivity.
  - reflexivity.
Defined.

(** X6.  On a class that is listed, [AddStudent] never writes the class:
    whatever the student and whatever the faults, the record of every class
    is afterwards what it was (the name of an existing class is never
    replaced by the placeholder's) and the same classes are listed. *)
Theorem add_student_keeps_listed_class (student : Student) (w : World) :
  class_listed (db w) (Student_ClassID student) →
  let w' := (AddStudent student w).2 in
  (∀ classID, class_record (db w') classID = class_record (db w) classID)
  ∧ (∀ classID, class_listed (db w') classID ↔ class_listed (db w) classID).
Proof.
  intros Hl w'. subst w'.
  destruct (AddStudent_listed_db student w Hl) as [-> | ->]; [done|].
  split; intros classID.
  - apply class_record_after_student_write.
  - apply class_listed_after_student_write.
Qed.

(** A student added to a class with a name of its own. *)
Lemma add_student_keeps_listed_class_witness :
  let w0 := (AddClass (mkClazz "C2024_GO01" "2024 Go Backend Class 1")
                      empty_world).2 in
  class_record
    (db (AddStudent (mkStudent "S_GO01_001" "Alice" "C2024_GO01") w0).2)
    "C2024_GO01"
  = class_record (db w0) "C2024_GO01".
Proof.
  intros w0.
  apply (add_student_keeps_listed_class
           (mkStudent "S_GO01_001" "Alice" "C2024_GO01") w0).
  unfold class_listed. apply (bool_decide_unpack _). vm_compute. exact I.
Defined.

(** ** When the writes succeed, and when they cannot *)

Section outcomes.

Implicit Types (d : gmap string value) (w : World).

Lemma exec_SAdd_succeeds k m d :
  (∀ h, d !! k ≠ Some (VHash h)) → (exec_SAdd k m d).2 = None.
Proof.
  intros Hk. unfold exec_SAdd.
  destruct (d !! k) as [[s|h]|] eqn:E; [done| |done]. by destruct (Hk h).
Qed.

Lemma exec_SAdd_fails k m d h :
  d !! k = Some (VHash h) →
  exec_SAdd k m d = (d, Some redis_WrongType).
Proof. intros Hk. unfold exec_SAdd. by rewrite Hk. Qed.

Lemma lookup_after_class_write_ne clazz d k :
  k ≠ classesKey → k ≠ getClassInfoKey (Clazz_ID clazz) →
  after (class_write clazz) d !! k = d !! k.
Proof.
  intros H1 H2. rewrite after_class_write.
  by rewrite lookup_exec_HMSet_ne, lookup_exec_SAdd_ne.
Qed.

Lemma class_write_succeeds clazz d :
  (∀ h, d !! classesKey ≠ Some (VHash h)) →
  (∀ s, d !! getClassInfoKey (Clazz_ID clazz) ≠ Some (VSet s)) →
  (exec_pipeline (class_write clazz) d).2 = None.
Proof.
  intros Hc Hi. unfold class_write. rewrite exec_pipeline_2.
  cbn [snd exec_command]. rewrite exec_SAdd_succeeds by done.
  edestruct (exec_HMSet_ok (getClassInfoKey (Clazz_ID clazz)))
    as (h & _ & ->); [|done].
  intros s. rewrite lookup_exec_SAdd_ne; [done|]. apply classesKey_ne_info.
Qed.

Lemma student_write_succeeds student d :
  (∀ h, d !! getClassStudentsKey (Student_ClassID student)
        ≠ Some (VHash h)) →
  (∀ s, d !! getStudentInfoKey (Student_ID student) ≠ Some (VSet s)) →
  (exec_pipeline (student_write student) d).2 = None.
Proof.
  intros Hc Hi. unfold student_write. rewrite exec_pipeline_2.
  cbn [snd exec_command]. rewrite exec_SAdd_succeeds by done.
  edestruct (exec_HMSet_ok (getStudentInfoKey (Student_ID student)))
    as (h & _ & ->); [|done].
  intros s. rewrite lookup_exec_SAdd_ne; [done|]. apply students_ne_student.
Qed.

Lemma class_write_ok_hash clazz d :
  (exec_pipeline (class_write clazz) d).2 = None →
  ∃ h, after (class_write clazz) d !! getClassInfoKey (Clazz_ID clazz)
       = Some (VHash h).
Proof.
  rewrite after_class_write. unfold class_write. rewrite exec_pipeline_2.
  cbn [snd exec_command].
  destruct (exec_SAdd classesKey (Clazz_ID clazz) d).2; [done|].
  intros [h Hh]%exec_HMSet_ok_inv. by eexists.
Qed.

(** The student write fails against a student set key that holds a hash,
    and then enrols nobody. *)
Lemma student_write_blocked student d h :
  d !! getClassStudentsKey (Student_ClassID student) = Some (VHash h) →
  (exec_pipeline (student_write student) d).2 = Some redis_WrongType.
Proof.
  intros Hk. unfold student_write. rewrite exec_pipeline_2.
  cbn [snd exec_command]. by rewrite (exec_SAdd_fails _ _ _ h).
Qed.

Lemma AddStudent_write_succeeds student w :
  next_fault w = false →
  (∀ h, db w !! getClassStudentsKey (Student_ClassID student)
        ≠ Some (VHash h)) →
  (∀ s, db w !! getStudentInfoKey (Student_ID student) ≠ Some (VSet s)) →
  (AddStudent_write student w).1 = None.
Proof.
  intros Hq Hs Hr. rewrite AddStudent_write_eq, Hq. cbn [fst].
  by rewrite student_write_succeeds.
Qed.

Lemma AddStudent_succeeds student w :
  is_empty (Student_ID student) = false →
  is_empty (Student_Name student) = false →
  is_empty (Student_ClassID student) = false →
  quiet 3 w → keys_fit (db w) student →
  (AddStudent student w).1 = None.
Proof.
  intros Hid Hname Hcid [Hq1 Hq]%quiet_S (Hc & Hi & Hs & Hr).
  rewrite AddStudent_eq by done.
  destruct (ClassExists (Student_ClassID student) w) as [[ex err] w1] eqn:E.
  assert (err = None
          ∧ w1 = sent [SIsMember classesKey (Student_ClassID student)] w)
    as [-> ->].
  { rewrite ClassExists_eq, Hq1 in E.
    destruct (db w !! classesKey) as [[s|h]|] eqn:Ek;
      [by injection E as _ <- <- | by destruct (Hc h)
      | by injection E as _ <- <-]. }
  set (w1 := sent [SIsMember classesKey (Student_ClassID student)] w).
  pose proof (quiet_S _ _ (Hq w1 eq_refl)) as [Hq2 Hq'].
  destruct ex; [by apply AddStudent_write_succeeds|].
  rewrite AddClass_eq, Hq2 by done.
  rewrite class_write_succeeds by done. cbn [fmap option_fmap option_map].
  apply AddStudent_write_succeeds.
  - by apply (quiet_S 0), Hq'.
  - intros h. simpl. rewrite lookup_after_class_write_ne; [apply Hs|..].
    + intros Heq. symmetry in Heq. by apply classesKey_ne_students in Heq.
    + intros Heq. symmetry in Heq. by apply info_ne_students in Heq.
  - intros s. simpl. rewrite lookup_after_class_write_ne; [apply Hr|..].
    + intros Heq. symmetry in Heq. by apply classesKey_ne_student in Heq.
    + intros Heq. symmetry in Heq. by apply info_ne_student in Heq.
Qed.

Lemma AddStudent_blocked student w h :
  db w !! getClassStudentsKey (Student_ClassID student) = Some (VHash h) →
  (AddStudent student w).1 ≠ None
  ∧ class_students (db (AddStudent student w).2) (Student_ClassID student)
    = ∅.
Proof.
  intros Hk. split.
  - intros (d1 & Hd1 & Hp & _)%AddStudent_ok.
    rewrite (student_write_blocked student d1 h) in Hp; [done|].
    destruct Hd1 as [[-> _] | [-> _]]; [done|].
    rewrite lookup_after_class_write_ne; [done|..].
    + intros Heq. symmetry in Heq. by apply classesKey_ne_students in Heq.
    + intros Heq. symmetry in Heq. by apply info_ne_students in Heq.
  - pose proof (AddStudent_grows student w) as Hg.
    specialize (Hg (getClassStudentsKey (Student_ClassID student))).
    rewrite Hk in Hg. destruct Hg as (h' & Hh' & _).
    unfold class_students, members. by rewrite Hh'.
Qed.

Lemma GetStudentsByClassID_blocked classID w h :
  db w !! getClassStudentsKey classID = Some (VHash h) →
  ∃ e, (GetStudentsByClassID classID w).1 = (None, Some e).
Proof.
  intros Hk. unfold GetStudentsByClassID, bind. rewrite SMembers_eq, Hk.
  destruct (next_fault w); by eexists.
Qed.

Lemma GetRandomStudent_blocked classID w h :
  db w !! getClassStudentsKey classID = Some (VHash h) →
  ∃ e, (GetRandomStudent classID w).1 = (None, Some e).
Proof.
  intros Hk.
  unfold GetRandomStudent, Client.SRandMember, bind, roundtrip, get_db, ret.
  destruct (faults w) as [|[] fs]; cbn [db fst snd]; rewrite ?Hk;
    by eexists.
Qed.

End outcomes.

(** X7.  [AddStudent] succeeds whenever it can: for a student with non-empty
    ID, name and class ID, when no fault is scheduled for its (at most) three
    round trips and every key it touches holds the kind of value the key
    scheme gives it or nothing, it returns nil. *)
Theorem add_student_succeeds (student : Student) (w : World) :
  Student_ID student ≠ "" →
  Student_Name student ≠ "" →
  Student_ClassID student ≠ "" →
  quiet 3 w →
  keys_fit (db w) student →
  (AddStudent student w).1 = None.
Proof.
  intros Hid%is_empty_false Hname%is_empty_false Hcid%is_empty_false.
  by apply AddStudent_succeeds.
Qed.

(** A first student in the empty store. *)
Lemma add_student_succeeds_witness :
  (AddStudent (mkStudent "S_GO01_001" "Alice" "C2024_GO01") empty_world).1
  = None.
Proof.
  apply add_student_succeeds; [discriminate..| |].
  - unfold quiet. simpl. constructor.
  - repeat split; intros x; simpl; by rewrite lookup_empty.
Defined.

(** X8.  The record key of the class [id + ":students"] is the student set
    key of the class [id].  Once a class whose ID ends in [":students"] has
    been added, then, however the keyspace grows afterwards, the class named
    by the rest of that ID cannot take students: [AddStudent] for it returns
    an error every time and its student set stays empty, and
    [GetStudentsByClassID] and [GetRandomStudent] answer an error for it. *)
Theorem class_id_can_block_another_class (classID name : string)
    (w w' : World) :
  (AddClass (mkClazz (classID +:+ ":students") name) w).1 = None →
  grows (db (AddClass (mkClazz (classID +:+ ":students") name) w).2) (db w') →
  getClassInfoKey (classID +:+ ":students") = getClassStudentsKey classID
  ∧ (∀ student,
       Student_ClassID student = classID →
       (AddStudent student w').1 ≠ None
       ∧ class_students (db (AddStudent student w').2) classID = ∅)
  ∧ (∃ e, (GetStudentsByClassID classID w').1 = (None, Some e))
  ∧ (∃ e, (GetRandomStudent classID w').1 = (None, Some e)).
Proof.
  intros Hok Hg.
  assert (∃ h, db w' !! getClassStudentsKey classID = Some (VHash h))
    as [h Hk].
  { apply AddClass_ok in Hok as (_ & _ & _ & Hp & Hw).
    apply class_write_ok_hash in Hp as [h0 Hh0].
    specialize (Hg (getClassStudentsKey classID)).
    rewrite Hw in Hg. simpl in Hg, Hh0.
    change (getClassInfoKey (classID +:+ ":students"))
      with (getClassStudentsKey classID) in Hh0.
    rewrite Hh0 in Hg. destruct Hg as (h' & Hh' & _). by exists h'. }
  split; [done|]. split; [|split].
  - intros student <-. by apply (AddStudent_blocked student w' h).
  - by apply (GetStudentsByClassID_blocked classID w' h).
  - by apply (GetRandomStudent_blocked classID w' h).
Qed.

(** The class [A:students] blocks the class [A]. *)
Lemma class_id_can_block_another_class_witness :
  let w1 := (AddClass (mkClazz "A:students" "Roster of A") empty_world).2 in
  (AddStudent (mkStudent "s1" "Alice" "A") w1).1 ≠ None.
Proof.
  intros w1.
  destruct (class_id_can_block_another_class "A" "Roster of A"
              empty_world w1) as (_ & H & _).
  - vm_compute. reflexivity.
  - apply grows_refl.
  - by apply (H (mkStudent "s1" "Alice" "A")).
Defined.

(** ** What the random pick can answer *)

Section pick.

Implicit Types (w : World).

(** SRANDMEMBER answers an error or a member of the set. *)
Lemma SRandMember_sound k w :
  db (Client.SRandMember k w).2 = db w
  ∧ ((Client.SRandMember k w).1.2 = None →
     (Client.SRandMember k w).1.1 ∈ members (db w) k).
Proof.
  unfold Client.SRandMember, bind, roundtrip, get_db, ret, draw, members.
  destruct (faults w) as [|[] fs]; cbn [db fst snd];
    try (split; [done|]; done);
    (destruct (db w !! k) as [[s|h]|] eqn:E; [|by split..];
     destruct (elements s) as [|x l] eqn:El; [by split|];
     split; [done|]; intros _; cbn [fst snd];
     apply elem_of_elements; rewrite El;
     apply list_elem_of_In, nth_In, Nat.mod_upper_bound; done).
Qed.

Lemma GetRandomStudent_sound classID w student :
  (GetRandomStudent classID w).1 = (Some student, None) →
  ∃ studentID,
    studentID ∈ class_students (db w) classID
    ∧ studentID ≠ ""
    ∧ student_record (db w) studentID = Some student.
Proof.
  unfold GetRandomStudent, bind.
  destruct (SRandMember_sound (getClassStudentsKey classID) w) as [Hdb Hin].
  destruct (Client.SRandMember _ w) as [[id [e|]] w1]; simpl in *.
  { by destruct (errors_Is_redis_Nil e). }
  destruct (is_empty id) eqn:Hid; [done|].
  rewrite GetStudentByID_eq. cbn [fst].
  destruct (next_fault w1); [done|]. rewrite Hdb.
  destruct (db w !! getStudentInfoKey id) as [[s|h]|] eqn:E; [done|..];
    intros [= Hrec]; exists id;
    (split; [by apply Hin|split; [by apply is_empty_false|done]]).
Qed.

End pick.

(** X9.  Whatever the state of the store, a student that [GetRandomStudent]
    answers (with no error) is the record stored for a non-empty ID that is
    in the student set of the queried class. *)
Theorem random_student_is_a_member (classID : string) (w : World)
    (student : Student) :
  (GetRandomStudent classID w).1 = (Some student, None) →
  ∃ studentID,
    studentID ∈ class_students (db w) classID
    ∧ studentID ≠ ""
    ∧ student_record (db w) studentID = Some student.
Proof. apply GetRandomStudent_sound. Qed.

(** The only student of a class is the one picked. *)
Lemma random_student_is_a_member_witness :
  ∃ studentID,
    studentID
      ∈ class_students
          (db (AddStudent (mkStudent "S_GO01_001" "Alice" "C2024_GO01")
                          empty_world).2) "C2024_GO01"
    ∧ studentID ≠ "".
Proof.
  destruct (random_student_is_a_member "C2024_GO01"
              (AddStudent (mkStudent "S_GO01_001" "Alice" "C2024_GO01")
                          empty_world).2
              (mkStudent "S_GO01_001" "Alice" "C2024_GO01"))
    as (id & Hin & Hne & _).
  - vm_compute. reflexivity.
  - exists id. split; [exact Hin | exact Hne].
Defined.

(** ** The count of the import *)

Section import_count.

Implicit Types (w : World).

Lemma candidates_length classID rows :
  length (candidates classID rows) ≤ length (data_rows rows).
Proof. unfold candidates. rewrite length_fmap. apply length_filter. Qed.

Lemma Import_result file classID w :
  (ImportStudentsFromExcel file classID w).1
  = match (Import_ensure classID w).1, Import_read file with
    | Some e, _ => (0, Some e)
    | None, inr e => (0, Some e)
    | None, inl rows =>
        (length (filter (λ e, e = None)
                   (submissions (candidates classID rows)
                                (Import_ensure classID w).2).1), None)
    end.
Proof.
  rewrite Import_steps. destruct (Import_ensure classID w) as [[e|] w1];
    [done|]. simpl.
  destruct (Import_read file) as [rows|e]; [|done].
  by rewrite Import_add_submissions, Import_rows_candidates.
Qed.

End import_count.

(** X10.  The import returns an error only with a count of 0, and its count
    never exceeds the number of rows after the header; a sheet that has no
    row after the header (or no row at all) imports 0 students without
    error once the target class is there. *)
Theorem import_count_is_bounded (file : excelize.Reader) (classID : string)
    (w : World) :
  ((ImportStudentsFromExcel file classID w).1.2 ≠ None →
   (ImportStudentsFromExcel file classID w).1.1 = 0)
  ∧ (∀ rows,
       Import_read file = inl rows →
       (ImportStudentsFromExcel file classID w).1.1 ≤ length (data_rows rows)
       ∧ ((Import_ensure classID w).1 = None → data_rows rows = [] →
          ImportStudentsFromExcel file classID w
          = ((0, None), (Import_ensure classID w).2))).
Proof.
  split.
  - rewrite Import_result. destruct (Import_ensure classID w).1; [done|].
    by destruct (Import_read file).
  - intros rows Hread. split.
    + rewrite Import_result, Hread.
      destruct (Import_ensure classID w).1; [simpl; lia|]. cbn [fst].
      etrans; [apply length_filter|]. rewrite submissions_length.
      apply candidates_length.
    + intros Hens Hnil. apply injective_projections.
      * rewrite Import_result, Hens, Hread. unfold candidates.
        by rewrite Hnil.
      * rewrite Import_world, Hens, Hread. unfold candidates.
        by rewrite Hnil.
Qed.

(** A sheet with its header only. *)
Lemma import_count_is_bounded_witness :
  ImportStudentsFromExcel
    (excelize.Workbook [excelize.mkSheet "Sheet1" (inl [["id"; "name"]])])
    "C1" empty_world
  = ((0, None), (Import_ensure "C1" empty_world).2).
Proof.
  apply (proj2 (import_count_is_bounded
           (excelize.Workbook
              [excelize.mkSheet "Sheet1" (inl [["id"; "name"]])])
           "C1" empty_world) [["id"; "name"]]).
  - reflexivity.
  - vm_compute. reflexivity.
  - reflexivity.
Defined.


(** ** The students an import leaves *)

Section imported.

Implicit Types (d : gmap string value) (w : World).

(** Over a record that is there, the student write stores the student. *)
Lemma student_record_rewritten student d :
  is_Some (student_record d (Student_ID student)) →
  student_record (after (student_write student) d) (Student_ID student)
  = Some student.
Proof.
  intros [st0 Hst0]. rewrite after_student_write.
  edestruct (exec_HMSet_ok (getStudentInfoKey (Student_ID student)))
    as (h & Hh & _); last first.
  - unfold student_record, record. rewrite Hh.
    rewrite (size_union_ne_0 _ _ "id" (Student_ID student)) by done.
    simpl. destruct student as [id name cid]. simpl. f_equal; f_equal.
    + by apply field_union_l.
    + by apply field_union_l.
    + by apply field_union_l.
  - intros s Hs. apply is_set_exec_SAdd in Hs as [Heq|Hs].
    + symmetry in Heq. by apply students_ne_student in Heq.
    + unfold student_record, record in Hst0. by rewrite Hs in Hst0.
Qed.

Lemma enrolled_in_after_class_write clazz d classID studentID :
  enrolled_in d classID studentID →
  enrolled_in (after (class_write clazz) d) classID studentID.
Proof.
  unfold enrolled_in.
  by rewrite class_students_after_class_write,
    student_record_after_class_write.
Qed.

Lemma enrolled_in_after_student_write student d studentID :
  enrolled_in d (Student_ClassID student) studentID →
  enrolled_in (after (student_write student) d)
              (Student_ClassID student) studentID.
Proof.
  intros [Hin (st & Hrec & Hid & Hclass)]. split.
  - by apply (grows_members _ _ _ (grows_after_student_write student d)).
  - destruct (decide (studentID = Student_ID student)) as [->|Hne].
    + exists student. by rewrite student_record_rewritten by by eexists.
    + exists st. by rewrite student_record_after_student_write_ne.
Qed.

Lemma AddStudent_keeps_enrolled student w studentID :
  enrolled_in (db w) (Student_ClassID student) studentID →
  enrolled_in (db (AddStudent student w).2) (Student_ClassID student)
              studentID.
Proof.
  intros He. destruct (AddStudent_db student w) as (d1 & Hd1 & Hd2).
  assert (enrolled_in d1 (Student_ClassID student) studentID) as He1.
  { destruct Hd1 as [-> | ->]; [done|].
    by apply enrolled_in_after_class_write. }
  destruct Hd2 as [-> | [_ ->]]; [done|].
  by apply enrolled_in_after_student_write.
Qed.

Lemma submissions_keep_enrolled classID students :
  (∀ st, st ∈ students → Student_ClassID st = classID) →
  ∀ w studentID,
    enrolled_in (db w) classID studentID →
    enrolled_in (db (submissions students w).2) classID studentID.
Proof.
  induction students as [|st rest IH]; intros Hclass w studentID He; [done|].
  cbn [submissions]. unfold bind.
  assert (Student_ClassID st = classID) as Hst by (apply Hclass; left).
  pose proof (AddStudent_keeps_enrolled st w studentID) as H1.
  rewrite Hst in H1. specialize (H1 He).
  destruct (AddStudent st w) as [e w1]. simpl in H1.
  specialize (IH (λ st' Hin, Hclass st' (list_elem_of_further _ _ _ Hin))
                 w1 studentID H1).
  by destruct (submissions rest w1) as [errs w2].
Qed.

Lemma submissions_enrol classID students :
  (∀ st, st ∈ students → Student_ClassID st = classID) →
  ∀ w i st,
    students !! i = Some st →
    (submissions students w).1 !! i = Some None →
    enrolled_in (db (submissions students w).2) classID (Student_ID st).
Proof.
  induction students as [|st0 rest IH]; intros Hclass w i st Hi Ho; [done|].
  assert (∀ st', st' ∈ rest → Student_ClassID st' = classID) as Hrest
    by (intros st' Hin; apply Hclass; by right).
  revert Ho. cbn [submissions]. unfold bind.
  destruct (AddStudent st0 w) as [e w1] eqn:Ea.
  pose proof (submissions_keep_enrolled classID rest Hrest w1) as Hkeep.
  specialize (IH Hrest w1).
  destruct (submissions rest w1) as [errs w2]. simpl in *.
  destruct i as [|i]; simpl in *.
  - injection Hi as <-. intros [= ->]. apply Hkeep.
    assert ((AddStudent st0 w).1 = None) as Hok by by rewrite Ea.
    apply AddStudent_stored in Hok as (_ & Hin & Hrec).
    rewrite Ea in Hin, Hrec. simpl in *.
    rewrite <- (Hclass st0) by left.
    split; [done|]. by exists st0.
  - intros Ho. by apply (IH i st).
Qed.

End imported.

(** X11.  After an import, every student whose submission to [AddStudent]
    succeeded is enrolled in the target class: the ID is in the student set
    of the class and has a record with that ID and that class (the name is
    the one of the last row written for the ID). *)
Theorem imported_students_are_enrolled (file : excelize.Reader)
    (classID : string) (rows : list (list string)) (w : World) :
  Import_read file = inl rows →
  (Import_ensure classID w).1 = None →
  ∀ i st,
    candidates classID rows !! i = Some st →
    (submissions (candidates classID rows) (Import_ensure classID w).2).1 !! i
      = Some None →
    enrolled_in (db (ImportStudentsFromExcel file classID w).2) classID
                (Student_ID st).
Proof.
  intros Hread Hens i st Hi Ho. rewrite Import_world, Hens, Hread.
  apply (submissions_enrol classID) with (i := i); [|done..].
  intros st'. apply candidates_class.
Qed.

(** The sheet of two students of the specification, imported into the empty
    store. *)
Lemma imported_students_are_enrolled_witness :
  enrolled_in
    (db (ImportStudentsFromExcel
           (excelize.Workbook
              [excelize.mkSheet "Sheet1"
                 (inl [["id"; "name"]; ["1"; "a"]; ["2"; "b"]])])
           "C1" empty_world).2)
    "C1" "2".
Proof.
  apply (imported_students_are_enrolled
           (excelize.Workbook
              [excelize.mkSheet "Sheet1"
                 (inl [["id"; "name"]; ["1"; "a"]; ["2"; "b"]])])
           "C1" [["id"; "name"]; ["1"; "a"]; ["2"; "b"]] empty_world
           eq_refl) with (i := 1) (st := mkStudent "2" "b" "C1").
  - vm_compute. reflexivity.
  - reflexivity.
  - vm_compute. reflexivity.
Defined.

(** ** The handlers *)

Section handler_lemmas.

Implicit Types (w : World).

Lemma handler_GetClassByID_eq classID w :
  is_empty classID = false →
  handlers.GetClassByID classID w
  = (match (GetClassByID classID w).1 with
     | (_, Some _) =>
         (handlers.StatusInternalServerError,
          handlers.H "error" "Failed to retrieve class details")
     | (None, None) =>
         (handlers.StatusNotFound, handlers.H "error" "Class not found")
     | (Some c, None) => (handlers.StatusOK, handlers.JSON_Clazz c)
     end, (GetClassByID classID w).2).
Proof.
  intros Hid. unfold handlers.GetClassByID, bind. rewrite Hid.
  by destruct (GetClassByID classID w) as [[[c|] [e|]] w1].
Qed.

Lemma handler_AddClass_eq clazz w :
  is_empty (Clazz_ID clazz) = false →
  is_empty (Clazz_Name clazz) = false →
  handlers.AddClass (inl clazz) w
  = (match (AddClass clazz w).1 with
     | Some _ =>
         (handlers.StatusInternalServerError,
          handlers.H "error" "Failed to add class")
     | None => (handlers.StatusCreated, handlers.JSON_Clazz clazz)
     end, (AddClass clazz w).2).
Proof.
  intros Hid Hname. unfold handlers.AddClass, bind. rewrite Hid, Hname.
  cbv beta iota delta [orb].
  by destruct (AddClass clazz w) as [[e|] w1].
Qed.

End handler_lemmas.

(** X12.  POST /api/classes answers 400 and sends nothing to the store when
    the body cannot be bound or the ID or the name is empty.  When it answers
    201, its body is the class posted, and GET /api/classes/:classId for that
    ID then answers 200 with the same class, as long as the key of the class
    is untouched and the lookup's round trip goes through. *)
Theorem posted_class_is_served (body : Clazz + string) (w : World) :
  (match body with
   | inl clazz => Clazz_ID clazz = "" ∨ Clazz_Name clazz = ""
   | inr _ => True
   end →
   (handlers.AddClass body w).1.1 = handlers.StatusBadRequest
   ∧ (handlers.AddClass body w).2 = w)
  ∧ (∀ clazz w',
       body = inl clazz →
       (handlers.AddClass body w).1.1 = handlers.StatusCreated →
       (handlers.AddClass body w).1.2 = handlers.JSON_Clazz clazz
       ∧ (db w' !! getClassInfoKey (Clazz_ID clazz)
            = db (handlers.AddClass body w).2
                !! getClassInfoKey (Clazz_ID clazz) →
          next_fault w' = false →
          (handlers.GetClassByID (Clazz_ID clazz) w').1
          = (handlers.StatusOK, handlers.JSON_Clazz clazz))).
Proof.
  split.
  - destruct body as [[id name]|text]; [|done]. simpl.
    unfold handlers.AddClass. simpl.
    intros [->| ->]; [done|]. by destruct (is_empty id).
  - intros clazz w' ->.
    destruct (is_empty (Clazz_ID clazz)) eqn:Hid;
      [by unfold handlers.AddClass; rewrite Hid|].
    destruct (is_empty (Clazz_Name clazz)) eqn:Hname;
      [by unfold handlers.AddClass; rewrite Hid, Hname|].
    rewrite handler_AddClass_eq by done.
    destruct (AddClass clazz w).1 eqn:Hok; [done|]. intros _.
    split; [done|]. cbn [snd]. intros Hsame Hq.
    rewrite handler_GetClassByID_eq by done.
    apply AddClass_ok in Hok as (_ & _ & _ & Hp & Hw).
    apply class_write_ok in Hp as [_ Hrec].
    rewrite (GetClassByID_found (Clazz_ID clazz) w' clazz); [done..|].
    unfold class_record, record. by rewrite Hsame, Hw.
Qed.

(** A class posted to the empty store and fetched. *)
Lemma posted_class_is_served_witness :
  (handlers.GetClassByID "C2024_GO01"
     (handlers.AddClass
        (inl (mkClazz "C2024_GO01" "2024 Go Backend Class 1"))
        empty_world).2).1
  = (handlers.StatusOK,
     handlers.JSON_Clazz (mkClazz "C2024_GO01" "2024 Go Backend Class 1")).
Proof.
  apply (proj2 (posted_class_is_served
                  (inl (mkClazz "C2024_GO01" "2024 Go Backend Class 1"))
                  empty_world)
           (mkClazz "C2024_GO01" "2024 Go Backend Class 1")).
  - reflexivity.
  - vm_compute. reflexivity.
  - reflexivity.
  - vm_compute. reflexivity.
Defined.

Section list_handlers.

Implicit Types (w : World).

Lemma ClassExists_listed classID w :
  next_fault w = false →
  (∀ h, db w !! classesKey ≠ Some (VHash h)) →
  ClassExists classID w
  = ((bool_decide (classID ∈ members (db w) classesKey), None),
     sent [SIsMember classesKey classID] w).
Proof.
  intros Hq Hc. rewrite ClassExists_eq, Hq. unfold class_listed, members.
  destruct (db w !! classesKey) as [[s|h]|] eqn:E; [done| |].
  - by destruct (Hc h).
  - by rewrite bool_decide_eq_false_2 by apply not_elem_of_empty.
Qed.

End list_handlers.

(** X13.  GET /api/classes/:classId/students answers 404 "Class not found"
    for a class that is not in the global class set, after the membership
    check alone (the student set is not read).  For a listed class, with no
    fault scheduled and provided the key of the class's student set does
    not hold a hash, it answers 200 with the records of all the students of
    the class's set, in the order the server handed back their IDs (so: a
    list equal to these records up to their order); when that key holds a
    hash it answers 500, fault or no fault.  GET /api/classes answers, with
    no fault scheduled and provided the key of the class list does not hold
    a hash, 200 with the records of all the listed classes, up to their
    order. *)
Theorem list_handlers_answer (classID : string) (w : World) :
  (classID ≠ "" → next_fault w = false →
   (∀ h, db w !! classesKey ≠ Some (VHash h)) →
   ¬ class_listed (db w) classID →
   handlers.GetStudentsByClass classID w
   = ((handlers.StatusNotFound, handlers.H "error" "Class not found"),
      sent [SIsMember classesKey classID] w))
  ∧ (classID ≠ "" → faults w = [] →
     class_listed (db w) classID →
     (∀ h, db w !! getClassStudentsKey classID ≠ Some (VHash h)) →
     ∃ l,
       (handlers.GetStudentsByClass classID w).1
       = (handlers.StatusOK, handlers.JSON_Students l)
       ∧ l ≡ₚ omap (student_record (db w))
                   (elements (class_students (db w) classID)))
  ∧ (classID ≠ "" → next_fault w = false →
     class_listed (db w) classID →
     (∃ h, db w !! getClassStudentsKey classID = Some (VHash h)) →
     (handlers.GetStudentsByClass classID w).1
     = (handlers.StatusInternalServerError,
        handlers.H "error" "Failed to retrieve students for the class"))
  ∧ (faults w = [] →
     (∀ h, db w !! classesKey ≠ Some (VHash h)) →
     ∃ l,
       (handlers.GetAllClasses w).1
       = (handlers.StatusOK, handlers.JSON_Clazzes l)
       ∧ l ≡ₚ omap (class_record (db w))
                   (elements (members (db w) classesKey))).
Proof.
  split; [|split; [|split]].
  - intros Hid%is_empty_false Hq Hc Hno.
    unfold handlers.GetStudentsByClass, bind. rewrite Hid.
    rewrite ClassExists_listed by done.
    by rewrite bool_decide_eq_false_2.
  - intros Hid%is_empty_false Hf Hl Hs.
    unfold handlers.GetStudentsByClass, bind. rewrite Hid.
    rewrite ClassExists_listed;
      [|by apply next_fault_nil|by eapply class_listed_is_set].
    rewrite bool_decide_eq_true_2 by done. cbv beta iota delta [negb].
    set (w1 := sent [SIsMember classesKey classID] w).
    destruct (GetStudentsByClassID_result classID w1) as [_ H].
    destruct H as (ids & l & Hp & Hr & _ & Hall & _);
      [apply next_fault_nil; simpl; by rewrite Hf | done |].
    exists l.
    destruct (GetStudentsByClassID classID w1) as [[students err] w2].
    simpl in Hr. injection Hr as -> ->. split; [done|].
    rewrite Hall by (simpl; by rewrite Hf). simpl in Hp. by rewrite Hp.
  - intros Hid%is_empty_false Hq Hl [h Hh].
    unfold handlers.GetStudentsByClass, bind. rewrite Hid.
    rewrite ClassExists_listed; [|done|by eapply class_listed_is_set].
    rewrite bool_decide_eq_true_2 by done. cbv beta iota delta [negb].
    set (w1 := sent [SIsMember classesKey classID] w).
    destruct (GetStudentsByClassID_blocked classID w1 h Hh) as [e He].
    destruct (GetStudentsByClassID classID w1) as [[students err] w2].
    simpl in He. by injection He as -> ->.
  - intros Hf Hc. unfold handlers.GetAllClasses, bind.
    destruct (GetAllClasses_result w) as [_ H].
    destruct H as (ids & l & Hp & Hr & _ & Hall & _);
      [by apply next_fault_nil|done|].
    exists l.
    destruct (GetAllClasses w) as [[classes err] w2].
    simpl in Hr. injection Hr as -> ->. split; [done|].
    rewrite Hall by done. by rewrite Hp.
Qed.

(** The students of a class that was never created, asked of the empty
    store; and the students of the class of the one student added to it. *)
Lemma list_handlers_answer_witness :
  handlers.GetStudentsByClass "C2024_GO01" empty_world
  = ((handlers.StatusNotFound, handlers.H "error" "Class not found"),
     sent [SIsMember classesKey "C2024_GO01"] empty_world)
  ∧ ∃ l,
      (handlers.GetStudentsByClass "C2024_GO01"
         (AddStudent (mkStudent "S_GO01_001" "Alice" "C2024_GO01")
                     empty_world).2).1
      = (handlers.StatusOK, handlers.JSON_Students l).
Proof.
  split.
  - apply (proj1 (list_handlers_answer "C2024_GO01" empty_world)).
    + discriminate.
    + reflexivity.
    + intros h. simpl. by rewrite lookup_empty.
    + unfold class_listed, members. simpl. rewrite lookup_empty.
      apply not_elem_of_empty.
  - destruct (proj1 (proj2 (list_handlers_answer "C2024_GO01"
                (AddStudent (mkStudent "S_GO01_001" "Alice" "C2024_GO01")
                            empty_world).2))) as (l & Hl & _).
    + discriminate.
    + vm_compute. reflexivity.
    + unfold class_listed. apply (bool_decide_unpack _). vm_compute. exact I.
    + intros h Hh. vm_compute in Hh. discriminate Hh.
    + exists l. exact Hl.
Defined.

(** X14.  GET /api/classes/:classId/random-student, for a class whose
    student set is missing or empty (and whose pick goes through), always
    answers 404, and tells the two cases apart by a second membership check
    whose error it drops: the message is "No students found in this class"
    when that check answers "yes", and "Class not found" otherwise - for a
    class that is not listed, but also for a listed class when the check
    itself fails. *)
Theorem random_student_handler_absent (classID : string) (w : World) :
  classID ≠ "" →
  next_fault w = false →
  db w !! getClassStudentsKey classID = None
  ∨ db w !! getClassStudentsKey classID = Some (VSet ∅) →
  let w1 := sent [SRandMember (getClassStudentsKey classID)] w in
  (handlers.GetRandomStudent classID w).1
  = (handlers.StatusNotFound,
     handlers.H "message"
       (if (ClassExists classID w1).1.1
        then "No students found in this class" else "Class not found"))
  ∧ (next_fault w1 = true →
     (handlers.GetRandomStudent classID w).1
     = (handlers.StatusNotFound, handlers.H "message" "Class not found"))
  ∧ (next_fault w1 = false → class_listed (db w) classID →
     (handlers.GetRandomStudent classID w).1
     = (handlers.StatusNotFound,
        handlers.H "message" "No students found in this class")).
Proof.
  intros Hid%is_empty_false Hq Hk w1.
  assert ((handlers.GetRandomStudent classID w).1
          = (handlers.StatusNotFound,
             handlers.H "message"
               (if (ClassExists classID w1).1.1
                then "No students found in this class"
                else "Class not found"))) as Hr.
  { unfold handlers.GetRandomStudent, GetRandomStudent, bind.
    rewrite Hid, SRandMember_absent by done. cbn [errors_Is_redis_Nil].
    cbv beta iota. unfold ret at 1. cbv beta iota. fold w1.
    by destruct (ClassExists classID w1) as [[[|] err] w2]. }
  split; [exact Hr|]. split.
  - intros Hq1. rewrite Hr, ClassExists_eq, Hq1. done.
  - intros Hq1 Hl. rewrite Hr, ClassExists_listed;
      [|done|by apply (class_listed_is_set (db w) classID)].
    cbn [fst]. by rewrite bool_decide_eq_true_2.
Qed.

(** A listed class without students, asked for a random student while the
    second round trip fails: the answer says the class is not found. *)
Lemma random_student_handler_absent_witness :
  let w := mkWorld
             (db (AddClass (mkClazz "C2024_GO01" "2024 Go Backend Class 1")
                           empty_world).2)
             [false; true] [] [] in
  class_listed (db w) "C2024_GO01"
  ∧ (handlers.GetRandomStudent "C2024_GO01" w).1
    = (handlers.StatusNotFound, handlers.H "message" "Class not found").
Proof.
  intros w. split.
  - unfold class_listed. apply (bool_decide_unpack _). vm_compute. exact I.
  - apply (proj1 (proj2 (random_student_handler_absent "C2024_GO01" w
             ltac:(discriminate) eq_refl
             ltac:(left; vm_compute; reflexivity)))).
    reflexivity.
Defined.

(** X15.  POST /api/import/students answers 400 and sends nothing to the
    store when the form has no class ID or no file.  Otherwise it answers 500
    whenever the stream is unusable, and, for a stream whose rows can be read
    once the target class is there, 200 with the class ID and the number of
    submissions that succeeded (failed submissions do not make it fail). *)
Theorem import_handler_answers (classID : string)
    (file : excelize.Reader + string) (w : World) :
  (classID = "" ∨ (∃ text, file = inr text) →
   (handlers.ImportStudents classID file w).1.1 = handlers.StatusBadRequest
   ∧ (handlers.ImportStudents classID file w).2 = w)
  ∧ (∀ stream,
       classID ≠ "" → file = inl stream → unusable stream →
       (handlers.ImportStudents classID file w).1.1
       = handlers.StatusInternalServerError)
  ∧ (∀ stream rows,
       classID ≠ "" → file = inl stream →
       Import_read stream = inl rows →
       (Import_ensure classID w).1 = None →
       (handlers.ImportStudents classID file w).1
       = (handlers.StatusOK,
          handlers.H_Import "Import successful"
            (length (filter (λ e, e = None)
                       (submissions (candidates classID rows)
                                    (Import_ensure classID w).2).1))
            classID)).
Proof.
  split; [|split].
  - intros [-> | [text ->]]; [done|].
    unfold handlers.ImportStudents. by destruct (is_empty classID).
  - intros stream Hid%is_empty_false -> (e & Hread & _)%Import_read_unusable.
    unfold handlers.ImportStudents, bind. rewrite Hid.
    pose proof (Import_result stream classID w) as Hr. rewrite Hread in Hr.
    destruct (ImportStudentsFromExcel stream classID w) as [[n err] w1].
    simpl in Hr. by destruct (Import_ensure classID w).1; injection Hr as -> ->.
  - intros stream rows Hid%is_empty_false -> Hread Hens.
    unfold handlers.ImportStudents, bind. rewrite Hid.
    pose proof (Import_result stream classID w) as Hr.
    rewrite Hread, Hens in Hr.
    destruct (ImportStudentsFromExcel stream classID w) as [[n err] w1].
    simpl in Hr. by injection Hr as -> ->.
Qed.

(** The sheet of two students of the specification, uploaded for class
    [C1]. *)
Lemma import_handler_answers_witness :
  (handlers.ImportStudents "C1"
     (inl (excelize.Workbook
             [excelize.mkSheet "Sheet1"
                (inl [["id"; "name"]; ["1"; "a"]; ["2"; "b"]])]))
     empty_world).1
  = (handlers.StatusOK, handlers.H_Import "Import successful" 2 "C1").
Proof.
  rewrite (proj2 (proj2 (import_handler_answers "C1"
             (inl (excelize.Workbook
                     [excelize.mkSheet "Sheet1"
                        (inl [["id"; "name"]; ["1"; "a"]; ["2"; "b"]])]))
             empty_world))
           (excelize.Workbook
              [excelize.mkSheet "Sheet1"
                 (inl [["id"; "name"]; ["1"; "a"]; ["2"; "b"]])])
           [["id"; "name"]; ["1"; "a"]; ["2"; "b"]]
           ltac:(discriminate) eq_refl eq_refl
           ltac:(vm_compute; reflexivity)).
  vm_compute. reflexivity.
Defined.

Section get_handlers.

Lemma reads_only_handler_GetAllClasses : reads_only handlers.GetAllClasses.
Proof.
  unfold handlers.GetAllClasses.
  apply reads_only_bind; [apply reads_only_GetAllClasses|].
  intros [[l|] [e|]]; apply reads_only_ret.
Qed.

Lemma reads_only_handler_GetClassByID classID :
  reads_only (handlers.GetClassByID classID).
Proof.
  unfold handlers.GetClassByID. destruct (is_empty classID);
    [apply reads_only_ret|].
  apply reads_only_bind; [apply reads_only_GetClassByID|].
  intros [[l|] [e|]]; apply reads_only_ret.
Qed.

Lemma reads_only_handler_GetStudentsByClass classID :
  reads_only (handlers.GetStudentsByClass classID).
Proof.
  unfold handlers.GetStudentsByClass. destruct (is_empty classID);
    [apply reads_only_ret|].
  apply reads_only_bind; [apply reads_only_ClassExists|].
  intros [[|] [e|]]; cbv beta iota delta [negb]; try apply reads_only_ret.
  apply reads_only_bind; [apply reads_only_GetStudentsByClassID|].
  intros [[l|] [e|]]; apply reads_only_ret.
Qed.

Lemma reads_only_handler_GetRandomStudent classID :
  reads_only (handlers.GetRandomStudent classID).
Proof.
  unfold handlers.GetRandomStudent. destruct (is_empty classID);
    [apply reads_only_ret|].
  apply reads_only_bind; [apply reads_only_GetRandomStudent|].
  intros [[st|] [e|]]; try apply reads_only_ret.
  apply reads_only_bind; [apply reads_only_ClassExists|].
  intros [[|] e]; apply reads_only_ret.
Qed.

End get_handlers.

(** X16.  The four GET handlers leave the keyspace exactly as it was,
    whatever they answer; and the three that take a class ID answer 400
    without a round trip to the store when it is empty. *)
Theorem get_handlers_only_read :
  (reads_only handlers.GetAllClasses
   ∧ (∀ classID, reads_only (handlers.GetClassByID classID))
   ∧ (∀ classID, reads_only (handlers.GetStudentsByClass classID))
   ∧ (∀ classID, reads_only (handlers.GetRandomStudent classID)))
  ∧ (∀ w,
       handlers.GetClassByID "" w
       = ((handlers.StatusBadRequest,
           handlers.H "error" "Class ID is required"), w)
       ∧ handlers.GetStudentsByClass "" w
         = ((handlers.StatusBadRequest,
             handlers.H "error" "Class ID is required"), w)
       ∧ handlers.GetRandomStudent "" w
         = ((handlers.StatusBadRequest,
             handlers.H "error" "Class ID is required"), w)).
Proof.
  split; [|done].
  split; [apply reads_only_handler_GetAllClasses|].
  split; [apply reads_only_handler_GetClassByID|].
  split; [apply reads_only_handler_GetStudentsByClass
         |apply reads_only_handler_GetRandomStudent].
Qed.

(** ** Batches of students and the seed data *)

Section batches.

Implicit Types (d : gmap string value) (w : World).

Lemma AddClass_class_students clazz w classID :
  class_students (db (AddClass clazz w).2) classID
  = class_students (db w) classID.
Proof.
  destruct (AddClass_db clazz w) as [-> | ->]; [done|].
  apply class_students_after_class_write.
Qed.

Lemma AddStudent_class_students_sub student w :
  class_students (db (AddStudent student w).2) (Student_ClassID student)
  ⊆ {[Student_ID student]}
    ∪ class_students (db w) (Student_ClassID student).
Proof.
  destruct (AddStudent_db student w) as (d1 & Hd1 & Hd2).
  assert (class_students d1 (Student_ClassID student)
          = class_students (db w) (Student_ClassID student)) as <-.
  { destruct Hd1 as [-> | ->]; [done|].
    apply class_students_after_class_write. }
  destruct Hd2 as [-> | [_ ->]]; [apply union_subseteq_r|].
  apply members_after_student_write_sub.
Qed.

(** A batch of students keeps the invariant when each of them is, before the
    batch, in no other class's set than its own, and no ID comes in the batch
    with two classes. *)
Lemma submissions_preserve_mixed students :
  ∀ w,
    well_formed (db w) → roster_inv (db w) →
    (∀ st, st ∈ students →
           enrolled_only_in (db w) (Student_ClassID st) (Student_ID st)) →
    (∀ st1 st2, st1 ∈ students → st2 ∈ students →
                Student_ID st1 = Student_ID st2 →
                Student_ClassID st1 = Student_ClassID st2) →
    well_formed (db (submissions students w).2)
    ∧ roster_inv (db (submissions students w).2).
Proof.
  induction students as [|st rest IH]; intros w Hwf Hinv Honly Hone; [done|].
  cbn [submissions]. unfold bind.
  pose proof (AddStudent_well_formed st w Hwf) as Hwf1.
  assert (roster_inv (db (AddStudent st w).2)) as Hinv1.
  { apply AddStudent_preserves; [done..|]. apply Honly. left. }
  assert (∀ st', st' ∈ rest →
            enrolled_only_in (db (AddStudent st w).2)
                             (Student_ClassID st') (Student_ID st'))
    as Honly1.
  { intros st' Hin other Hne Hmem.
    destruct (decide (other = Student_ClassID st)) as [->|Hother].
    - apply AddStudent_class_students_sub, elem_of_union in Hmem
        as [Hmem%elem_of_singleton|Hmem].
      + apply Hne. symmetry.
        apply Hone; [by right|left|done].
      + by apply (Honly st' (list_elem_of_further _ _ _ Hin)
                    (Student_ClassID st)).
    - rewrite AddStudent_other_class in Hmem by done.
      by apply (Honly st' (list_elem_of_further _ _ _ Hin) other). }
  destruct (AddStudent st w) as [e w1]. simpl in *.
  specialize (IH w1 Hwf1 Hinv1 Honly1).
  destruct (submissions rest w1) as [errs w2]. apply IH.
  intros st1 st2 H1 H2. apply Hone; by right.
Qed.

Lemma SeedData_world w :
  (SeedData w).2
  = (submissions
       [ mkStudent "S_GO01_001" "Alice" "C2024_GO01";
         mkStudent "S_GO01_002" "Bob" "C2024_GO01";
         mkStudent "S_GO01_003" "Charlie" "C2024_GO01";
         mkStudent "S_PY02_001" "David" "C2024_PY02";
         mkStudent "S_PY02_002" "Eve" "C2024_PY02" ]
       (AddClass (mkClazz "C2024_PY02" "2024 Python Data Science 2")
          (AddClass (mkClazz "C2024_GO01" "2024 Go Backend Class 1") w).2).2).2.
Proof.
  unfold SeedData, bind. cbn [submissions Clazz_ID]. unfold bind.
  destruct (AddClass _ w) as [e1 w1]. cbn [snd].
  destruct (AddClass _ w1) as [e2 w2]. cbn [snd].
  destruct (AddStudent _ w2) as [e3 w3].
  destruct (AddStudent _ w3) as [e4 w4].
  destruct (AddStudent _ w4) as [e5 w5].
  destruct (AddStudent _ w5) as [e6 w6].
  by destruct (AddStudent _ w6) as [e7 w7].
Qed.

Lemma seedInitialData_world w :
  (main.seedInitialData w).2
  = (submissions
       [ mkStudent "S_TEST_CS01_001" "张三 (测试)" "C_TEST_CS01";
         mkStudent "S_TEST_CS01_002" "李四 (测试)" "C_TEST_CS01";
         mkStudent "S_TEST_EE02_001" "王五 (测试)" "C_TEST_EE02" ]
       (AddClass (mkClazz "C_TEST_EE02" "测试电子班")
          (AddClass (mkClazz "C_TEST_CS01" "测试计算机班") w).2).2).2.
Proof.
  unfold main.seedInitialData, bind. cbn [submissions Clazz_ID]. unfold bind.
  destruct (AddClass _ w) as [e1 w1]. cbn [snd].
  destruct (AddClass _ w1) as [e2 w2]. cbn [snd].
  destruct (AddStudent _ w2) as [e3 w3].
  destruct (AddStudent _ w3) as [e4 w4].
  by destruct (AddStudent _ w4) as [e5 w5].
Qed.

(** Two class writes and a batch, as the two seedings are. *)
Lemma seeding_preserves class1 class2 students w :
  well_formed (db w) → roster_inv (db w) →
  (∀ st, st ∈ students →
         enrolled_only_in (db w) (Student_ClassID st) (Student_ID st)) →
  (∀ st1 st2, st1 ∈ students → st2 ∈ students →
              Student_ID st1 = Student_ID st2 →
              Student_ClassID st1 = Student_ClassID st2) →
  let w2 := (AddClass class2 (AddClass class1 w).2).2 in
  well_formed (db (submissions students w2).2)
  ∧ roster_inv (db (submissions students w2).2).
Proof.
  intros Hwf Hinv Honly Hone w2.
  apply submissions_preserve_mixed; [| | |done].
  - by do 2 apply AddClass_well_formed.
  - by do 2 apply AddClass_preserves.
  - intros st Hin other Hne. subst w2.
    rewrite !AddClass_class_students. by apply Honly.
Qed.

End batches.

(** X17.  A batch of [AddStudent] calls keeps the store well formed and the
    roster invariant, under every fault schedule, when each student of the
    batch is beforehand in no student set but the one of its class and no ID
    comes in the batch under two classes.  So do [SeedData] and
    [seedInitialData] when their seed students are beforehand in no other
    class's set (as in an empty store). *)
Theorem batches_keep_the_roster_invariant (w : World) :
  well_formed (db w) → roster_inv (db w) →
  (∀ students,
     (∀ st, st ∈ students →
            enrolled_only_in (db w) (Student_ClassID st) (Student_ID st)) →
     (∀ st1 st2, st1 ∈ students → st2 ∈ students →
                 Student_ID st1 = Student_ID st2 →
                 Student_ClassID st1 = Student_ClassID st2) →
     well_formed (db (submissions students w).2)
     ∧ roster_inv (db (submissions students w).2))
  ∧ ((∀ studentID,
        studentID ∈ ["S_GO01_001"; "S_GO01_002"; "S_GO01_003"] →
        enrolled_only_in (db w) "C2024_GO01" studentID) →
     (∀ studentID,
        studentID ∈ ["S_PY02_001"; "S_PY02_002"] →
        enrolled_only_in (db w) "C2024_PY02" studentID) →
     well_formed (db (SeedData w).2) ∧ roster_inv (db (SeedData w).2))
  ∧ ((∀ studentID,
        studentID ∈ ["S_TEST_CS01_001"; "S_TEST_CS01_002"] →
        enrolled_only_in (db w) "C_TEST_CS01" studentID) →
     enrolled_only_in (db w) "C_TEST_EE02" "S_TEST_EE02_001" →
     well_formed (db (main.seedInitialData w).2)
     ∧ roster_inv (db (main.seedInitialData w).2)).
Proof.
  intros Hwf Hinv. split; [|split].
  - intros students. by apply submissions_preserve_mixed.
  - intros H1 H2. rewrite SeedData_world.
    apply seeding_preserves; [done..| |].
    + intros st Hin. repeat (apply elem_of_cons in Hin as [->|Hin]);
        [apply H1..|apply H2|apply H2|by apply elem_of_nil in Hin]; simpl;
        repeat constructor.
    + intros st1 st2 Hin1 Hin2.
      repeat (apply elem_of_cons in Hin1 as [->|Hin1]);
        try (by apply elem_of_nil in Hin1);
        repeat (apply elem_of_cons in Hin2 as [->|Hin2]);
        try (by apply elem_of_nil in Hin2); done.
  - intros H1 H2. rewrite seedInitialData_world.
    apply seeding_preserves; [done..| |].
    + intros st Hin. repeat (apply elem_of_cons in Hin as [->|Hin]);
        [apply H1..|apply H2|by apply elem_of_nil in Hin]; simpl;
        repeat constructor.
    + intros st1 st2 Hin1 Hin2.
      repeat (apply elem_of_cons in Hin1 as [->|Hin1]);
        try (by apply elem_of_nil in Hin1);
        repeat (apply elem_of_cons in Hin2 as [->|Hin2]);
        try (by apply elem_of_nil in Hin2); done.
Qed.

(** The empty store, seeded. *)
Lemma batches_keep_the_roster_invariant_witness :
  roster_inv (db (SeedData empty_world).2).
Proof.
  apply (proj1 (proj2 (batches_keep_the_roster_invariant empty_world
                         well_formed_empty roster_inv_empty))).
  - intros studentID _. apply enrolled_only_in_empty.
  - intros studentID _. apply enrolled_only_in_empty.
Defined.

(** ** The seeding at start-up *)

Section start_up.

Implicit Types (d : gmap string value) (w : World).

Lemma Client_SCard_eq k w :
  main.Client_SCard k w
  = (if next_fault w then (0, Some (redis_error redis_ConnErr))
     else match db w !! k with
          | None => (0, None)
          | Some (VSet s) => (size s, None)
          | Some (VHash _) => (0, Some (redis_error redis_WrongType))
          end,
     sent [] w).
Proof.
  unfold main.Client_SCard, bind, roundtrip, next_fault, sent, ret, get_db.
  destruct (faults w) as [|[] fs]; simpl; try done;
    by destruct (db w !! k) as [[]|].
Qed.

(** The seeding is skipped when SCARD fails or counts a class. *)
Lemma checkAndSeedData_skips w :
  next_fault w = true
  ∨ (∃ h, db w !! classesKey = Some (VHash h))
  ∨ members (db w) classesKey ≠ ∅ →
  main.checkAndSeedData w = (tt, sent [] w).
Proof.
  intros H. unfold main.checkAndSeedData, bind. rewrite Client_SCard_eq.
  change main.classesKeyForCheck with classesKey.
  destruct (next_fault w); [done|].
  destruct H as [H|[[h H]|H]]; [done|by rewrite H|].
  unfold members in H.
  destruct (db w !! classesKey) as [[s|h]|]; [|done..].
  destruct (size s =? 0) eqn:E; [|done].
  by apply Nat.eqb_eq, size_empty_iff, leibniz_equiv in E.
Qed.

(** It runs when SCARD goes through and counts nothing. *)
Lemma checkAndSeedData_seeds w :
  next_fault w = false →
  db w !! classesKey = None ∨ db w !! classesKey = Some (VSet ∅) →
  main.checkAndSeedData w = main.seedInitialData (sent [] w).
Proof.
  intros Hq H. unfold main.checkAndSeedData, bind. rewrite Client_SCard_eq, Hq.
  change main.classesKeyForCheck with classesKey.
  destruct H as [-> | ->]; [done|]. by rewrite size_empty.
Qed.

(** An [AddClass] whose round trip goes through lists the class, whatever
    becomes of its record. *)
Lemma AddClass_lists clazz w :
  is_empty (Clazz_ID clazz) = false →
  is_empty (Clazz_Name clazz) = false →
  next_fault w = false →
  (∀ h, db w !! classesKey ≠ Some (VHash h)) →
  class_listed (db (AddClass clazz w).2) (Clazz_ID clazz).
Proof.
  intros Hid Hname Hq Hc. rewrite AddClass_eq, Hq by done. simpl.
  unfold class_listed. rewrite after_class_write, members_exec_HMSet.
  rewrite members_exec_SAdd_ok by by apply exec_SAdd_succeeds.
  apply elem_of_union_l. by apply elem_of_singleton.
Qed.

Lemma seedInitialData_grows w : grows (db w) (db (main.seedInitialData w).2).
Proof.
  rewrite seedInitialData_world.
  eapply grows_trans; [|apply submissions_grows].
  eapply grows_trans; apply AddClass_grows.
Qed.

Lemma SeedData_grows w : grows (db w) (db (SeedData w).2).
Proof.
  rewrite SeedData_world.
  eapply grows_trans; [|apply submissions_grows].
  eapply grows_trans; apply AddClass_grows.
Qed.

Lemma grows_class_listed d d' classID :
  grows d d' → class_listed d classID → class_listed d' classID.
Proof. intros Hg. by apply (grows_members d d' classesKey). Qed.

Lemma seedInitialData_lists w :
  quiet 2 w →
  (∀ h, db w !! classesKey ≠ Some (VHash h)) →
  class_listed (db (main.seedInitialData w).2) "C_TEST_CS01"
  ∧ class_listed (db (main.seedInitialData w).2) "C_TEST_EE02".
Proof.
  intros [Hq1 Hq]%quiet_S Hc. rewrite seedInitialData_world.
  set (class1 := mkClazz "C_TEST_CS01" "测试计算机班").
  set (class2 := mkClazz "C_TEST_EE02" "测试电子班").
  pose proof (AddClass_lists class1 w eq_refl eq_refl Hq1 Hc) as Hl1.
  assert (next_fault (AddClass class1 w).2 = false) as Hq2.
  { apply (quiet_S 0), Hq. rewrite AddClass_eq by done.
    by destruct (next_fault w). }
  pose proof (AddClass_lists class2 (AddClass class1 w).2 eq_refl eq_refl Hq2
                (class_listed_is_set _ _ Hl1)) as Hl2.
  split.
  - eapply grows_class_listed; [apply submissions_grows|].
    eapply grows_class_listed; [apply AddClass_grows|exact Hl1].
  - eapply grows_class_listed; [apply submissions_grows|exact Hl2].
Qed.

End start_up.

(** X18.  [checkAndSeedData] leaves the keyspace alone when its SCARD fails
    or the global class set has a member, and otherwise runs
    [seedInitialData], which like [SeedData] only grows the keyspace.  When
    the class set is missing or empty and no fault is scheduled for the first
    three round trips, both test classes are listed afterwards; a further
    [checkAndSeedData] on that keyspace then changes nothing. *)
Theorem start_up_seeds_once (w : World) :
  (next_fault w = true
   ∨ (∃ h, db w !! classesKey = Some (VHash h))
   ∨ members (db w) classesKey ≠ ∅ →
   db (main.checkAndSeedData w).2 = db w)
  ∧ grows (db w) (db (main.checkAndSeedData w).2)
  ∧ grows (db w) (db (SeedData w).2)
  ∧ (quiet 3 w →
     db w !! classesKey = None ∨ db w !! classesKey = Some (VSet ∅) →
     let w1 := (main.checkAndSeedData w).2 in
     class_listed (db w1) "C_TEST_CS01"
     ∧ class_listed (db w1) "C_TEST_EE02"
     ∧ ∀ w', db w' = db w1 → db (main.checkAndSeedData w').2 = db w').
Proof.
  split; [|split; [|split]].
  - intros H. by rewrite checkAndSeedData_skips.
  - destruct (next_fault w) eqn:Hq;
      [rewrite checkAndSeedData_skips by (by left); apply grows_refl|].
    destruct (db w !! classesKey) as [[s|h]|] eqn:E.
    + destruct (decide (s = ∅)) as [->|Hs].
      * rewrite checkAndSeedData_seeds by (by try right).
        apply (seedInitialData_grows (sent [] w)).
      * rewrite checkAndSeedData_skips; [apply grows_refl|].
        right; right. unfold members. by rewrite E.
    + rewrite checkAndSeedData_skips; [apply grows_refl|].
      right; left. by exists h.
    + rewrite checkAndSeedData_seeds by (by try left).
      apply (seedInitialData_grows (sent [] w)).
  - apply SeedData_grows.
  - intros [Hq1 Hq]%quiet_S Hk w1. subst w1.
    rewrite checkAndSeedData_seeds by done.
    destruct (seedInitialData_lists (sent [] w)) as [Hl1 Hl2].
    { by apply Hq. }
    { intros h. simpl. by destruct Hk as [-> | ->]. }
    split; [done|]. split; [done|].
    intros w' Hdb. rewrite checkAndSeedData_skips; [done|].
    right; right. rewrite Hdb. intros Hempty.
    unfold class_listed in Hl1. rewrite Hempty in Hl1.
    by apply not_elem_of_empty in Hl1.
Qed.

(** The empty store at start-up. *)
Lemma start_up_seeds_once_witness :
  class_listed (db (main.checkAndSeedData empty_world).2) "C_TEST_CS01".
Proof.
  apply (proj2 (proj2 (proj2 (start_up_seeds_once empty_world)))).
  - unfold quiet. simpl. constructor.
  - left. apply lookup_empty.
Defined.

(** ** Errors after a partial write *)

Section partial.

Implicit Types (d : gmap string value) (w : World).

Lemma exec_HMSet_fails k f d s :
  d !! k = Some (VSet s) → exec_HMSet k f d = (d, Some redis_WrongType).
Proof. intros Hk. unfold exec_HMSet. by rewrite Hk. Qed.

(** Against a record key that holds a set, [AddClass] lists the class,
    stores no record and returns an error. *)
Lemma AddClass_partial clazz w s :
  is_empty (Clazz_ID clazz) = false →
  is_empty (Clazz_Name clazz) = false →
  next_fault w = false →
  (∀ h, db w !! classesKey ≠ Some (VHash h)) →
  db w !! getClassInfoKey (Clazz_ID clazz) = Some (VSet s) →
  (AddClass clazz w).1 ≠ None
  ∧ class_listed (db (AddClass clazz w).2) (Clazz_ID clazz)
  ∧ class_record (db (AddClass clazz w).2) (Clazz_ID clazz) = None.
Proof.
  intros Hid Hname Hq Hc Hk.
  split; [|split; [by apply AddClass_lists|]].
  - intros (_ & _ & _ & Hp & _)%AddClass_ok. revert Hp.
    unfold class_write. rewrite exec_pipeline_2. cbn [snd exec_command].
    rewrite exec_SAdd_succeeds by done.
    rewrite (exec_HMSet_fails _ _ _ s); [done|].
    rewrite lookup_exec_SAdd_ne; [done|]. apply classesKey_ne_info.
  - rewrite AddClass_eq, Hq by done. simpl.
    unfold class_record, record. rewrite after_class_write.
    rewrite (exec_HMSet_fails _ _ _ s).
    + simpl. rewrite lookup_exec_SAdd_ne by apply classesKey_ne_info.
      by rewrite Hk.
    + rewrite lookup_exec_SAdd_ne; [done|]. apply classesKey_ne_info.
Qed.

(** Against a student set key that holds a hash, [AddStudent] on a listed
    class stores the record of the student, enrols nobody and returns an
    error. *)
Lemma AddStudent_partial student w h :
  is_empty (Student_ID student) = false →
  is_empty (Student_Name student) = false →
  is_empty (Student_ClassID student) = false →
  quiet 2 w →
  class_listed (db w) (Student_ClassID student) →
  db w !! getClassStudentsKey (Student_ClassID student) = Some (VHash h) →
  (∀ s, db w !! getStudentInfoKey (Student_ID student) ≠ Some (VSet s)) →
  (AddStudent student w).1 ≠ None
  ∧ student_record (db (AddStudent student w).2) (Student_ID student)
    = Some student
  ∧ ∀ classID,
      class_students (db (AddStudent student w).2) classID
      = class_students (db w) classID.
Proof.
  intros Hid Hname Hcid [Hq1 Hq]%quiet_S Hl Hk Hr.
  split; [by apply (AddStudent_blocked student w h)|].
  assert (db (AddStudent student w).2 = after (student_write student) (db w))
    as ->.
  { rewrite AddStudent_eq by done.
    rewrite ClassExists_listed;
      [|done|by apply (class_listed_is_set _ _ Hl)].
    rewrite bool_decide_eq_true_2 by done.
    rewrite AddStudent_write_eq.
    set (w1 := sent _ w).
    by rewrite (proj1 (quiet_S 0 w1 (Hq w1 eq_refl))). }
  split.
  - rewrite after_student_write, (exec_SAdd_fails _ _ _ h) by done. simpl.
    destruct (exec_HMSet_ok (getStudentInfoKey (Student_ID student))
                {[ "id" := Student_ID student;
                   "name" := Student_Name student;
                   "classId" := Student_ClassID student ]} (db w) Hr)
      as (h' & Hh' & _).
    unfold student_record, record. rewrite Hh'.
    rewrite (size_union_ne_0 _ _ "id" (Student_ID student)) by done.
    simpl. destruct student as [id name cid]. simpl. f_equal; f_equal.
    + by apply field_union_l.
    + by apply field_union_l.
    + by apply field_union_l.
  - intros classID. unfold class_students.
    rewrite after_student_write, members_exec_HMSet.
    by rewrite (exec_SAdd_fails _ _ _ h).
Qed.

End partial.

(** X19.  An error does not mean that nothing was written: the two writes of
    a pipeline are independent.  When the record key of a class holds a set
    (it is the student set key of another class), [AddClass] returns an
    error, yet the class is listed afterwards, without a record.  When the
    student set key of a listed class holds a hash, [AddStudent] returns an
    error, yet the record of the student is stored afterwards, and no
    student set has changed. *)
Theorem failed_writes_are_partial :
  (∀ clazz w s,
     Clazz_ID clazz ≠ "" → Clazz_Name clazz ≠ "" →
     next_fault w = false →
     (∀ h, db w !! classesKey ≠ Some (VHash h)) →
     db w !! getClassInfoKey (Clazz_ID clazz) = Some (VSet s) →
     (AddClass clazz w).1 ≠ None
     ∧ class_listed (db (AddClass clazz w).2) (Clazz_ID clazz)
     ∧ class_record (db (AddClass clazz w).2) (Clazz_ID clazz) = None)
  ∧ (∀ student w h,
       Student_ID student ≠ "" → Student_Name student ≠ "" →
       Student_ClassID student ≠ "" →
       quiet 2 w →
       class_listed (db w) (Student_ClassID student) →
       db w !! getClassStudentsKey (Student_ClassID student)
         = Some (VHash h) →
       (∀ s, db w !! getStudentInfoKey (Student_ID student)
             ≠ Some (VSet s)) →
       (AddStudent student w).1 ≠ None
       ∧ student_record (db (AddStudent student w).2) (Student_ID student)
         = Some student
       ∧ ∀ classID,
           class_students (db (AddStudent student w).2) classID
           = class_students (db w) classID).
Proof.
  split.
  - intros clazz w s Hid%is_empty_false Hname%is_empty_false.
    by apply AddClass_partial.
  - intros student w h Hid%is_empty_false Hname%is_empty_false
      Hcid%is_empty_false.
    by apply AddStudent_partial.
Qed.

(** After a student of class [A], the class [A:students] is listed by a
    failing [AddClass] and has no record. *)
Lemma failed_writes_are_partial_witness :
  let w1 := (AddStudent (mkStudent "s1" "Alice" "A") empty_world).2 in
  let w2 := (AddClass (mkClazz "A:students" "Roster of A") w1).2 in
  (AddClass (mkClazz "A:students" "Roster of A") w1).1 ≠ None
  ∧ class_listed (db w2) "A:students"
  ∧ class_record (db w2) "A:students" = None.
Proof.
  intros w1 w2.
  apply (proj1 failed_writes_are_partial
           (mkClazz "A:students" "Roster of A") w1 {["s1"]}).
  - discriminate.
  - discriminate.
  - reflexivity.
  - intros h. vm_compute. discriminate.
  - vm_compute. reflexivity.
Defined.

(** X20.  Once [AddClass] has returned nil for a class, [ClassExists]
    answers "yes" for its ID in every world whose keyspace has grown from the
    one the call left, whenever its round trip goes through. *)
Theorem added_class_exists (clazz : Clazz) (w w' : World) :
  (AddClass clazz w).1 = None →
  grows (db (AddClass clazz w).2) (db w') →
  next_fault w' = false →
  (ClassExists (Clazz_ID clazz) w').1 = (true, None).
Proof.
  intros Hok Hg Hq.
  apply AddClass_ok in Hok as (_ & _ & _ & Hp & Hw).
  apply class_write_ok in Hp as [Hl0 _].
  assert (class_listed (db (AddClass clazz w).2) (Clazz_ID clazz)) as Hl
    by by rewrite Hw.
  pose proof (grows_class_listed _ _ _ Hg Hl) as Hl'.
  rewrite ClassExists_listed; [|done|by apply (class_listed_is_set _ _ Hl')].
  cbn [fst]. by rewrite bool_decide_eq_true_2.
Qed.

(** A class, then a student of another class, then the check. *)
Lemma added_class_exists_witness :
  let w1 := (AddClass (mkClazz "C2024_GO01" "2024 Go Backend Class 1")
                      empty_world).2 in
  let w2 := (AddStudent (mkStudent "S_PY02_001" "David" "C2024_PY02") w1).2 in
  (ClassExists "C2024_GO01" w2).1 = (true, None).
Proof.
  intros w1 w2.
  apply (added_class_exists
           (mkClazz "C2024_GO01" "2024 Go Backend Class 1") empty_world w2).
  - vm_compute. reflexivity.
  - apply AddStudent_grows.
  - vm_compute. reflexivity.
Defined.

(** X21.  Re-enrolment always breaks the roster invariant: when [AddStudent]
    returns nil for a student whose ID is already in the student set of
    another class, the ID is afterwards in both sets while its record names
    the new class only, so the invariant does not hold, whatever the store
    was. *)
Theorem reenrolment_always_breaks_the_invariant (student : Student)
    (other : string) (w : World) :
  other ≠ Student_ClassID student →
  Student_ID student ∈ class_students (db w) other →
  (AddStudent student w).1 = None →
  let w' := (AddStudent student w).2 in
  Student_ID student ∈ class_students (db w') other
  ∧ Student_ID student ∈ class_students (db w') (Student_ClassID student)
  ∧ student_record (db w') (Student_ID student) = Some student
  ∧ ¬ roster_inv (db w').
Proof.
  intros Hne Hin Hok w'.
  pose proof (AddStudent_stored student w Hok) as (_ & Hin' & Hrec).
  assert (Student_ID student ∈ class_students (db w') other) as Hstill.
  { subst w'. by rewrite AddStudent_other_class. }
  split; [done|]. split; [done|]. split; [done|].
  intros Hinv.
  destruct (Hinv other (Student_ID student) Hstill) as (st & Hst & _ & Hc).
  subst w'. rewrite Hrec in Hst. injection Hst as <-. by apply Hne.
Qed.

(** Student [s1] of class [A], added again with class [B]. *)
Lemma reenrolment_always_breaks_the_invariant_witness :
  let w1 := (AddStudent (mkStudent "s1" "Alice" "A") empty_world).2 in
  ¬ roster_inv (db (AddStudent (mkStudent "s1" "Alice" "B") w1).2).
Proof.
  intros w1.
  apply (reenrolment_always_breaks_the_invariant
           (mkStudent "s1" "Alice" "B") "A" w1).
  - discriminate.
  - apply (bool_decide_unpack _). vm_compute. exact I.
  - vm_compute. reflexivity.
Defined.

(** ** The import into a class that exists *)

Section import_listed.

Implicit Types (w : World).

Lemma Import_ensure_listed classID w :
  class_listed (db w) classID → db (Import_ensure classID w).2 = db w.
Proof.
  intros Hl. rewrite Import_ensure_eq, ClassExists_eq.
  destruct (next_fault w); [done|].
  unfold class_listed, members in Hl.
  destruct (db w !! classesKey) as [[s|h]|]; [|done|].
  - by rewrite bool_decide_eq_true_2.
  - by apply not_elem_of_empty in Hl.
Qed.

Lemma submissions_listed classID students :
  (∀ st, st ∈ students → Student_ClassID st = classID) →
  ∀ w,
    class_listed (db w) classID →
    ∀ other, class_record (db (submissions students w).2) other
             = class_record (db w) other.
Proof.
  induction students as [|st rest IH]; intros Hclass w Hl other; [done|].
  cbn [submissions]. unfold bind.
  assert (Student_ClassID st = classID) as Hst by (apply Hclass; left).
  assert (class_record (db (AddStudent st w).2) other
          = class_record (db w) other
          ∧ class_listed (db (AddStudent st w).2) classID) as [Hrec Hl1].
  { rewrite <- Hst in Hl.
    destruct (AddStudent_listed_db st w Hl) as [-> | ->]; [by rewrite <- Hst|].
    rewrite class_record_after_student_write.
    split; [done|]. rewrite <- Hst. by apply class_listed_after_student_write. }
  destruct (AddStudent st w) as [e w1]. simpl in *.
  specialize (IH (λ st' Hin, Hclass st' (list_elem_of_further _ _ _ Hin))
                 w1 Hl1 other).
  destruct (submissions rest w1) as [errs w2]. simpl in *. congruence.
Qed.

End import_listed.

(** X22.  An import into a class that is already listed writes no class:
    the record of every class is afterwards what it was, so the name of the
    target class is not replaced by "Imported Class ..." or by the
    placeholder of [AddStudent]. *)
Theorem import_keeps_listed_class (file : excelize.Reader)
    (classID : string) (w : World) :
  class_listed (db w) classID →
  ∀ other,
    class_record (db (ImportStudentsFromExcel file classID w).2) other
    = class_record (db w) other.
Proof.
  intros Hl other. rewrite Import_world.
  pose proof (Import_ensure_listed classID w Hl) as Hdb.
  destruct (Import_ensure classID w).1; [by rewrite Hdb|].
  destruct (Import_read file) as [rows|e]; [|by rewrite Hdb].
  rewrite (submissions_listed classID); [by rewrite Hdb| |by rewrite Hdb].
  intros st. apply candidates_class.
Qed.

(** Two students imported into a class with a name of its own. *)
Lemma import_keeps_listed_class_witness :
  let w0 := (AddClass (mkClazz "C1" "Algebra") empty_world).2 in
  class_record
    (db (ImportStudentsFromExcel
           (excelize.Workbook
              [excelize.mkSheet "Sheet1"
                 (inl [["id"; "name"]; ["1"; "a"]; ["2"; "b"]])])
           "C1" w0).2) "C1"
  = class_record (db w0) "C1".
Proof.
  intros w0. apply import_keeps_listed_class.
  unfold class_listed. apply (bool_decide_unpack _). vm_compute. exact I.
Defined.
